(** * Organize-And-Rename-Files: a shallow embedding of
      [organize_and_rename_files.py] and the properties of its
      date-resolution and placement pipeline.

    Conventions of the embedding.
    - A Python [str] is a list of code points.  Code points are [ascii]
      (0..255, the Latin-1 range); in that range the only characters that
      the regular-expression class [\d] and [int()] accept as decimal
      digits are '0'..'9'.
    - A Python [int] is a [Z].
    - [None]/exceptions: a function that may raise returns [option] (pure
      code, where the handler ignores the exception) or a [result] in the
      monad [M] (effectful code).
    - [os.path] is [posixpath].
    - [strftime] is the C library's.  glibc writes [%Y] as the decimal
      year without padding (999 for the year 999, four digits from the
      year 1000 on) and the other directives with two digits.
    - [print] is taken to succeed: what the standard output refuses (a
      name it cannot encode, a closed stream) is outside the embedding.
    - The file system, the image library, the probe tool and [json.loads]
      are an interface, [Platform]; a run records what it prints and what
      it calls in a trace.
    - [os.walk] is the top-down, stack-based traversal of CPython 3.12
      and later; the number of directories it lists is bounded by a
      fuel. *)

From Stdlib Require Import ZArith String Ascii DecimalString Bool List Lia.
Import ListNotations.
Open Scope Z_scope.

(** ** Strings *)

Definition str := list ascii.

(** A string literal of the source. *)
Definition L (s : string) : str := list_ascii_of_string s.

Definition ord (c : ascii) : Z := Z.of_N (N_of_ascii c).
Definition chr (z : Z) : ascii := ascii_of_N (Z.to_N z).

Definition ascii_eqb (a b : ascii) : bool := ord a =? ord b.

(** [c.isdigit()] on Latin-1, also the class [\d]. *)
Definition is_digit (c : ascii) : bool := (48 <=? ord c) && (ord c <=? 57).

(** [s[i:j]] for [0 <= i <= j]. *)
Definition slice (i j : nat) (s : str) : str := firstn (j - i) (skipn i s).

Fixpoint str_eqb (a b : str) : bool :=
  match a, b with
  | [], [] => true
  | x :: a', y :: b' => ascii_eqb x y && str_eqb a' b'
  | _, _ => false
  end.

(** [s.startswith(p)] *)
Fixpoint startswith (p s : str) : bool :=
  match p, s with
  | [], _ => true
  | x :: p', y :: s' => ascii_eqb x y && startswith p' s'
  | _ :: _, [] => false
  end.

(** [s.endswith(p)] *)
Definition endswith (p s : str) : bool := startswith (rev p) (rev s).

(** [s.endswith((p1, ..., pn))] *)
Definition endswith_any (ps : list str) (s : str) : bool :=
  existsb (fun p => endswith p s) ps.

(** [c.lower()] on Latin-1: 'A'..'Z', and the letters 0xC0..0xDE except
    the multiplication sign 0xD7, move up by 32. *)
Definition lower_char (c : ascii) : ascii :=
  let n := ord c in
  if ((65 <=? n) && (n <=? 90))
     || ((192 <=? n) && (n <=? 222) && negb (n =? 215))
  then chr (n + 32) else c.

Definition lower (s : str) : str := map lower_char s.

(** [s.replace(old, new)] where [old] is one character. *)
Definition replace (old : ascii) (new : str) (s : str) : str :=
  flat_map (fun c => if ascii_eqb c old then new else [c]) s.

(** The first comparison decides unless it is [Eq]. *)
Definition lexc (c1 c2 : comparison) : comparison :=
  match c1 with Eq => c2 | _ => c1 end.

(** Python's order on [str]: lexicographic on code points, a proper prefix
    is smaller. *)
Fixpoint str_compare (a b : str) : comparison :=
  match a, b with
  | [], [] => Eq
  | [], _ :: _ => Lt
  | _ :: _, [] => Gt
  | x :: a', y :: b' => lexc (ord x ?= ord y) (str_compare a' b')
  end.

Definition str_lt (a b : str) : Prop := str_compare a b = Lt.

(** ** Integers and their decimal text *)

Definition int_step (acc : option Z) (c : ascii) : option Z :=
  match acc with
  | Some a => if is_digit c then Some (10 * a + (ord c - 48)) else None
  | None => None
  end.

(** [int(s)] for a string of decimal digits; [None] is [ValueError].  The
    program applies [int] only to slices of regular-expression groups made
    of digits. *)
Definition int_ (s : str) : option Z :=
  match s with
  | [] => None
  | _ => fold_left int_step s (Some 0)
  end.

(** The [w] low decimal digits of [n], most significant first: the
    zero-padded fixed-width rendering [%0wd] of [0 <= n < 10^w]. *)
Fixpoint zpad (w : nat) (n : Z) : str :=
  match w with
  | O => []
  | S w' => zpad w' (n / 10) ++ [chr (48 + n mod 10)]
  end.

(** ** [datetime.datetime] *)

Record datetime := mkdatetime {
  year : Z; month : Z; day : Z; hour : Z; minute : Z; second : Z
}.

Definition is_leap (y : Z) : bool :=
  (y mod 4 =? 0) && (negb (y mod 100 =? 0) || (y mod 400 =? 0)).

Definition days_in_month (y m : Z) : Z :=
  if m =? 2 then (if is_leap y then 29 else 28)
  else if (m =? 4) || (m =? 6) || (m =? 9) || (m =? 11) then 30
  else 31.

(** The range checks of the [datetime] constructor. *)
Definition valid_fields (y m d hh mm ss : Z) : bool :=
  (1 <=? y) && (y <=? 9999) && (1 <=? m) && (m <=? 12)
  && (1 <=? d) && (d <=? days_in_month y m)
  && (0 <=? hh) && (hh <=? 23) && (0 <=? mm) && (mm <=? 59)
  && (0 <=? ss) && (ss <=? 59).

Definition valid_datetime (t : datetime) : bool :=
  valid_fields (year t) (month t) (day t) (hour t) (minute t) (second t).

(** [datetime.datetime(y, m, d, hh, mm, ss)]; [None] is [ValueError]. *)
Definition datetime_new (y m d hh mm ss : Z) : option datetime :=
  if valid_fields y m d hh mm ss then Some (mkdatetime y m d hh mm ss)
  else None.

(** Comparison of naive datetimes: field by field, year first. *)
Definition datetime_compare (a b : datetime) : comparison :=
  lexc (year a ?= year b)
    (lexc (month a ?= month b)
      (lexc (day a ?= day b)
        (lexc (hour a ?= hour b)
          (lexc (minute a ?= minute b) (second a ?= second b))))).

Definition datetime_lt (a b : datetime) : Prop := datetime_compare a b = Lt.

(** [%Y] as glibc writes it: the decimal digits of the year, without
    padding.  A [datetime] holds the years 1 .. 9999. *)
Definition year_text (y : Z) : str :=
  if y <? 10 then zpad 1 y
  else if y <? 100 then zpad 2 y
  else if y <? 1000 then zpad 3 y
  else zpad 4 y.

(** [t.strftime(fmt)] for the directives the program uses.  [%Y] is the
    year as the C library writes it; the others are zero-padded to two
    digits. *)
Fixpoint strftime (t : datetime) (fmt : str) : str :=
  match fmt with
  | [] => []
  | c :: rest =>
      if ascii_eqb c "%"%char then
        match rest with
        | [] => [c]
        | d :: rest' =>
            (if ascii_eqb d "Y"%char then year_text (year t)
             else if ascii_eqb d "m"%char then zpad 2 (month t)
             else if ascii_eqb d "d"%char then zpad 2 (day t)
             else if ascii_eqb d "H"%char then zpad 2 (hour t)
             else if ascii_eqb d "M"%char then zpad 2 (minute t)
             else if ascii_eqb d "S"%char then zpad 2 (second t)
             else [c; d]) ++ strftime t rest'
        end
      else c :: strftime t rest
  end.

(** ** The filename date parser *)

(** Exceptions caught and ignored: [None] stands for a raised
    [ValueError]. *)
Definition obind {A B} (o : option A) (f : A -> option B) : option B :=
  match o with Some a => f a | None => None end.

Declare Scope opt_scope.
Delimit Scope opt_scope with opt.
Notation "x <- e ;; k" := (obind e (fun x => k))
  (at level 61, e at next level, right associativity) : opt_scope.

(** [try: first  except: second] where only the value matters. *)
Definition or_else {A} (first second : option A) : option A :=
  match first with Some a => Some a | None => second end.

(** [\d{n}] at the start of [s]: the group and the rest. *)
Fixpoint digits (n : nat) (s : str) : option (str * str) :=
  match n with
  | O => Some ([], s)
  | S n' =>
      match s with
      | c :: s' =>
          if is_digit c then
            match digits n' s' with
            | Some (g, r) => Some (c :: g, r)
            | None => None
            end
          else None
      | [] => None
      end
  end.

(** [(\d{8})_(\d{6})] at the start of [s]: the two groups. *)
Definition pattern_a (s : str) : option (str * str) :=
  match digits 8 s with
  | Some (g1, c :: r) =>
      if ascii_eqb c "_"%char then
        match digits 6 r with
        | Some (g2, _) => Some (g1, g2)
        | None => None
        end
      else None
  | _ => None
  end.

(** [(\d{14})] at the start of [s]. *)
Definition pattern_b (s : str) : option str :=
  match digits 14 s with
  | Some (g, _) => Some g
  | None => None
  end.

(** [re.search]: the match at the leftmost position that has one. *)
Fixpoint re_search {A} (pat : str -> option A) (s : str) : option A :=
  match pat s with
  | Some m => Some m
  | None =>
      match s with
      | [] => None
      | _ :: s' => re_search pat s'
      end
  end.

Local Open Scope opt_scope.

Definition parse_date_from_filename (filename : str) : option datetime :=
  let match_a := re_search pattern_a filename in
  let from_a :=
    match match_a with
    | Some (part1, part2) =>
        year <- int_ (slice 0 4 part1) ;;
        month <- int_ (slice 4 6 part1) ;;
        day <- int_ (slice 6 8 part1) ;;
        hour <- int_ (slice 0 2 part2) ;;
        minute <- int_ (slice 2 4 part2) ;;
        second <- int_ (slice 4 6 part2) ;;
        datetime_new year month day hour minute second
    | None => None
    end in
  or_else from_a
    (let match_b := re_search pattern_b filename in
     match match_b with
     | Some digits =>
         year <- int_ (slice 0 4 digits) ;;
         month <- int_ (slice 4 6 digits) ;;
         day <- int_ (slice 6 8 digits) ;;
         hour <- int_ (slice 8 10 digits) ;;
         minute <- int_ (slice 10 12 digits) ;;
         second <- int_ (slice 12 14 digits) ;;
         datetime_new year month day hour minute second
     | None => None
     end).

Local Close Scope opt_scope.

(** ** [datetime.datetime.strptime]

    The format is turned into a regular expression ([_strptime.TimeRE]):
    a directive becomes a named group with ordered alternatives, a run of
    white space becomes [\s+], any other character stands for itself.  The
    expression is matched at the start of the data with backtracking; the
    first match in priority order is taken, and it must cover the whole
    data.  The formats of the program have no letters outside directives
    and use each directive once. *)

(** [\s] on Latin-1. *)
Definition is_space (c : ascii) : bool :=
  let n := ord c in
  ((9 <=? n) && (n <=? 13)) || ((28 <=? n) && (n <=? 32))
  || (n =? 133) || (n =? 160).

(** A character class as a range of code points. *)
Definition cls := (Z * Z)%type.
Definition in_cls (k : cls) (c : ascii) : bool :=
  (fst k <=? ord c) && (ord c <=? snd k).

Definition one (c : ascii) : cls := (ord c, ord c).
Definition rng (a b : ascii) : cls := (ord a, ord b).
Definition dig : cls := (48, 57).

(** The alternatives of a directive's group, in the order of the
    expression. *)
Definition directive (d : ascii) : option (list (list cls)) :=
  if ascii_eqb d "Y"%char then Some [[dig; dig; dig; dig]]
  else if ascii_eqb d "m"%char then
    Some [[one "1"; rng "0" "2"]; [one "0"; rng "1" "9"]; [rng "1" "9"]]
  else if ascii_eqb d "d"%char then
    Some [[one "3"; rng "0" "1"]; [rng "1" "2"; dig]; [one "0"; rng "1" "9"];
          [rng "1" "9"]; [one " "; rng "1" "9"]]
  else if ascii_eqb d "H"%char then
    Some [[one "2"; rng "0" "3"]; [rng "0" "1"; dig]; [dig]]
  else if ascii_eqb d "M"%char then
    Some [[rng "0" "5"; dig]; [dig]]
  else if ascii_eqb d "S"%char then
    Some [[one "6"; rng "0" "1"]; [rng "0" "5"; dig]; [dig]]
  else None.

Inductive item :=
| Lit (c : ascii)
| Spaces
| Group (d : ascii) (alts : list (list cls)).

(** The format as a list of items; [None] is the [ValueError] of a bad
    directive or of a stray [%]. *)
Fixpoint compile_format (fmt : str) : option (list item) :=
  match fmt with
  | [] => Some []
  | c :: rest =>
      if ascii_eqb c "%"%char then
        match rest with
        | [] => None
        | d :: rest' =>
            match directive d, compile_format rest' with
            | Some alts, Some items => Some (Group d alts :: items)
            | _, _ => None
            end
        end
      else if is_space c then
        match compile_format rest with
        | Some (Spaces :: items) => Some (Spaces :: items)
        | Some items => Some (Spaces :: items)
        | None => None
        end
      else
        match compile_format rest with
        | Some items => Some (Lit c :: items)
        | None => None
        end
  end.

(** A sequence of classes at the start of [s]: the text matched and the
    rest. *)
Fixpoint match_classes (ks : list cls) (s : str) : option (str * str) :=
  match ks with
  | [] => Some ([], s)
  | k :: ks' =>
      match s with
      | c :: s' =>
          if in_cls k c then
            match match_classes ks' s' with
            | Some (g, r) => Some (c :: g, r)
            | None => None
            end
          else None
      | [] => None
      end
  end.

(** The first [Some] of [f] over a list: alternatives in priority order. *)
Fixpoint first_some {A B} (f : A -> option B) (l : list A) : option B :=
  match l with
  | [] => None
  | a :: l' => or_else (f a) (first_some f l')
  end.

(** The number of leading white-space characters. *)
Fixpoint span_space (s : str) : nat :=
  match s with
  | c :: s' => if is_space c then S (span_space s') else O
  | [] => O
  end.

(** [n; n-1; ...; 1]: the lengths a greedy [\s+] tries. *)
Fixpoint countdown (n : nat) : list nat :=
  match n with
  | O => []
  | S n' => n :: countdown n'
  end.

Definition groups := list (ascii * str).

(** Backtracking match of the items at the start of [s]: the groups and
    the unmatched rest of the first match. *)
Fixpoint re_match (items : list item) (s : str) (gs : groups)
  : option (groups * str) :=
  match items with
  | [] => Some (gs, s)
  | Lit c :: items' =>
      match s with
      | x :: s' => if ascii_eqb x c then re_match items' s' gs else None
      | [] => None
      end
  | Spaces :: items' =>
      first_some (fun k => re_match items' (skipn k s) gs)
        (countdown (span_space s))
  | Group d alts :: items' =>
      first_some
        (fun alt =>
           match match_classes alt s with
           | Some (g, r) => re_match items' r ((d, g) :: gs)
           | None => None
           end)
        alts
  end.

Fixpoint group_of (d : ascii) (gs : groups) : option str :=
  match gs with
  | [] => None
  | (d', g) :: gs' => if ascii_eqb d' d then Some g else group_of d gs'
  end.

Fixpoint lstrip (s : str) : str :=
  match s with
  | c :: s' => if is_space c then lstrip s' else s
  | [] => []
  end.

(** [int(found_dict[d])], or the default of a directive the format does
    not have. *)
Definition field (d : ascii) (default : Z) (gs : groups) : option Z :=
  match group_of d gs with
  | Some g => int_ (lstrip g)
  | None => Some default
  end.

Local Open Scope opt_scope.

(** [datetime.datetime.strptime(data, fmt)]; [None] is [ValueError]. *)
Definition strptime (data fmt : str) : option datetime :=
  items <- compile_format fmt ;;
  found <- re_match items data [] ;;
  match snd found with
  | _ :: _ => None
  | [] =>
      let gs := fst found in
      year <- field "Y" 1900 gs ;;
      month <- field "m" 1 gs ;;
      day <- field "d" 1 gs ;;
      hour <- field "H" 0 gs ;;
      minute <- field "M" 0 gs ;;
      second <- field "S" 0 gs ;;
      datetime_new year month day hour minute second
  end.

Local Close Scope opt_scope.

(** ** [os.path] ([posixpath]) *)

Definition sep : ascii := "/"%char.
Definition extsep : ascii := "."%char.

(** [s.rfind(c)]: the highest index of [c], or [-1]. *)
Fixpoint rfind_from (i : Z) (c : ascii) (s : str) (found : Z) : Z :=
  match s with
  | [] => found
  | x :: s' => rfind_from (i + 1) c s' (if ascii_eqb x c then i else found)
  end.

Definition rfind (c : ascii) (s : str) : Z := rfind_from 0 c s (-1).

(** [os.path.join(a, b)] *)
Definition join (a b : str) : str :=
  if startswith [sep] b then b
  else if match a with [] => true | _ => endswith [sep] a end then a ++ b
  else a ++ sep :: b.

(** [os.path.basename(p)] *)
Definition basename (p : str) : str :=
  skipn (Z.to_nat (rfind sep p + 1)) p.

(** [os.path.splitext(p)]: the extension starts at the last dot of the
    last component, unless only dots precede it there. *)
Definition splitext (p : str) : str * str :=
  let sepIndex := rfind sep p in
  let dotIndex := rfind extsep p in
  if sepIndex <? dotIndex then
    let stem := slice (Z.to_nat (sepIndex + 1)) (Z.to_nat dotIndex) p in
    if forallb (fun c => ascii_eqb c extsep) stem then (p, [])
    else (firstn (Z.to_nat dotIndex) p, skipn (Z.to_nat dotIndex) p)
  else (p, []).

(** ** The environment: file system, image library, probe tool *)

(** The exceptions the program can meet, all under [Exception].  What
    [str(e)] prints is the library's and is not interpreted. *)
Inductive exn :=
| OSError
| ValueError
| TypeError
| AttributeError.

(** A value of an EXIF tag. *)
Inductive exif_value :=
| ExifStr (s : str)
| ExifOther.

(** [img._getexif()]: [None] or a dictionary from tag ids to values, in
    iteration order. *)
Definition exif_dict := option (list (Z * exif_value)).

(** The result of [json.loads]. *)
#[local] Set Warnings "-register-all".
Inductive json :=
| JNull
| JBool (b : bool)
| JNum (n : Z)
| JStr (s : str)
| JArr (elems : list json)
| JObj (members : list (str * json)).
#[local] Set Warnings "register-all".

(** An entry of a directory as [os.walk] classifies it. *)
Inductive entry_kind :=
| IsFile
| IsDir.

(** What the program calls outside itself.  [inl e] is a call that raises
    [e]. *)
Class Platform := {
  FS : Type;
  Stdout : Type;
  os_path_exists : FS -> str -> bool;
  os_path_isfile : FS -> str -> bool;
  os_path_islink : FS -> str -> bool;
  (** [os.scandir], entries in listing order; [None] is [OSError], which
      [os.walk] ignores. *)
  os_scandir : FS -> str -> option (list (str * entry_kind));
  os_makedirs : FS -> str -> exn + FS;
  shutil_move : FS -> str -> str -> exn + FS;
  (** [Image.open(p)] followed by [_getexif()]. *)
  image_getexif : FS -> str -> exn + exif_dict;
  (** [subprocess.run(cmd, capture_output=True, text=True)]: the return
      code and the captured standard output. *)
  subprocess_run : FS -> list str -> exn + (Z * Stdout);
  json_loads : Stdout -> exn + json;
  (** A path that does not exist cannot be listed. *)
  scandir_missing :
    forall (s : FS) (p : str),
      os_path_exists s p = false -> os_scandir s p = None
}.

(** The three paths of the CONFIG section. *)
Record config := {
  SOURCE_FOLDER : str;
  ORGANIZED_FOLDER : str;
  SKIPPED_FOLDER : str
}.

(** What a run does that can be observed, in order. *)
Inductive event :=
| Print (line : str)
| PrintExn (prefix : str) (e : exn)
| CallExists (p : str)
| CallIsfile (p : str)
| CallIslink (p : str)
| CallScandir (p : str)
| CallMakedirs (p : str)
| CallMove (src dst : str)
| CallImageOpen (p : str)
| CallSubprocess (cmd : list str).

(** How a computation ends. *)
Inductive result (A : Type) :=
| Ok (a : A)
| Raise (e : exn)
| OutOfFuel.
Arguments Ok {A} a.
Arguments Raise {A} e.
Arguments OutOfFuel {A}.

Section Program.

Context {P : Platform}.
Variable cfg : config.

Record world := mkworld {
  fs : FS;
  trace : list event
}.

(** State and exceptions. *)
Definition M (A : Type) : Type := world -> result A * world.

Definition ret {A} (a : A) : M A := fun w => (Ok a, w).

Definition bind {A B} (m : M A) (f : A -> M B) : M B :=
  fun w =>
    match m w with
    | (Ok a, w') => f a w'
    | (Raise e, w') => (Raise e, w')
    | (OutOfFuel, w') => (OutOfFuel, w')
    end.

Definition raise {A} (e : exn) : M A := fun w => (Raise e, w).

(** [try: body  except Exception as e: handler(e)] *)
Definition try_except {A} (body : M A) (handler : exn -> M A) : M A :=
  fun w =>
    match body w with
    | (Raise e, w') => handler e w'
    | r => r
    end.

Definition emit (e : event) : M unit :=
  fun w => (Ok tt, mkworld (fs w) (trace w ++ [e])).

(** A call that reads the file system. *)
Definition query {A} (e : event) (f : FS -> A) : M A :=
  fun w => (Ok (f (fs w)), mkworld (fs w) (trace w ++ [e])).

(** A call that reads the file system and may raise. *)
Definition query_exn {A} (e : event) (f : FS -> exn + A) : M A :=
  fun w =>
    let w' := mkworld (fs w) (trace w ++ [e]) in
    match f (fs w) with
    | inr a => (Ok a, w')
    | inl x => (Raise x, w')
    end.

(** A call that changes the file system, or raises and leaves it. *)
Definition command (e : event) (f : FS -> exn + FS) : M unit :=
  fun w =>
    match f (fs w) with
    | inr fs' => (Ok tt, mkworld fs' (trace w ++ [e]))
    | inl x => (Raise x, mkworld (fs w) (trace w ++ [e]))
    end.

Definition of_option {A} (e : exn) (o : option A) : M A :=
  match o with Some a => ret a | None => raise e end.

Definition of_sum {A} (r : exn + A) : M A :=
  match r with inr a => ret a | inl e => raise e end.

Declare Scope prog_scope.
Delimit Scope prog_scope with prog.
Notation "x <- e ;; k" := (bind e (fun x => k))
  (at level 61, e at next level, right associativity) : prog_scope.
Notation "e ;; k" := (bind e (fun _ => k))
  (at level 61, right associativity) : prog_scope.
Local Open Scope prog_scope.

Definition print (line : str) : M unit := emit (Print line).
Definition exists_ (p : str) : M bool :=
  query (CallExists p) (fun s => os_path_exists s p).
Definition isfile (p : str) : M bool :=
  query (CallIsfile p) (fun s => os_path_isfile s p).
Definition scandir (p : str) : M (option (list (str * entry_kind))) :=
  query (CallScandir p) (fun s => os_scandir s p).
Definition makedirs (p : str) : M unit :=
  command (CallMakedirs p) (fun s => os_makedirs s p).
Definition move (src dst : str) : M unit :=
  command (CallMove src dst) (fun s => shutil_move s src dst).

(** *** 1) Helper functions *)

Definition create_skipped_folder : M str :=
  present <- exists_ (SKIPPED_FOLDER cfg) ;;
  (if present then ret tt else makedirs (SKIPPED_FOLDER cfg)) ;;
  ret (SKIPPED_FOLDER cfg).

Definition move_to_skipped (file_path reason : str) : M unit :=
  skipped_folder <- create_skipped_folder ;;
  let destination := join skipped_folder (basename file_path) in
  print (L "Skipping file (" ++ reason ++ L "): " ++ basename file_path) ;;
  move file_path destination.

Definition generate_new_file_name (date_obj : datetime) (file_ext : str)
  : str :=
  strftime date_obj (L "%Y-%m-%d %H.%M.%S") ++ file_ext.

(** *** 2) Date/time extraction *)

(** The tag id that [PIL.ExifTags.TAGS] names [DateTimeOriginal]. *)
Definition DateTimeOriginal : Z := 36867.

(** The loop over [exif_data.items()]: the value at the first tag named
    [DateTimeOriginal]. *)
Fixpoint first_date_tag (items : list (Z * exif_value))
  : option exif_value :=
  match items with
  | [] => None
  | (tag_id, value) :: rest =>
      if tag_id =? DateTimeOriginal then Some value
      else first_date_tag rest
  end.

Definition get_image_exif_date (image_path : str) : M (option datetime) :=
  try_except
    (exif_data <- query_exn (CallImageOpen image_path)
                    (fun s => image_getexif s image_path) ;;
     match exif_data with
     | Some items =>
         match first_date_tag items with
         | Some (ExifStr value) =>
             d <- of_option ValueError
                    (strptime value (L "%Y:%m:%d %H:%M:%S")) ;;
             ret (Some d)
         | Some ExifOther => raise TypeError
         | None => ret None
         end
     | None => ret None
     end)
    (fun e =>
       emit (PrintExn (L "Error reading EXIF from " ++ basename image_path
                         ++ L ": ") e) ;;
       ret None).

(** [d.get(key, default)] on the result of [json.loads]; with a repeated
    key the last member stands.  [None] is the [AttributeError] of a value
    that is no dictionary. *)
Definition dict_get (j : json) (key : str) (default : json) : option json :=
  match j with
  | JObj members =>
      match find (fun kv => str_eqb (fst kv) key) (rev members) with
      | Some kv => Some (snd kv)
      | None => Some default
      end
  | _ => None
  end.

(** [not j] *)
Definition falsy (j : json) : bool :=
  match j with
  | JNull | JBool false | JStr [] | JArr [] | JObj [] => true
  | JNum n => n =? 0
  | _ => false
  end.

Definition get_video_ffprobe_date (video_path : str) : M (option datetime) :=
  try_except
    (let cmd := [L "ffprobe"; L "-v"; L "quiet"; L "-print_format"; L "json";
                 L "-show_entries"; L "format_tags=creation_time";
                 video_path] in
     result <- query_exn (CallSubprocess cmd)
                 (fun s => subprocess_run s cmd) ;;
     if negb (fst result =? 0) then ret None
     else
       info <- of_sum (json_loads (snd result)) ;;
       format <- of_option AttributeError
                   (dict_get info (L "format") (JObj [])) ;;
       tags <- of_option AttributeError
                 (dict_get format (L "tags") (JObj [])) ;;
       creation_str <- of_option AttributeError
                         (dict_get tags (L "creation_time") JNull) ;;
       if falsy creation_str then ret None
       else
         match creation_str with
         | JStr creation_str =>
             let creation_str := replace "Z" [] creation_str in
             let creation_str := replace "T" (L " ") creation_str in
             let creation_str := slice 0 19 creation_str in
             d <- of_option ValueError
                    (strptime creation_str (L "%Y-%m-%d %H:%M:%S")) ;;
             ret (Some d)
         | _ => raise AttributeError
         end)
    (fun e =>
       emit (PrintExn (L "Error using ffprobe on " ++ basename video_path
                         ++ L ": ") e) ;;
       ret None).

(** *** 3) Organize logic *)

Definition organize_images (file_path : str) : M unit :=
  date_taken <- get_image_exif_date file_path ;;
  date_taken <-
    match date_taken with
    | None =>
        let filename_only := fst (splitext (basename file_path)) in
        ret (parse_date_from_filename filename_only)
    | Some d => ret (Some d)
    end ;;
  match date_taken with
  | None => move_to_skipped file_path (L "No date from EXIF or filename")
  | Some date_taken =>
      let year_folder := strftime date_taken (L "%Y") in
      let target_folder := join (ORGANIZED_FOLDER cfg) year_folder in
      present <- exists_ target_folder ;;
      (if present then ret tt else makedirs target_folder) ;;
      let file_ext := snd (splitext file_path) in
      let new_file_name := generate_new_file_name date_taken file_ext in
      print (L "Organizing image: " ++ basename file_path ++ L " -> "
               ++ new_file_name) ;;
      move file_path (join target_folder new_file_name)
  end.

Definition organize_videos (file_path : str) : M unit :=
  date_taken <- get_video_ffprobe_date file_path ;;
  date_taken <-
    match date_taken with
    | None =>
        let filename_only := fst (splitext (basename file_path)) in
        ret (parse_date_from_filename filename_only)
    | Some d => ret (Some d)
    end ;;
  match date_taken with
  | None => move_to_skipped file_path (L "No date from ffprobe or filename")
  | Some date_taken =>
      let year_folder := strftime date_taken (L "%Y") in
      let target_folder := join (ORGANIZED_FOLDER cfg) year_folder in
      present <- exists_ target_folder ;;
      (if present then ret tt else makedirs target_folder) ;;
      let file_ext := snd (splitext file_path) in
      let new_file_name := generate_new_file_name date_taken file_ext in
      print (L "Organizing video: " ++ basename file_path ++ L " -> "
               ++ new_file_name) ;;
      move file_path (join target_folder new_file_name)
  end.

(** *** 4) Main logic *)

Definition image_suffixes : list str :=
  [L ".jpg"; L ".jpeg"; L ".png"; L ".gif"; L ".heic"].
Definition video_suffixes : list str :=
  [L ".mp4"; L ".mov"; L ".avi"; L ".mkv"].

Definition process_file (file_path : str) : M unit :=
  let lower := lower file_path in
  print (L "Processing file: " ++ file_path) ;;
  if endswith_any image_suffixes lower then organize_images file_path
  else if endswith_any video_suffixes lower then organize_videos file_path
  else move_to_skipped file_path (L "Unsupported file type").









End Program.

(** * Vocabulary of the properties *)

(** The fields of a timestamp fit the widths of a rendering. *)
Definition in_width (t : datetime) : bool :=
  (0 <=? year t) && (year t <? 10000)
  && (0 <=? month t) && (month t <? 100)
  && (0 <=? day t) && (day t <? 100)
  && (0 <=? hour t) && (hour t <? 100)
  && (0 <=? minute t) && (minute t <? 100)
  && (0 <=? second t) && (second t <? 100).

(** Days before the first of January of year [y], as
    [datetime._days_before_year] counts them. *)
Definition days_before_year (y : Z) : Z :=
  let y' := y - 1 in y' * 365 + y' / 4 - y' / 100 + y' / 400.

(** Days of year [y] before the first of month [m]. *)
Definition days_before_month (y m : Z) : Z :=
  match m with
  | 2 => 31 | 3 => 59 | 4 => 90 | 5 => 120 | 6 => 151 | 7 => 181
  | 8 => 212 | 9 => 243 | 10 => 273 | 11 => 304 | 12 => 334
  | _ => 0
  end + (if (2 <? m) && is_leap y then 1 else 0).

(** [date(y, m, d).toordinal()]: the first of January of year 1 is
    day 1. *)
Definition ymd2ord (y m d : Z) : Z :=
  days_before_year y + days_before_month y m + d.

(** Seconds elapsed at [t] since the start of day 0. *)
Definition seconds_of (t : datetime) : Z :=
  ymd2ord (year t) (month t) (day t) * 86400
  + hour t * 3600 + minute t * 60 + second t.

Definition year_length (y : Z) : Z := if is_leap y then 366 else 365.

(** The eight digits of the date and the six digits of the time. *)
Definition date_part (t : datetime) : str :=
  zpad 4 (year t) ++ zpad 2 (month t) ++ zpad 2 (day t).
Definition time_part (t : datetime) : str :=
  zpad 2 (hour t) ++ zpad 2 (minute t) ++ zpad 2 (second t).

(** The two renderings the parser looks for: YYYYMMDD_HHMMSS and
    YYYYMMDDHHMMSS, every field zero-padded. *)
Definition stamp_a (t : datetime) : str :=
  date_part t ++ "_"%char :: time_part t.
Definition stamp_b (t : datetime) : str := date_part t ++ time_part t.

(** The first alternative of a group that matches at the start of [s]. *)
Definition first_alt (alts : list (list cls)) (s : str)
  : option (str * str) :=
  first_some (fun alt => match_classes alt s) alts.

(** The text of a timestamp with the separators [a] (in the date), [b]
    (between date and time) and [c] (in the time). *)
Definition rendering (a b c : ascii) (t : datetime) : str :=
  zpad 4 (year t) ++ a :: zpad 2 (month t) ++ a :: zpad 2 (day t) ++ b
    :: zpad 2 (hour t) ++ c :: zpad 2 (minute t) ++ c :: zpad 2 (second t).

Definition date_time_items (a c : ascii) : list item :=
  [Group "Y" [[dig; dig; dig; dig]]; Lit a;
   Group "m" [[one "1"; rng "0" "2"]; [one "0"; rng "1" "9"]; [rng "1" "9"]];
   Lit a;
   Group "d" [[one "3"; rng "0" "1"]; [rng "1" "2"; dig];
              [one "0"; rng "1" "9"]; [rng "1" "9"]; [one " "; rng "1" "9"]];
   Spaces;
   Group "H" [[one "2"; rng "0" "3"]; [rng "0" "1"; dig]; [dig]]; Lit c;
   Group "M" [[rng "0" "5"; dig]; [dig]]; Lit c;
   Group "S" [[one "6"; rng "0" "1"]; [rng "0" "5"; dig]; [dig]]].

(** The creation time as the probe prints it: date, [T], time. *)
Definition iso_rendering (t : datetime) : str := rendering "-" "T" ":" t.

(** What follows the year and its separator in the text of a
    timestamp. *)
Definition after_year (a b c : ascii) (t : datetime) : str :=
  zpad 2 (month t) ++ a :: zpad 2 (day t) ++ b
    :: zpad 2 (hour t) ++ c :: zpad 2 (minute t) ++ c :: zpad 2 (second t).

(** The name [generate_new_file_name] gives a timestamp, without the
    extension: the year as [%Y] writes it, then the padded fields. *)
Definition generated (t : datetime) : str :=
  year_text (year t) ++ "-"%char :: after_year "-" " " "." t.

(** No separator occurs in [s]. *)
Definition no_sep (s : str) : bool :=
  forallb (fun c => negb (ascii_eqb c sep)) s.

(** The two supported media classes. *)
Inductive media :=
| Image
| Video.

(** The events that are calls of a metadata reader. *)
Definition is_reader_call (e : event) : bool :=
  match e with
  | CallImageOpen _ | CallSubprocess _ => true
  | _ => false
  end.

Definition reader_calls (tr : list event) : list event :=
  filter is_reader_call tr.

Section Vocabulary.

Context {P : Platform}.
Variable cfg : config.

(** The command line of the probe. *)
Definition ffprobe_cmd (video_path : str) : list str :=
  [L "ffprobe"; L "-v"; L "quiet"; L "-print_format"; L "json";
   L "-show_entries"; L "format_tags=creation_time"; video_path].

Definition reader (m : media) : str -> M (option datetime) :=
  match m with
  | Image => get_image_exif_date
  | Video => get_video_ffprobe_date
  end.

Definition organize (m : media) : str -> M unit :=
  match m with
  | Image => organize_images cfg
  | Video => organize_videos cfg
  end.

Definition organizing (m : media) : str :=
  match m with
  | Image => L "Organizing image: "
  | Video => L "Organizing video: "
  end.

Definition no_date_reason (m : media) : str :=
  match m with
  | Image => L "No date from EXIF or filename"
  | Video => L "No date from ffprobe or filename"
  end.

(** The line [move_to_skipped] prints. *)
Definition skipping (reason file_path : str) : event :=
  Print (L "Skipping file (" ++ reason ++ L "): " ++ basename file_path).

(** [print] seen as a step between worlds. *)
Definition printed (line : event) (w : world) : world :=
  mkworld (fs w) (trace w ++ [line]).

(** The step [if not os.path.exists(d): os.makedirs(d)]: the world after
    it, or [None] when [os.makedirs] raises. *)
Definition ensure (d : str) (w : world) : option world :=
  if os_path_exists (fs w) d then
    Some (mkworld (fs w) (trace w ++ [CallExists d]))
  else
    match os_makedirs (fs w) d with
    | inr fs' => Some (mkworld fs' (trace w ++ [CallExists d; CallMakedirs d]))
    | inl _ => None
    end.

(** The class [process_file] gives a path: the tests are made on the
    lower-cased path, images first. *)
Definition classify (file_path : str) : option media :=
  if endswith_any image_suffixes (lower file_path) then Some Image
  else if endswith_any video_suffixes (lower file_path) then Some Video
  else None.

(** The date of a file: the reader's, else the one in the stem of its
    name. *)
Definition resolve (from_metadata : option datetime) (file_path : str)
  : option datetime :=
  or_else from_metadata
    (parse_date_from_filename (fst (splitext (basename file_path)))).

(** The path [organize_images] and [organize_videos] move a file with
    date [ts] to. *)
Definition organized_path (ts : datetime) (file_path : str) : str :=
  join (ORGANIZED_FOLDER cfg) (year_text (year ts)) ++ sep
    :: generated ts ++ snd (splitext file_path).

(** The line printed before a file is moved to its year folder. *)
Definition organized_line (m : media) (ts : datetime) (file_path : str)
  : event :=
  Print (organizing m ++ basename file_path ++ L " -> "
           ++ generate_new_file_name ts (snd (splitext file_path))).

End Vocabulary.

(** ** Vocabulary of the further properties *)

(** The number of digits [s] starts with. *)
Fixpoint leading_digits (s : str) : nat :=
  match s with
  | c :: s' => if is_digit c then S (leading_digits s') else O
  | [] => O
  end.

(** The length of the longest run of digits in [s]. *)
Fixpoint longest_digit_run (s : str) : nat :=
  match s with
  | [] => O
  | _ :: s' => Nat.max (leading_digits s) (longest_digit_run s')
  end.

(** The six numbers [int] reads from the two groups of a pattern-A
    match, and from the one group of a pattern-B match, are the fields
    of [t]. *)
Definition reads_a (part1 part2 : str) (t : datetime) : Prop :=
  int_ (slice 0 4 part1) = Some (year t)
  /\ int_ (slice 4 6 part1) = Some (month t)
  /\ int_ (slice 6 8 part1) = Some (day t)
  /\ int_ (slice 0 2 part2) = Some (hour t)
  /\ int_ (slice 2 4 part2) = Some (minute t)
  /\ int_ (slice 4 6 part2) = Some (second t).

Definition reads_b (digits : str) (t : datetime) : Prop :=
  int_ (slice 0 4 digits) = Some (year t)
  /\ int_ (slice 4 6 digits) = Some (month t)
  /\ int_ (slice 6 8 digits) = Some (day t)
  /\ int_ (slice 8 10 digits) = Some (hour t)
  /\ int_ (slice 10 12 digits) = Some (minute t)
  /\ int_ (slice 12 14 digits) = Some (second t).

(** The character [c] does not occur in [s]. *)
Definition absent (c : ascii) (s : str) : bool :=
  forallb (fun x => negb (ascii_eqb x c)) s.

(** The lookups of the video reader: [info.get("format", {})], then
    [.get("tags", {})], then [.get("creation_time")]; [None] is the
    [AttributeError] of a value that is no dictionary. *)
Definition creation_time_of (info : json) : option json :=
  obind (dict_get info (L "format") (JObj [])) (fun format =>
  obind (dict_get format (L "tags") (JObj [])) (fun tags =>
  dict_get tags (L "creation_time") JNull)).

(** The events that are calls of [shutil.move]. *)
Definition is_move (e : event) : bool :=
  match e with
  | CallMove _ _ => true
  | _ => false
  end.

Definition moves (tr : list event) : list event := filter is_move tr.

(** The events a reader or [process_file] can add to the trace: no
    listing, no test of a directory entry. *)
Definition is_file_step (e : event) : bool :=
  match e with
  | CallIsfile _ | CallIslink _ | CallScandir _ => false
  | _ => true
  end.

(** The call a reader makes. *)
Definition reader_call (m : media) (file_path : str) : event :=
  match m with
  | Image => CallImageOpen file_path
  | Video => CallSubprocess (ffprobe_cmd file_path)
  end.

(** The suffixes of a class. *)
Definition suffixes_of (m : media) : list str :=
  match m with
  | Image => image_suffixes
  | Video => video_suffixes
  end.

(** ** An in-memory platform

    A small file system used to run the program on concrete inputs: paths
    map to directories or to files; a file carries what the image library
    and the probe tool report for it. *)

Module Mem.

Record file := mkfile {
  exif_of : exn + exif_dict;
  probe_of : exn + (Z * option json)
}.

Inductive node :=
| Dir
| File (f : file).

Definition t := list (str * node).

Fixpoint lookup (p : str) (s : t) : option node :=
  match s with
  | [] => None
  | (q, n) :: s' => if str_eqb q p then Some n else lookup p s'
  end.

Definition remove (p : str) (s : t) : t :=
  filter (fun e => negb (str_eqb (fst e) p)) s.

Definition exists_ (s : t) (p : str) : bool :=
  match lookup p s with Some _ => true | None => false end.

Definition isfile (s : t) (p : str) : bool :=
  match lookup p s with Some (File _) => true | _ => false end.

Definition isdir (s : t) (p : str) : bool :=
  match lookup p s with Some Dir => true | _ => false end.

(** The name of [p] inside [top], when [p] is an entry of [top]. *)
Definition entry_name (top p : str) : option str :=
  let prefix := if endswith [sep] top then top else top ++ [sep] in
  if startswith prefix p then
    let name := skipn (length prefix) p in
    match name with
    | [] => None
    | _ => if existsb (fun c => ascii_eqb c sep) name then None
           else Some name
    end
  else None.

(** The entries of [top], in the order of the store. *)
Definition listing (s : t) (top : str) : list (str * entry_kind) :=
  flat_map
    (fun e =>
       match entry_name top (fst e) with
       | Some name =>
           [(name, match snd e with Dir => IsDir | File _ => IsFile end)]
       | None => []
       end) s.

Definition scandir (s : t) (top : str) : option (list (str * entry_kind)) :=
  if negb (exists_ s top) then None
  else if isdir s top then Some (listing s top)
  else None.

Definition makedirs (s : t) (p : str) : exn + t :=
  if exists_ s p then inl OSError else inr (s ++ [(p, Dir)]).

Definition move (s : t) (src dst : str) : exn + t :=
  match lookup src s with
  | None => inl OSError
  | Some n =>
      let real_dst := if isdir s dst then join dst (basename src) else dst in
      if exists_ s real_dst && isdir s dst then inl OSError
      else inr (remove real_dst (remove src s) ++ [(real_dst, n)])
  end.

Definition getexif (s : t) (p : str) : exn + exif_dict :=
  match lookup p s with
  | Some (File f) => exif_of f
  | _ => inl OSError
  end.

(** The probe is asked about the last argument of the command. *)
Definition run (s : t) (cmd : list str) : exn + (Z * option json) :=
  match lookup (last cmd []) s with
  | Some (File f) => probe_of f
  | _ => inr (1, None)
  end.

Definition loads (out : option json) : exn + json :=
  match out with
  | Some j => inr j
  | None => inl ValueError
  end.

(** A path that is not there cannot be listed. *)
Definition scandir_absent (s : t) (p : str) (H : exists_ s p = false)
  : scandir s p = None :=
  @eq_ind_r bool false
    (fun b : bool =>
       (if negb b then None
        else if isdir s p then Some (listing s p) else None) = None)
    eq_refl (exists_ s p) H.

Definition platform : Platform := {|
  FS := t;
  Stdout := option json;
  os_path_exists := exists_;
  os_path_isfile := isfile;
  os_path_islink := fun _ _ => false;
  os_scandir := scandir;
  os_makedirs := makedirs;
  shutil_move := move;
  image_getexif := getexif;
  subprocess_run := run;
  json_loads := loads;
  scandir_missing := scandir_absent
|}.

(** A file without EXIF data and without a creation-time tag. *)
Definition plain : file :=
  mkfile (inr None) (inr (0, Some (JObj [(L "format", JObj [])]))).

End Mem.

(** ** Inputs for runs on the in-memory platform *)

(** The example of the probe's output: a file whose container holds
    [creation_time = 2023-08-09T16:24:53.000000Z]. *)
Definition example_tags : json :=
  JObj [(L "creation_time", JStr (L "2023-08-09T16:24:53.000000Z"))].
Definition example_format : json := JObj [(L "tags", example_tags)].
Definition example_info : json := JObj [(L "format", example_format)].

Definition example_video : Mem.file :=
  Mem.mkfile (inl OSError) (inr (0, Some example_info)).

Definition clip : str := L "/in/clip.mp4".

Definition example_config : config := {|
  SOURCE_FOLDER := L "/in";
  ORGANIZED_FOLDER := L "/out";
  SKIPPED_FOLDER := L "/skip"
|}.

Definition mem_world (s : Mem.t) (tr : list event) : world :=
  mkworld (P := Mem.platform) s tr.

(** A picture without EXIF data whose name carries a date, a picture
    with neither, and a text file. *)
Definition dated_picture : str := L "/in/IMG_0033_20230809_162453.JPG".
Definition undated_picture : str := L "/in/holiday.png".
Definition text_file : str := L "/in/notes.txt".
Definition other_text_file : str := L "/in/sub/notes.txt".

(** A file whose name is a dot followed by [jpg]: [os.path.splitext]
    gives it no extension. *)
Definition dot_name : str := L "/in/.jpg".

Definition example_fs : Mem.t :=
  [(L "/in", Mem.Dir); (L "/in/sub", Mem.Dir);
   (dated_picture, Mem.File Mem.plain);
   (undated_picture, Mem.File Mem.plain);
   (text_file, Mem.File Mem.plain);
   (other_text_file, Mem.File Mem.plain);
   (dot_name, Mem.File Mem.plain)].

Definition example_date : datetime := mkdatetime 2023 8 9 16 24 53.

(** The last second of the year 999 and the first of the year 1000, and
    a picture whose name carries the former. *)
Definition last_of_999 : datetime := mkdatetime 999 12 31 23 59 59.
Definition first_of_1000 : datetime := mkdatetime 1000 1 1 0 0 0.
Definition old_picture : str := L "/in/IMG_09991231_235959.jpg".

Definition old_fs : Mem.t :=
  [(L "/in", Mem.Dir); (old_picture, Mem.File Mem.plain)].

(** The example tree before a run, and with the year folder or the skip
    folder added. *)
Definition start_world : world := mem_world example_fs [].

Definition with_year_folder (seen : list event) : world :=
  mem_world (example_fs ++ [(L "/out/2023", Mem.Dir)])
    (seen ++ [CallExists (L "/out/2023"); CallMakedirs (L "/out/2023")]).

Definition with_skip_folder (seen : list event) : world :=
  mem_world (example_fs ++ [(L "/skip", Mem.Dir)])
    (seen ++ [CallExists (L "/skip"); CallMakedirs (L "/skip")]).

(** A filename with two pattern-A matches, the first with month 13. *)
Definition two_stamps : str := L "20231301_000000_20230809_162453".

(** A filename whose pattern-A match has month 13 and whose first run of
    fourteen digits has month 99. *)
Definition two_runs : str :=
  L "20231301_000000_99999999999999_20230809162453".

(** ** Inputs of the further runs *)

(** A name as cameras write it, with fourteen digits in a row. *)
Definition video_name : str := L "VID20230809162453".

(** The organized place of the dated picture of the examples. *)
Definition organized_picture : str :=
  L "/out/2023/2023-08-09 16.24.53.JPG".

(** An EXIF dictionary with a capture time among other tags, and a
    picture that holds it. *)
Definition example_exif : list (Z * exif_value) :=
  [(271, ExifStr (L "Canon"));
   (36867, ExifStr (L "2023:08:09 16:24:53"));
   (36868, ExifStr (L "2024:01:01 00:00:00"))].

Definition exif_picture : Mem.file :=
  Mem.mkfile (inr (Some example_exif)) (inl OSError).

(** A capture time with sub-second digits appended. *)
Definition long_exif_picture : Mem.file :=
  Mem.mkfile (inr (Some [(36867, ExifStr (L "2023:08:09 16:24:53.25"))]))
    (inl OSError).

(** Pictures from a camera, and a tree that holds them beside a clip
    and a picture that is already organized. *)
Definition camera_picture : str := L "/in/DSC_0042.jpg".
Definition long_picture : str := L "/in/DSC_0043.jpg".

Definition metadata_fs : Mem.t :=
  [(L "/in", Mem.Dir);
   (camera_picture, Mem.File exif_picture);
   (long_picture, Mem.File long_exif_picture);
   (clip, Mem.File Mem.plain);
   (L "/out", Mem.Dir); (L "/out/2023", Mem.Dir);
   (organized_picture, Mem.File exif_picture)].

(** A second picture whose name carries the date of the first. *)
Definition second_picture : str := L "/in/sub/PXL_20230809_162453.JPG".

Definition twin_fs : Mem.t :=
  example_fs ++ [(second_picture, Mem.File Mem.plain)].

(** * Properties *)

Tactic Notation "enumerate" ident(n) integer(k) :=
  do k (destruct n as [|n]; [first [reflexivity | lia]|]); lia.

(** Closes the branches in which a reader returns no date. *)
Ltac done_none :=
  try (eexists; eexists; split; [reflexivity|discriminate]).

(** ** Characters and decimal text *)

Lemma ord_chr (z : Z) : 0 <= z < 256 -> ord (chr z) = z.
Proof.
  intros Hz. unfold ord, chr.
  rewrite N_ascii_embedding by lia. lia.
Qed.

Lemma ord_inj (a b : ascii) : ord a = ord b -> a = b.
Proof.
  unfold ord. intros H.
  rewrite <- (ascii_N_embedding a), <- (ascii_N_embedding b).
  f_equal. lia.
Qed.

Lemma ascii_eqb_eq (a b : ascii) : ascii_eqb a b = true <-> a = b.
Proof.
  unfold ascii_eqb. rewrite Z.eqb_eq. split.
  - apply ord_inj.
  - now intros ->.
Qed.

Lemma ascii_eqb_refl (a : ascii) : ascii_eqb a a = true.
Proof. now apply ascii_eqb_eq. Qed.

Lemma ord_digit (k : Z) : ord (chr (48 + k mod 10)) = 48 + k mod 10.
Proof.
  apply ord_chr. pose proof (Z.mod_pos_bound k 10). lia.
Qed.

Lemma is_digit_chr (k : Z) : is_digit (chr (48 + k mod 10)) = true.
Proof.
  unfold is_digit. rewrite ord_digit.
  pose proof (Z.mod_pos_bound k 10).
  apply andb_true_intro; split; apply Z.leb_le; lia.
Qed.

Lemma length_zpad (w : nat) (n : Z) : length (zpad w n) = w.
Proof.
  revert n. induction w as [|w IH]; intros n; simpl.
  - reflexivity.
  - rewrite length_app, IH. simpl. lia.
Qed.

Lemma forallb_digit_zpad (w : nat) (n : Z) :
  forallb is_digit (zpad w n) = true.
Proof.
  revert n. induction w as [|w IH]; intros n.
  - reflexivity.
  - cbn [zpad]. rewrite forallb_app, IH. cbn [forallb andb].
    now rewrite is_digit_chr.
Qed.

Lemma pow10_succ (w : nat) : 10 ^ Z.of_nat (S w) = 10 * 10 ^ Z.of_nat w.
Proof.
  rewrite Nat2Z.inj_succ. apply Z.pow_succ_r. lia.
Qed.

Lemma fold_int_zpad (w : nat) (n : Z) :
  0 <= n < 10 ^ Z.of_nat w ->
  fold_left int_step (zpad w n) (Some 0) = Some n.
Proof.
  revert n. induction w as [|w IH]; intros n Hn.
  - simpl in *. f_equal. lia.
  - rewrite pow10_succ in Hn. cbn [zpad].
    rewrite fold_left_app, IH.
    + cbn [fold_left]. unfold int_step.
      rewrite is_digit_chr, ord_digit. f_equal.
      pose proof (Z.div_mod n 10). lia.
    + split.
      * apply Z.div_pos; lia.
      * apply Z.div_lt_upper_bound; lia.
Qed.

(** [int] reads back a zero-padded number. *)
Lemma int_zpad (w : nat) (n : Z) :
  (0 < w)%nat -> 0 <= n < 10 ^ Z.of_nat w -> int_ (zpad w n) = Some n.
Proof.
  intros Hw Hn. unfold int_.
  destruct (zpad w n) as [|c s] eqn:E.
  - apply (f_equal (@length ascii)) in E. rewrite length_zpad in E.
    simpl in E. lia.
  - rewrite <- E. now apply fold_int_zpad.
Qed.

(** ** Order of strings against order of numbers *)

Lemma str_compare_refl (s : str) : str_compare s s = Eq.
Proof.
  induction s as [|c s IH]; simpl.
  - reflexivity.
  - now rewrite Z.compare_refl.
Qed.

Lemma str_compare_cons (c : ascii) (s t : str) :
  str_compare (c :: s) (c :: t) = str_compare s t.
Proof. simpl. now rewrite Z.compare_refl. Qed.

Lemma lexc_div_mod (a b : Z) (c : comparison) :
  lexc (a / 10 ?= b / 10) (lexc (a mod 10 ?= b mod 10) c) = lexc (a ?= b) c.
Proof.
  pose proof (Z.div_mod a 10). pose proof (Z.div_mod b 10).
  pose proof (Z.mod_pos_bound a 10). pose proof (Z.mod_pos_bound b 10).
  destruct (Z.compare_spec (a / 10) (b / 10)) as [Hq|Hq|Hq]; simpl.
  - destruct (Z.compare_spec (a mod 10) (b mod 10)) as [Hr|Hr|Hr]; simpl.
    + replace (a ?= b) with Eq; [reflexivity|].
      symmetry. apply Z.compare_eq_iff. lia.
    + replace (a ?= b) with Lt; [reflexivity|].
      symmetry. apply Z.compare_lt_iff. lia.
    + replace (a ?= b) with Gt; [reflexivity|].
      symmetry. apply Z.compare_gt_iff. lia.
  - replace (a ?= b) with Lt; [reflexivity|].
    symmetry. apply Z.compare_lt_iff. lia.
  - replace (a ?= b) with Gt; [reflexivity|].
    symmetry. apply Z.compare_gt_iff. lia.
Qed.

(** Fixed-width zero-padded numbers compare as text the way they compare
    as numbers, whatever follows them. *)
Lemma str_compare_zpad (w : nat) :
  forall (a b : Z) (s t : str),
    0 <= a < 10 ^ Z.of_nat w -> 0 <= b < 10 ^ Z.of_nat w ->
    str_compare (zpad w a ++ s) (zpad w b ++ t)
    = lexc (a ?= b) (str_compare s t).
Proof.
  induction w as [|w IH]; intros a b s t Ha Hb.
  - simpl in *. replace a with 0 by lia. replace b with 0 by lia.
    reflexivity.
  - rewrite pow10_succ in Ha, Hb. cbn [zpad].
    rewrite <- !app_assoc. cbn [app].
    rewrite IH.
    + cbn [str_compare]. rewrite !ord_digit.
      rewrite Z.add_compare_mono_l.
      apply lexc_div_mod.
    + split; [apply Z.div_pos; lia | apply Z.div_lt_upper_bound; lia].
    + split; [apply Z.div_pos; lia | apply Z.div_lt_upper_bound; lia].
Qed.

(** ** Valid timestamps *)

Lemma days_in_month_bounds (y m : Z) : 28 <= days_in_month y m <= 31.
Proof.
  unfold days_in_month.
  destruct (m =? 2); [destruct (is_leap y); lia|].
  destruct ((m =? 4) || (m =? 6) || (m =? 9) || (m =? 11)); lia.
Qed.

Lemma valid_fields_spec (y m d hh mm ss : Z) :
  valid_fields y m d hh mm ss = true <->
  1 <= y <= 9999 /\ 1 <= m <= 12 /\ 1 <= d <= days_in_month y m
  /\ 0 <= hh <= 23 /\ 0 <= mm <= 59 /\ 0 <= ss <= 59.
Proof.
  unfold valid_fields. rewrite !andb_true_iff, !Z.leb_le. tauto.
Qed.

Lemma valid_datetime_bounds (t : datetime) :
  valid_datetime t = true ->
  0 <= year t < 10 ^ Z.of_nat 4 /\ 0 <= month t < 10 ^ Z.of_nat 2
  /\ 0 <= day t < 10 ^ Z.of_nat 2 /\ 0 <= hour t < 10 ^ Z.of_nat 2
  /\ 0 <= minute t < 10 ^ Z.of_nat 2 /\ 0 <= second t < 10 ^ Z.of_nat 2.
Proof.
  unfold valid_datetime. rewrite valid_fields_spec.
  pose proof (days_in_month_bounds (year t) (month t)).
  change (10 ^ Z.of_nat 4) with 10000. change (10 ^ Z.of_nat 2) with 100.
  lia.
Qed.

Lemma datetime_new_valid (t : datetime) :
  valid_datetime t = true ->
  datetime_new (year t) (month t) (day t) (hour t) (minute t) (second t)
  = Some t.
Proof.
  unfold valid_datetime, datetime_new. intros ->. now destruct t.
Qed.

Lemma datetime_new_some (y m d hh mm ss : Z) (t : datetime) :
  datetime_new y m d hh mm ss = Some t ->
  t = mkdatetime y m d hh mm ss /\ valid_datetime t = true.
Proof.
  unfold datetime_new.
  destruct (valid_fields y m d hh mm ss) eqn:E; [|discriminate].
  intros [= <-]. now split.
Qed.

(** ** The order of timestamps is chronological *)

Lemma days_before_year_succ (y : Z) :
  days_before_year (y + 1) = days_before_year y + year_length y.
Proof.
  unfold days_before_year, year_length, is_leap.
  replace (y + 1 - 1) with y by lia.
  destruct (y mod 4 =? 0) eqn:E4; destruct (y mod 100 =? 0) eqn:E100;
    destruct (y mod 400 =? 0) eqn:E400; cbn [andb orb negb];
    rewrite ?Z.eqb_eq, ?Z.eqb_neq in *;
    Z.to_euclidean_division_equations; lia.
Qed.

Lemma days_before_year_mono (a b : Z) :
  a <= b -> days_before_year a <= days_before_year b.
Proof.
  unfold days_before_year. intros H.
  Z.to_euclidean_division_equations. lia.
Qed.

Lemma day_of_year_bounds (y m d : Z) :
  1 <= m <= 12 -> 1 <= d <= days_in_month y m ->
  1 <= days_before_month y m + d <= year_length y.
Proof.
  intros Hm Hd. unfold days_before_month, days_in_month, year_length in *.
  assert (C : m = 1 \/ m = 2 \/ m = 3 \/ m = 4 \/ m = 5 \/ m = 6 \/ m = 7
              \/ m = 8 \/ m = 9 \/ m = 10 \/ m = 11 \/ m = 12) by lia.
  destruct (is_leap y);
    repeat (destruct C as [-> | C]; [cbn -[Z.le Z.lt Z.add] in *; lia|]);
    subst; cbn -[Z.le Z.lt Z.add] in *; lia.
Qed.

Lemma days_before_month_step (y m1 m2 : Z) :
  1 <= m1 -> m1 < m2 -> m2 <= 12 ->
  days_before_month y m1 + days_in_month y m1 <= days_before_month y m2.
Proof.
  intros H1 H12 H2. unfold days_before_month, days_in_month.
  assert (C1 : m1 = 1 \/ m1 = 2 \/ m1 = 3 \/ m1 = 4 \/ m1 = 5 \/ m1 = 6
               \/ m1 = 7 \/ m1 = 8 \/ m1 = 9 \/ m1 = 10 \/ m1 = 11) by lia.
  assert (C2 : m2 = 2 \/ m2 = 3 \/ m2 = 4 \/ m2 = 5 \/ m2 = 6 \/ m2 = 7
               \/ m2 = 8 \/ m2 = 9 \/ m2 = 10 \/ m2 = 11 \/ m2 = 12) by lia.
  destruct (is_leap y);
    repeat (destruct C1 as [-> | C1]);
    try subst m1;
    repeat (destruct C2 as [-> | C2]);
    try subst m2; cbn -[Z.le Z.lt Z.add] in *; lia.
Qed.

Lemma seconds_of_lt (t1 t2 : datetime) :
  valid_datetime t1 = true -> valid_datetime t2 = true ->
  datetime_compare t1 t2 = Lt -> seconds_of t1 < seconds_of t2.
Proof.
  unfold valid_datetime. rewrite !valid_fields_spec.
  intros (Y1 & M1 & D1 & H1 & N1 & S1) (Y2 & M2 & D2 & H2 & N2 & S2).
  unfold datetime_compare, seconds_of, ymd2ord.
  pose proof (day_of_year_bounds _ _ _ M1 D1) as B1.
  pose proof (day_of_year_bounds _ _ _ M2 D2) as B2.
  destruct (Z.compare_spec (year t1) (year t2)) as [Ey|Ly|Gy];
    cbn [lexc]; try discriminate.
  2:{ intros _.
      pose proof (days_before_year_succ (year t1)) as Hs.
      pose proof (days_before_year_mono (year t1 + 1) (year t2)) as Hm.
      lia. }
  rewrite Ey in *.
  destruct (Z.compare_spec (month t1) (month t2)) as [Em|Lm|Gm];
    cbn [lexc]; try discriminate.
  2:{ intros _.
      pose proof (days_before_month_step (year t2) (month t1) (month t2))
        as Hs.
      lia. }
  rewrite Em in *.
  destruct (Z.compare_spec (day t1) (day t2)) as [Ed|Ld|Gd];
    cbn [lexc]; try discriminate; [|intros _; lia].
  destruct (Z.compare_spec (hour t1) (hour t2)) as [Eh|Lh|Gh];
    cbn [lexc]; try discriminate; [|intros _; lia].
  destruct (Z.compare_spec (minute t1) (minute t2)) as [En|Ln|Gn];
    cbn [lexc]; try discriminate; [|intros _; lia].
  intros Hs. change (second t1 < second t2) in Hs. lia.
Qed.

Lemma datetime_compare_antisym (t1 t2 : datetime) :
  datetime_compare t2 t1 = CompOpp (datetime_compare t1 t2).
Proof.
  unfold datetime_compare.
  rewrite (Z.compare_antisym (year t1)), (Z.compare_antisym (month t1)),
    (Z.compare_antisym (day t1)), (Z.compare_antisym (hour t1)),
    (Z.compare_antisym (minute t1)), (Z.compare_antisym (second t1)).
  destruct (year t1 ?= year t2), (month t1 ?= month t2),
    (day t1 ?= day t2), (hour t1 ?= hour t2), (minute t1 ?= minute t2),
    (second t1 ?= second t2); reflexivity.
Qed.

Lemma datetime_compare_eq (t1 t2 : datetime) :
  datetime_compare t1 t2 = Eq -> t1 = t2.
Proof.
  unfold datetime_compare. destruct t1, t2.
  cbn [year month day hour minute second].
  repeat match goal with
         | |- lexc (?a ?= ?b) _ = Eq -> _ =>
             destruct (Z.compare_spec a b); cbn [lexc]; try discriminate
         end.
  intros Hs. apply Z.compare_eq in Hs. congruence.
Qed.

(** The order of datetimes is the order of elapsed time. *)
Lemma datetime_compare_chronological (t1 t2 : datetime) :
  valid_datetime t1 = true -> valid_datetime t2 = true ->
  datetime_compare t1 t2 = (seconds_of t1 ?= seconds_of t2).
Proof.
  intros V1 V2. destruct (datetime_compare t1 t2) eqn:E.
  - apply datetime_compare_eq in E. subst. now rewrite Z.compare_refl.
  - symmetry. apply Z.compare_lt_iff. now apply seconds_of_lt.
  - symmetry. apply Z.compare_gt_iff. apply seconds_of_lt; auto.
    rewrite datetime_compare_antisym, E. reflexivity.
Qed.

(** ** Generated names *)

(** The year is written with as many digits as it has, four at most. *)
Lemma year_text_zpad (y : Z) :
  exists w, (1 <= w <= 4)%nat /\ year_text y = zpad w y
            /\ (1000 <= y -> w = 4%nat)
            /\ (0 <= y < 1000 -> 0 <= y < 10 ^ Z.of_nat w /\ (w < 4)%nat).
Proof.
  unfold year_text.
  destruct (Z.ltb_spec y 10); [exists 1%nat|].
  2: destruct (Z.ltb_spec y 100); [exists 2%nat|].
  3: destruct (Z.ltb_spec y 1000); [exists 3%nat|exists 4%nat].
  all: repeat split; try lia.
Qed.

Lemma year_text_padded (y : Z) : 1000 <= y -> year_text y = zpad 4 y.
Proof.
  intros H. unfold year_text.
  destruct (Z.ltb_spec y 10); [lia|].
  destruct (Z.ltb_spec y 100); [lia|].
  destruct (Z.ltb_spec y 1000); [lia|reflexivity].
Qed.

Lemma year_text_digits (y : Z) : forallb is_digit (year_text y) = true.
Proof.
  destruct (year_text_zpad y) as (w & _ & -> & _).
  apply forallb_digit_zpad.
Qed.

Lemma length_year_text (y : Z) :
  (1 <= length (year_text y) <= 4)%nat
  /\ (1000 <= y -> length (year_text y) = 4%nat)
  /\ (0 <= y < 1000 -> (length (year_text y) < 4)%nat).
Proof.
  destruct (year_text_zpad y) as (w & Hw & -> & H4 & H3).
  rewrite length_zpad. repeat split; try lia; intuition lia.
Qed.

(** The text of the year reads back as the year. *)
Lemma int_year_text (y : Z) : 0 <= y < 10000 -> int_ (year_text y) = Some y.
Proof.
  intros Hy. destruct (year_text_zpad y) as (w & Hw & -> & H4 & H3).
  apply int_zpad; [lia|].
  destruct (Z.ltb_spec y 1000) as [Hlt|Hge].
  - apply H3. lia.
  - rewrite (H4 Hge). change (10 ^ Z.of_nat 4) with 10000. lia.
Qed.

Lemma generate_new_file_name_eq (t : datetime) (ext : str) :
  generate_new_file_name t ext = generated t ++ ext.
Proof.
  unfold generate_new_file_name, generated, after_year.
  change (strftime t (L "%Y-%m-%d %H.%M.%S"))
    with (year_text (year t) ++ "-"%char :: zpad 2 (month t) ++ "-"%char
            :: zpad 2 (day t) ++ " "%char :: zpad 2 (hour t) ++ "."%char
            :: zpad 2 (minute t) ++ "."%char :: zpad 2 (second t) ++ []).
  now rewrite app_nil_r.
Qed.

Lemma strftime_year (t : datetime) :
  strftime t (L "%Y") = year_text (year t).
Proof.
  change (strftime t (L "%Y")) with (year_text (year t) ++ []).
  apply app_nil_r.
Qed.

(** From the year 1000 on the generated name is the fixed-width text. *)
Lemma generated_padded (t : datetime) :
  1000 <= year t -> generated t = rendering "-" " " "." t.
Proof.
  intros H. unfold generated. now rewrite (year_text_padded _ H).
Qed.

(** As text, two fixed-width renderings followed by one extension
    compare the way their timestamps compare. *)
Lemma rendering_compare (a b c : ascii) (t1 t2 : datetime) (ext : str) :
  valid_datetime t1 = true -> valid_datetime t2 = true ->
  str_compare (rendering a b c t1 ++ ext) (rendering a b c t2 ++ ext)
  = datetime_compare t1 t2.
Proof.
  intros V1 V2.
  destruct (valid_datetime_bounds t1 V1) as (Y1 & M1 & D1 & H1 & N1 & S1).
  destruct (valid_datetime_bounds t2 V2) as (Y2 & M2 & D2 & H2 & N2 & S2).
  unfold rendering, datetime_compare.
  repeat (rewrite <- app_assoc; cbn [app]).
  repeat (rewrite str_compare_zpad by assumption;
          try rewrite str_compare_cons).
  rewrite str_compare_refl.
  now destruct (second t1 ?= second t2).
Qed.

(** From the year 1000 on, two generated names with one extension
    compare the way their timestamps compare. *)
Lemma generate_new_file_name_compare (t1 t2 : datetime) (ext : str) :
  valid_datetime t1 = true -> valid_datetime t2 = true ->
  1000 <= year t1 -> 1000 <= year t2 ->
  str_compare (generate_new_file_name t1 ext) (generate_new_file_name t2 ext)
  = datetime_compare t1 t2.
Proof.
  intros V1 V2 Y1 Y2.
  rewrite !generate_new_file_name_eq, !generated_padded by assumption.
  now apply rendering_compare.
Qed.

(** C2: the order of generated names is not the order of time.  The
    year is written without padding, so the name of the last second of
    the year 999 has three digits before its first hyphen and sorts
    after the name of the first second of the year 1000, which is
    later. *)
Theorem generate_new_file_name_year_999 :
  valid_datetime last_of_999 = true
  /\ valid_datetime first_of_1000 = true
  /\ datetime_lt last_of_999 first_of_1000
  /\ seconds_of last_of_999 < seconds_of first_of_1000
  /\ generate_new_file_name last_of_999 (L ".jpg")
     = L "999-12-31 23.59.59.jpg"
  /\ generate_new_file_name first_of_1000 (L ".jpg")
     = L "1000-01-01 00.00.00.jpg"
  /\ str_lt (generate_new_file_name first_of_1000 (L ".jpg"))
       (generate_new_file_name last_of_999 (L ".jpg"))
  /\ ~ str_lt (generate_new_file_name last_of_999 (L ".jpg"))
         (generate_new_file_name first_of_1000 (L ".jpg")).
Proof.
  split; [reflexivity|]. split; [reflexivity|].
  split; [reflexivity|]. split; [reflexivity|].
  split; [reflexivity|]. split; [reflexivity|].
  split; [reflexivity|]. discriminate.
Qed.

(** X19: from the year 1000 on the order of generated names is the
    order of time.  For two valid timestamps of the years 1000 to 9999
    and one extension, [t1] is before [t2], in the order of datetimes
    and equally in elapsed seconds, exactly when the name generated for
    [t1] sorts before the name generated for [t2] in the order of
    strings. *)
Theorem generate_new_file_name_monotone (t1 t2 : datetime) (ext : str) :
  valid_datetime t1 = true -> valid_datetime t2 = true ->
  1000 <= year t1 -> 1000 <= year t2 ->
  (datetime_lt t1 t2 <->
   str_lt (generate_new_file_name t1 ext) (generate_new_file_name t2 ext))
  /\ (seconds_of t1 < seconds_of t2 <->
      str_lt (generate_new_file_name t1 ext) (generate_new_file_name t2 ext)).
Proof.
  intros V1 V2 Y1 Y2. unfold datetime_lt, str_lt.
  rewrite generate_new_file_name_compare by assumption.
  split; [reflexivity|].
  rewrite (datetime_compare_chronological t1 t2 V1 V2).
  reflexivity.
Qed.

Lemma generate_new_file_name_monotone_witness :
  (datetime_lt example_date (mkdatetime 2023 12 1 0 0 0) <->
   str_lt (generate_new_file_name example_date (L ".jpg"))
          (generate_new_file_name (mkdatetime 2023 12 1 0 0 0) (L ".jpg")))
  /\ (seconds_of example_date < seconds_of (mkdatetime 2023 12 1 0 0 0) <->
      str_lt (generate_new_file_name example_date (L ".jpg"))
             (generate_new_file_name (mkdatetime 2023 12 1 0 0 0) (L ".jpg"))).
Proof.
  apply (generate_new_file_name_monotone
           example_date (mkdatetime 2023 12 1 0 0 0) (L ".jpg"));
    [reflexivity | reflexivity | discriminate | discriminate].
Defined.

(** ** The patterns of the filename parser *)

Lemma digits_app (n : nat) (g r : str) :
  length g = n -> forallb is_digit g = true -> digits n (g ++ r) = Some (g, r).
Proof.
  revert g. induction n as [|n IH]; intros [|c g] Hlen Hdig;
    try discriminate.
  - reflexivity.
  - cbn [forallb] in Hdig. apply andb_true_iff in Hdig as [Hc Hg].
    cbn [app digits]. rewrite Hc, IH; auto.
Qed.

Lemma digits_some (n : nat) (s g r : str) :
  digits n s = Some (g, r) ->
  s = g ++ r /\ length g = n /\ forallb is_digit g = true.
Proof.
  revert s g r. induction n as [|n IH]; intros s g r H.
  - cbn in H. injection H as <- <-. auto.
  - cbn [digits] in H. destruct s as [|c s]; [discriminate|].
    destruct (is_digit c) eqn:Hc; [|discriminate].
    destruct (digits n s) as [[g' r']|] eqn:E; [|discriminate].
    injection H as <- <-.
    destruct (IH _ _ _ E) as (-> & Hlen & Hdig).
    cbn [length forallb]. rewrite Hc, Hdig, Hlen. auto.
Qed.

Lemma pattern_a_app (g1 g2 post : str) :
  length g1 = 8%nat -> forallb is_digit g1 = true ->
  length g2 = 6%nat -> forallb is_digit g2 = true ->
  pattern_a (g1 ++ "_"%char :: g2 ++ post) = Some (g1, g2).
Proof.
  intros L1 D1 L2 D2. unfold pattern_a.
  rewrite (digits_app 8 g1) by assumption.
  rewrite ascii_eqb_refl.
  now rewrite (digits_app 6 g2) by assumption.
Qed.

Lemma pattern_b_app (g post : str) :
  length g = 14%nat -> forallb is_digit g = true ->
  pattern_b (g ++ post) = Some g.
Proof.
  intros L1 D1. unfold pattern_b.
  now rewrite (digits_app 14 g) by assumption.
Qed.

(** [re.search] returns the match at a position when no earlier position
    has one. *)
Lemma re_search_first {A} (pat : str -> option A) (pre rest : str) (m : A) :
  (forall k, (k < length pre)%nat -> pat (skipn k (pre ++ rest)) = None) ->
  pat rest = Some m ->
  re_search pat (pre ++ rest) = Some m.
Proof.
  induction pre as [|c pre IH]; intros Hnone Hm.
  - destruct rest; cbn [app re_search]; now rewrite Hm.
  - cbn [app re_search].
    assert (H0 : pat (c :: pre ++ rest) = None)
      by (apply (Hnone 0%nat); cbn [length]; lia).
    rewrite H0.
    apply IH; [|assumption].
    intros k Hk. apply (Hnone (S k)). cbn [length]. lia.
Qed.

Lemma re_search_none {A} (pat : str -> option A) (s : str) :
  (forall k, (k <= length s)%nat -> pat (skipn k s) = None) ->
  re_search pat s = None.
Proof.
  induction s as [|c s IH]; intros Hnone.
  - cbn [re_search].
    assert (H0 : pat [] = None) by (apply (Hnone 0%nat); cbn [length]; lia).
    now rewrite H0.
  - cbn [re_search].
    assert (H0 : pat (c :: s) = None)
      by (apply (Hnone 0%nat); cbn [length]; lia).
    rewrite H0.
    apply IH. intros k Hk. apply (Hnone (S k)). cbn [length]. lia.
Qed.

(** A match that [re.search] reports sits somewhere in the string, after
    positions that have none. *)
Lemma re_search_some {A} (pat : str -> option A) (s : str) (m : A) :
  re_search pat s = Some m ->
  exists pre rest,
    s = pre ++ rest /\ pat rest = Some m
    /\ forall k, (k < length pre)%nat -> pat (skipn k s) = None.
Proof.
  induction s as [|c s IH]; cbn [re_search]; intros H.
  - exists [], []. destruct (pat []) eqn:E; [|discriminate].
    repeat split; auto. cbn [length]. lia.
  - destruct (pat (c :: s)) eqn:E.
    + exists [], (c :: s). repeat split; [congruence|]. cbn [length]. lia.
    + destruct (IH H) as (pre & rest & -> & Hm & Hnone).
      exists (c :: pre), rest. repeat split; auto.
      intros [|k] Hk; [exact E|]. apply Hnone. cbn [length] in Hk. lia.
Qed.

Lemma slice_app_mid (a b c : str) (i j : nat) :
  length a = i -> length b = (j - i)%nat -> slice i j (a ++ b ++ c) = b.
Proof.
  intros <- Hb. unfold slice.
  rewrite skipn_app, skipn_all, Nat.sub_diag. cbn [skipn app].
  rewrite <- Hb, firstn_app, firstn_all, Nat.sub_diag.
  cbn [firstn]. apply app_nil_r.
Qed.

Lemma in_width_bounds (t : datetime) :
  in_width t = true ->
  0 <= year t < 10 ^ Z.of_nat 4 /\ 0 <= month t < 10 ^ Z.of_nat 2
  /\ 0 <= day t < 10 ^ Z.of_nat 2 /\ 0 <= hour t < 10 ^ Z.of_nat 2
  /\ 0 <= minute t < 10 ^ Z.of_nat 2 /\ 0 <= second t < 10 ^ Z.of_nat 2.
Proof.
  unfold in_width. rewrite !andb_true_iff, !Z.leb_le, !Z.ltb_lt.
  change (10 ^ Z.of_nat 4) with 10000. change (10 ^ Z.of_nat 2) with 100.
  tauto.
Qed.

Lemma valid_in_width (t : datetime) :
  valid_datetime t = true -> in_width t = true.
Proof.
  intros V. apply valid_datetime_bounds in V.
  change (10 ^ Z.of_nat 4) with 10000 in V.
  change (10 ^ Z.of_nat 2) with 100 in V.
  unfold in_width. rewrite !andb_true_iff, !Z.leb_le, !Z.ltb_lt. tauto.
Qed.

Lemma stamp_a_eq (t : datetime) :
  stamp_a t = date_part t ++ "_"%char :: time_part t.
Proof.
  reflexivity.
Qed.

Lemma stamp_b_eq (t : datetime) : stamp_b t = date_part t ++ time_part t.
Proof.
  reflexivity.
Qed.

Lemma length_date_part (t : datetime) : length (date_part t) = 8%nat.
Proof. unfold date_part. now rewrite !length_app, !length_zpad. Qed.

Lemma length_time_part (t : datetime) : length (time_part t) = 6%nat.
Proof. unfold time_part. now rewrite !length_app, !length_zpad. Qed.

Lemma digit_date_part (t : datetime) :
  forallb is_digit (date_part t) = true.
Proof.
  unfold date_part. now rewrite !forallb_app, !forallb_digit_zpad.
Qed.

Lemma digit_time_part (t : datetime) :
  forallb is_digit (time_part t) = true.
Proof.
  unfold time_part. now rewrite !forallb_app, !forallb_digit_zpad.
Qed.

Lemma slice_eq (a b c s : str) (i j : nat) :
  s = a ++ b ++ c -> length a = i -> length b = (j - i)%nat ->
  slice i j s = b.
Proof. intros ->. apply slice_app_mid. Qed.

Ltac piece a b c :=
  rewrite (slice_eq a b c) by
    first [ unfold date_part, time_part; cbn [app];
            rewrite <- ?app_assoc, ?app_nil_r; reflexivity
          | rewrite ?length_app, ?length_zpad; reflexivity ].

(** Reading the six fields back from a pattern-A match: the texts are
    the renderings, so [int] returns the fields. *)
Lemma read_pattern_a (t : datetime) :
  in_width t = true ->
  obind (int_ (slice 0 4 (date_part t))) (fun y =>
  obind (int_ (slice 4 6 (date_part t))) (fun m =>
  obind (int_ (slice 6 8 (date_part t))) (fun d =>
  obind (int_ (slice 0 2 (time_part t))) (fun hh =>
  obind (int_ (slice 2 4 (time_part t))) (fun mm =>
  obind (int_ (slice 4 6 (time_part t))) (fun ss =>
  datetime_new y m d hh mm ss))))))
  = datetime_new (year t) (month t) (day t) (hour t) (minute t) (second t).
Proof.
  intros W. destruct (in_width_bounds t W) as (Y & Mo & D & H & Mi & S).
  piece (@nil ascii) (zpad 4 (year t)) (zpad 2 (month t) ++ zpad 2 (day t)).
  piece (zpad 4 (year t)) (zpad 2 (month t)) (zpad 2 (day t)).
  piece (zpad 4 (year t) ++ zpad 2 (month t)) (zpad 2 (day t)) (@nil ascii).
  piece (@nil ascii) (zpad 2 (hour t))
        (zpad 2 (minute t) ++ zpad 2 (second t)).
  piece (zpad 2 (hour t)) (zpad 2 (minute t)) (zpad 2 (second t)).
  piece (zpad 2 (hour t) ++ zpad 2 (minute t)) (zpad 2 (second t))
        (@nil ascii).
  rewrite !int_zpad by (assumption || lia).
  reflexivity.
Qed.

(** The same from the fourteen digits of a pattern-B match. *)
Lemma read_pattern_b (t : datetime) :
  in_width t = true ->
  let digits := date_part t ++ time_part t in
  obind (int_ (slice 0 4 digits)) (fun y =>
  obind (int_ (slice 4 6 digits)) (fun m =>
  obind (int_ (slice 6 8 digits)) (fun d =>
  obind (int_ (slice 8 10 digits)) (fun hh =>
  obind (int_ (slice 10 12 digits)) (fun mm =>
  obind (int_ (slice 12 14 digits)) (fun ss =>
  datetime_new y m d hh mm ss))))))
  = datetime_new (year t) (month t) (day t) (hour t) (minute t) (second t).
Proof.
  intros W digits. subst digits.
  destruct (in_width_bounds t W) as (Y & Mo & D & H & Mi & S).
  set (y := zpad 4 (year t)). set (mo := zpad 2 (month t)).
  set (d := zpad 2 (day t)). set (h := zpad 2 (hour t)).
  set (mi := zpad 2 (minute t)). set (s := zpad 2 (second t)).
  assert (E : date_part t ++ time_part t = y ++ mo ++ d ++ h ++ mi ++ s).
  { unfold date_part, time_part. now rewrite <- !app_assoc. }
  rewrite E.
  assert (Ly : length y = 4%nat) by apply length_zpad.
  assert (Lmo : length mo = 2%nat) by apply length_zpad.
  assert (Ld : length d = 2%nat) by apply length_zpad.
  assert (Lh : length h = 2%nat) by apply length_zpad.
  assert (Lmi : length mi = 2%nat) by apply length_zpad.
  assert (Ls : length s = 2%nat) by apply length_zpad.
  rewrite (slice_eq [] y (mo ++ d ++ h ++ mi ++ s)) by easy.
  rewrite (slice_eq y mo (d ++ h ++ mi ++ s)) by easy.
  rewrite (slice_eq (y ++ mo) d (h ++ mi ++ s))
    by (rewrite <- ?app_assoc, ?length_app; (reflexivity || lia)).
  rewrite (slice_eq (y ++ mo ++ d) h (mi ++ s))
    by (rewrite <- ?app_assoc, ?length_app; (reflexivity || lia)).
  rewrite (slice_eq (y ++ mo ++ d ++ h) mi s)
    by (rewrite <- ?app_assoc, ?length_app; (reflexivity || lia)).
  rewrite (slice_eq (y ++ mo ++ d ++ h ++ mi) s [])
    by (rewrite <- ?app_assoc, ?length_app, ?app_nil_r;
        (reflexivity || lia)).
  subst y mo d h mi s.
  rewrite !int_zpad by (assumption || lia).
  reflexivity.
Qed.

(** [re.search] finds the rendering of [t] when no pattern-A match starts
    before it. *)
Lemma search_stamp_a (t : datetime) (pre post : str) :
  (forall k, (k < length pre)%nat ->
     pattern_a (skipn k (pre ++ stamp_a t ++ post)) = None) ->
  re_search pattern_a (pre ++ stamp_a t ++ post)
  = Some (date_part t, time_part t).
Proof.
  intros Hfirst. apply re_search_first; [assumption|].
  rewrite stamp_a_eq, <- app_assoc. cbn [app].
  apply pattern_a_app;
    auto using length_date_part, length_time_part, digit_date_part,
               digit_time_part.
Qed.

Lemma search_stamp_b (t : datetime) (pre post : str) :
  (forall k, (k < length pre)%nat ->
     pattern_b (skipn k (pre ++ stamp_b t ++ post)) = None) ->
  re_search pattern_b (pre ++ stamp_b t ++ post)
  = Some (date_part t ++ time_part t).
Proof.
  intros Hfirst. apply re_search_first; [assumption|].
  rewrite stamp_b_eq. apply pattern_b_app.
  - now rewrite length_app, length_date_part, length_time_part.
  - now rewrite forallb_app, digit_date_part, digit_time_part.
Qed.

Lemma fold_int_none (s : str) : fold_left int_step s None = None.
Proof. induction s as [|c s IH]; [reflexivity|exact IH]. Qed.

Lemma chr_ord (c : ascii) : chr (ord c) = c.
Proof.
  unfold chr, ord. rewrite N2Z.id. apply ascii_N_embedding.
Qed.

(** A string of digits is the zero-padded rendering of the number [int]
    reads from it. *)
Lemma zpad_fold_int (g : str) :
  forall n : Z,
    fold_left int_step g (Some 0) = Some n ->
    zpad (length g) n = g /\ 0 <= n < 10 ^ Z.of_nat (length g).
Proof.
  induction g as [|c g IH] using rev_ind; intros n H.
  - cbn in H. injection H as <-. cbn. split; [reflexivity|lia].
  - rewrite fold_left_app in H. cbn [fold_left] in H.
    destruct (fold_left int_step g (Some 0)) as [n'|] eqn:E;
      [|discriminate].
    unfold int_step in H. destruct (is_digit c) eqn:Hc; [|discriminate].
    assert (Hn : n = 10 * n' + (ord c - 48)) by congruence.
    subst n. clear H.
    destruct (IH n' eq_refl) as [Hz Hb].
    unfold is_digit in Hc. apply andb_true_iff in Hc as [H1 H2].
    apply Z.leb_le in H1, H2.
    rewrite length_app. cbn [length].
    replace (length g + 1)%nat with (S (length g)) by lia.
    rewrite pow10_succ. cbn [zpad].
    replace ((10 * n' + (ord c - 48)) / 10) with n'
      by (Z.to_euclidean_division_equations; lia).
    replace ((10 * n' + (ord c - 48)) mod 10) with (ord c - 48)
      by (Z.to_euclidean_division_equations; lia).
    replace (48 + (ord c - 48)) with (ord c) by lia.
    rewrite chr_ord, Hz. split; [reflexivity|lia].
Qed.

Lemma zpad_int (g : str) (n : Z) :
  int_ g = Some n -> zpad (length g) n = g.
Proof.
  unfold int_. destruct g as [|c g]; [discriminate|].
  intros H. now apply zpad_fold_int.
Qed.

Lemma length_slice (i j : nat) (s : str) :
  (i <= j)%nat -> (j <= length s)%nat -> length (slice i j s) = (j - i)%nat.
Proof.
  intros Hij Hj. unfold slice. rewrite length_firstn, length_skipn. lia.
Qed.

Lemma firstn_plus {A} (a b : nat) (l : list A) :
  firstn (a + b) l = firstn a l ++ firstn b (skipn a l).
Proof.
  revert l. induction a as [|a IH]; intros [|x l];
    cbn [Nat.add firstn skipn app].
  - reflexivity.
  - reflexivity.
  - now rewrite firstn_nil.
  - now rewrite IH.
Qed.

Lemma slice_app (i j k : nat) (s : str) :
  (i <= j)%nat -> (j <= k)%nat ->
  slice i j s ++ slice j k s = slice i k s.
Proof.
  intros Hij Hjk. unfold slice.
  replace (k - i)%nat with ((j - i) + (k - j))%nat by lia.
  rewrite firstn_plus, skipn_skipn.
  now replace (j - i + i)%nat with j by lia.
Qed.

Lemma slice_all (s : str) : slice 0 (length s) s = s.
Proof.
  unfold slice. cbn [skipn]. rewrite Nat.sub_0_r. apply firstn_all.
Qed.

Lemma int_slice (i j : nat) (s : str) (n : Z) :
  (i <= j)%nat -> (j <= length s)%nat ->
  int_ (slice i j s) = Some n -> slice i j s = zpad (j - i) n.
Proof.
  intros Hij Hj H. apply zpad_int in H.
  now rewrite length_slice in H by assumption.
Qed.

(** A pattern-A match is the rendering of the fields read from it. *)
Lemma groups_a_rendering (part1 part2 : str) (t : datetime) :
  length part1 = 8%nat -> length part2 = 6%nat ->
  obind (int_ (slice 0 4 part1)) (fun y =>
  obind (int_ (slice 4 6 part1)) (fun m =>
  obind (int_ (slice 6 8 part1)) (fun d =>
  obind (int_ (slice 0 2 part2)) (fun hh =>
  obind (int_ (slice 2 4 part2)) (fun mm =>
  obind (int_ (slice 4 6 part2)) (fun ss =>
  datetime_new y m d hh mm ss)))))) = Some t ->
  part1 = date_part t /\ part2 = time_part t.
Proof.
  intros L1 L2 H.
  destruct (int_ (slice 0 4 part1)) as [y|] eqn:Ey; [|discriminate].
  destruct (int_ (slice 4 6 part1)) as [m|] eqn:Em; [|discriminate].
  destruct (int_ (slice 6 8 part1)) as [d|] eqn:Ed; [|discriminate].
  destruct (int_ (slice 0 2 part2)) as [hh|] eqn:Eh; [|discriminate].
  destruct (int_ (slice 2 4 part2)) as [mm|] eqn:Emi; [|discriminate].
  destruct (int_ (slice 4 6 part2)) as [ss|] eqn:Es; [|discriminate].
  cbn [obind] in H. apply datetime_new_some in H as [-> _].
  apply int_slice in Ey, Em, Ed, Eh, Emi, Es; try lia.
  cbn [Nat.sub] in Ey, Em, Ed, Eh, Emi, Es.
  unfold date_part, time_part. cbn [year month day hour minute second].
  rewrite <- Ey, <- Em, <- Ed, <- Eh, <- Emi, <- Es.
  rewrite !slice_app by lia.
  split; symmetry; [rewrite <- L1 | rewrite <- L2]; apply slice_all.
Qed.

(** The fourteen digits of a pattern-B match likewise. *)
Lemma group_b_rendering (g : str) (t : datetime) :
  length g = 14%nat ->
  obind (int_ (slice 0 4 g)) (fun y =>
  obind (int_ (slice 4 6 g)) (fun m =>
  obind (int_ (slice 6 8 g)) (fun d =>
  obind (int_ (slice 8 10 g)) (fun hh =>
  obind (int_ (slice 10 12 g)) (fun mm =>
  obind (int_ (slice 12 14 g)) (fun ss =>
  datetime_new y m d hh mm ss)))))) = Some t ->
  g = date_part t ++ time_part t.
Proof.
  intros Lg H.
  destruct (int_ (slice 0 4 g)) as [y|] eqn:Ey; [|discriminate].
  destruct (int_ (slice 4 6 g)) as [m|] eqn:Em; [|discriminate].
  destruct (int_ (slice 6 8 g)) as [d|] eqn:Ed; [|discriminate].
  destruct (int_ (slice 8 10 g)) as [hh|] eqn:Eh; [|discriminate].
  destruct (int_ (slice 10 12 g)) as [mm|] eqn:Emi; [|discriminate].
  destruct (int_ (slice 12 14 g)) as [ss|] eqn:Es; [|discriminate].
  cbn [obind] in H. apply datetime_new_some in H as [-> _].
  apply int_slice in Ey, Em, Ed, Eh, Emi, Es; try lia.
  cbn [Nat.sub] in Ey, Em, Ed, Eh, Emi, Es.
  unfold date_part, time_part. cbn [year month day hour minute second].
  rewrite <- Ey, <- Em, <- Ed, <- Eh, <- Emi, <- Es.
  rewrite <- !app_assoc. rewrite !slice_app by lia.
  symmetry. rewrite <- Lg. apply slice_all.
Qed.

(** What the parser returns stands in the filename: the timestamp is
    rendered there, as pattern A or as pattern B, and no match of that
    pattern starts earlier. *)
Lemma parse_date_from_filename_embedded (s : str) (t : datetime) :
  parse_date_from_filename s = Some t ->
  (exists pre post,
      s = pre ++ stamp_a t ++ post
      /\ forall k, (k < length pre)%nat -> pattern_a (skipn k s) = None)
  \/ (exists pre post,
      s = pre ++ stamp_b t ++ post
      /\ forall k, (k < length pre)%nat -> pattern_b (skipn k s) = None).
Proof.
  unfold parse_date_from_filename.
  assert (HB : match re_search pattern_b s with
               | Some digits =>
                   obind (int_ (slice 0 4 digits)) (fun y =>
                   obind (int_ (slice 4 6 digits)) (fun m =>
                   obind (int_ (slice 6 8 digits)) (fun d =>
                   obind (int_ (slice 8 10 digits)) (fun hh =>
                   obind (int_ (slice 10 12 digits)) (fun mm =>
                   obind (int_ (slice 12 14 digits)) (fun ss =>
                   datetime_new y m d hh mm ss))))))
               | None => None
               end = Some t ->
               exists pre post,
                 s = pre ++ stamp_b t ++ post
                 /\ forall k, (k < length pre)%nat ->
                              pattern_b (skipn k s) = None).
  { destruct (re_search pattern_b s) as [g|] eqn:Eb; [|discriminate].
    intros H.
    destruct (re_search_some _ _ _ Eb) as (pre & rest & -> & Hm & Hnone).
    unfold pattern_b in Hm.
    destruct (digits 14 rest) as [[g' post]|] eqn:Ed; [|discriminate].
    injection Hm as ->.
    destruct (digits_some _ _ _ _ Ed) as (-> & Lg & _).
    exists pre, post. split; [|assumption].
    rewrite stamp_b_eq. now rewrite <- (group_b_rendering g t Lg H). }
  destruct (re_search pattern_a s) as [[part1 part2]|] eqn:Ea.
  - match goal with
    | |- or_else ?a _ = _ -> _ => destruct a as [d|] eqn:E
    end; cbn [or_else]; [|intros H; right; now apply HB].
    intros [= ->]. left.
    destruct (re_search_some _ _ _ Ea) as (pre & rest & -> & Hm & Hnone).
    unfold pattern_a in Hm.
    destruct (digits 8 rest) as [[g1 [|c r]]|] eqn:E1; try discriminate.
    destruct (ascii_eqb c "_") eqn:Ec; [|discriminate].
    destruct (digits 6 r) as [[g2 post]|] eqn:E2; [|discriminate].
    injection Hm as -> ->.
    apply ascii_eqb_eq in Ec. subst c.
    destruct (digits_some _ _ _ _ E1) as (-> & L1 & _).
    destruct (digits_some _ _ _ _ E2) as (-> & L2 & _).
    destruct (groups_a_rendering _ _ _ L1 L2 E) as [-> ->].
    exists pre, post. split; [|assumption].
    rewrite stamp_a_eq. now rewrite <- !app_assoc.
  - cbn [or_else]. intros H. right. now apply HB.
Qed.

(** A filename in which neither pattern matches at any position has no
    date. *)
Lemma parse_date_from_filename_no_pattern (s : str) :
  (forall k, (k <= length s)%nat -> pattern_a (skipn k s) = None) ->
  (forall k, (k <= length s)%nat -> pattern_b (skipn k s) = None) ->
  parse_date_from_filename s = None.
Proof.
  intros Ha Hb. unfold parse_date_from_filename.
  now rewrite (re_search_none _ _ Ha), (re_search_none _ _ Hb).
Qed.

(** No pattern matches at a position that holds no digit. *)
Lemma patterns_need_digit (c : ascii) (s : str) :
  is_digit c = false ->
  pattern_a (c :: s) = None /\ pattern_b (c :: s) = None.
Proof.
  intros H. unfold pattern_a, pattern_b. cbn [digits]. now rewrite H.
Qed.

Lemma skipn_inside (k : nat) (pre rest : str) :
  (k < length pre)%nat ->
  exists c tail, skipn k (pre ++ rest) = c :: tail /\ In c pre.
Proof.
  revert k. induction pre as [|x pre IH]; intros k Hk;
    cbn [length] in Hk; [lia|].
  destruct k as [|k].
  - exists x, (pre ++ rest). split; [reflexivity|now left].
  - destruct (IH k) as (c & tail & E & Hin); [lia|].
    exists c, tail. split; [exact E|now right].
Qed.

(** After a prefix without digits, the rendering of a valid timestamp is
    the leftmost pattern-A match, and the parser returns the timestamp. *)
Lemma parse_date_from_filename_after_text (t : datetime) (pre post : str) :
  valid_datetime t = true ->
  forallb (fun c => negb (is_digit c)) pre = true ->
  re_search pattern_a (pre ++ stamp_a t ++ post)
  = Some (date_part t, time_part t)
  /\ parse_date_from_filename (pre ++ stamp_a t ++ post) = Some t.
Proof.
  intros V Hpre.
  assert (Hfirst : forall k, (k < length pre)%nat ->
                     pattern_a (skipn k (pre ++ stamp_a t ++ post)) = None).
  { intros k Hk.
    destruct (skipn_inside k pre (stamp_a t ++ post) Hk)
      as (c & tail & -> & Hin).
    rewrite forallb_forall in Hpre. specialize (Hpre c Hin).
    apply negb_true_iff in Hpre.
    now destruct (patterns_need_digit c tail Hpre). }
  split; [now apply search_stamp_a|].
  unfold parse_date_from_filename.
  rewrite (search_stamp_a t pre post Hfirst).
  rewrite (read_pattern_a t (valid_in_width t V)).
  now rewrite (datetime_new_valid t V).
Qed.

(** C1 (amended): when the leftmost occurrence of eight digits, an
    underscore and six digits in a filename is the rendering
    YYYYMMDD_HHMMSS of a valid timestamp [t], wherever in the filename it
    stands, the parser returns [t]: year, month, day, hour, minute and
    second are the embedded digits. *)
Theorem parse_date_from_filename_pattern_a (t : datetime) (pre post : str) :
  valid_datetime t = true ->
  (forall k, (k < length pre)%nat ->
     pattern_a (skipn k (pre ++ stamp_a t ++ post)) = None) ->
  parse_date_from_filename (pre ++ stamp_a t ++ post) = Some t.
Proof.
  intros V Hfirst. unfold parse_date_from_filename.
  rewrite (search_stamp_a t pre post Hfirst).
  rewrite (read_pattern_a t (valid_in_width t V)).
  now rewrite (datetime_new_valid t V).
Qed.

Lemma parse_date_from_filename_pattern_a_witness :
  parse_date_from_filename
    (L "IMG_0033_" ++ stamp_a (mkdatetime 2023 8 9 16 24 53) ++ L "_edited")
  = Some (mkdatetime 2023 8 9 16 24 53).
Proof.
  apply (parse_date_from_filename_pattern_a
           (mkdatetime 2023 8 9 16 24 53) (L "IMG_0033_") (L "_edited")).
  - reflexivity.
  - intros k Hk.
    do 9 (destruct k as [|k]; [reflexivity|]).
    cbn [length L list_ascii_of_string] in Hk. lia.
Defined.

(** C1 as stated fails: the filename below contains [20230809_162453],
    the rendering of a valid timestamp, but the leftmost match of the
    pattern is [20231301_000000] (month 13) and no run of fourteen digits
    exists, so the parser returns [None]. *)
Lemma parse_date_from_filename_later_match_ignored :
  two_stamps = L "20231301_000000_" ++ stamp_a example_date ++ []
  /\ valid_datetime example_date = true
  /\ parse_date_from_filename two_stamps = None.
Proof. repeat split. Qed.

(** C4 (amended): when the leftmost pattern-A match of a filename has
    out-of-range calendar fields, and the leftmost run of fourteen digits
    is the rendering YYYYMMDDHHMMSS of a valid timestamp [t], the parser
    falls through to pattern B and returns [t]. *)
Theorem parse_date_from_filename_falls_through
    (a t : datetime) (pre_a post_a pre post : str) :
  in_width a = true -> valid_datetime a = false ->
  pre ++ stamp_b t ++ post = pre_a ++ stamp_a a ++ post_a ->
  (forall k, (k < length pre_a)%nat ->
     pattern_a (skipn k (pre_a ++ stamp_a a ++ post_a)) = None) ->
  valid_datetime t = true ->
  (forall k, (k < length pre)%nat ->
     pattern_b (skipn k (pre ++ stamp_b t ++ post)) = None) ->
  parse_date_from_filename (pre ++ stamp_b t ++ post) = Some t.
Proof.
  intros Wa Va E Hfirst_a V Hfirst_b. unfold parse_date_from_filename.
  rewrite (search_stamp_b t pre post Hfirst_b).
  rewrite E, (search_stamp_a a pre_a post_a Hfirst_a).
  rewrite (read_pattern_a a Wa).
  unfold datetime_new at 1. fold (valid_datetime a). rewrite Va.
  cbn [or_else].
  rewrite (read_pattern_b t (valid_in_width t V)).
  now rewrite (datetime_new_valid t V).
Qed.

Lemma parse_date_from_filename_falls_through_witness :
  parse_date_from_filename
    (L "20231301_000000 " ++ stamp_b (mkdatetime 2023 8 9 16 24 53) ++ [])
  = Some (mkdatetime 2023 8 9 16 24 53).
Proof.
  apply (parse_date_from_filename_falls_through
           (mkdatetime 2023 13 1 0 0 0) (mkdatetime 2023 8 9 16 24 53)
           [] (L " 20230809162453") (L "20231301_000000 ") []).
  - reflexivity.
  - reflexivity.
  - reflexivity.
  - intros k Hk. cbn [length] in Hk. lia.
  - reflexivity.
  - intros k Hk.
    do 16 (destruct k as [|k]; [reflexivity|]).
    cbn [length L list_ascii_of_string] in Hk. lia.
Defined.

(** C4 as stated fails: in the filename below the leftmost pattern-A
    match [20231301_000000] has month 13, and the run [20230809162453]
    has valid fields, but the leftmost run of fourteen digits is
    [99999999999999] (month 99), so the parser returns [None]. *)
Lemma parse_date_from_filename_later_run_ignored :
  two_runs
  = L "20231301_000000_99999999999999_" ++ stamp_b example_date ++ []
  /\ re_search pattern_a two_runs = Some (L "20231301", L "000000")
  /\ datetime_new 2023 13 1 0 0 0 = None
  /\ valid_datetime example_date = true
  /\ parse_date_from_filename two_runs = None.
Proof. repeat split. Qed.

(** ** [strptime] reads back what [strftime] writes *)

Lemma is_digit_not_space (c : ascii) : is_digit c = true -> is_space c = false.
Proof.
  unfold is_digit, is_space. intros H.
  apply andb_true_iff in H as [H1 H2]. apply Z.leb_le in H1, H2.
  repeat (apply orb_false_intro);
    try (apply andb_false_iff; right; apply Z.leb_gt; lia);
    try (apply andb_false_iff; left; apply Z.leb_gt; lia);
    apply Z.eqb_neq; lia.
Qed.

Lemma lstrip_digits (s : str) : forallb is_digit s = true -> lstrip s = s.
Proof.
  destruct s as [|c s]; [reflexivity|].
  cbn [forallb lstrip]. intros H. apply andb_true_iff in H as [Hc _].
  now rewrite (is_digit_not_space c Hc).
Qed.

Lemma match_classes_digits (g r : str) :
  forallb is_digit g = true ->
  match_classes (repeat dig (length g)) (g ++ r) = Some (g, r).
Proof.
  induction g as [|c g IH]; intros H.
  - reflexivity.
  - cbn [forallb] in H. apply andb_true_iff in H as [Hc Hg].
    cbn [length repeat app match_classes].
    change (in_cls dig c) with (is_digit c). rewrite Hc.
    now rewrite (IH Hg).
Qed.

(** When the first alternative that matches lets the rest of the
    expression match, no backtracking takes place. *)
Lemma re_match_group (d : ascii) (alts : list (list cls))
    (items : list item) (s g r : str) (gs : groups) (res : groups * str) :
  first_alt alts s = Some (g, r) ->
  re_match items r ((d, g) :: gs) = Some res ->
  re_match (Group d alts :: items) s gs = Some res.
Proof.
  intros Halt Hrest. cbn [re_match].
  unfold first_alt in Halt.
  induction alts as [|alt alts IH]; [discriminate|].
  cbn [first_some] in *.
  destruct (match_classes alt s) as [[g' r']|] eqn:E.
  - cbn [or_else] in Halt. injection Halt as -> ->.
    now rewrite Hrest.
  - cbn [or_else] in *. now apply IH.
Qed.

Lemma re_match_lit (c : ascii) (items : list item) (r : str) (gs : groups) :
  re_match (Lit c :: items) (c :: r) gs = re_match items r gs.
Proof. cbn [re_match]. now rewrite ascii_eqb_refl. Qed.

Lemma re_match_space (c x : ascii) (items : list item) (r : str)
    (gs : groups) :
  is_space c = true -> is_space x = false ->
  re_match (Spaces :: items) (c :: x :: r) gs = re_match items (x :: r) gs.
Proof.
  intros Hc Hx. cbn [re_match span_space]. rewrite Hc, Hx.
  cbn [countdown first_some skipn].
  now destruct (re_match items (x :: r) gs).
Qed.

Lemma first_alt_year (n : Z) (r : str) :
  first_alt [[dig; dig; dig; dig]] (zpad 4 n ++ r) = Some (zpad 4 n, r).
Proof.
  unfold first_alt. cbn [first_some].
  pose proof (match_classes_digits (zpad 4 n) r (forallb_digit_zpad 4 n))
    as H.
  rewrite length_zpad in H. cbn [repeat] in H. now rewrite H.
Qed.

Lemma first_alt_two (d : ascii) (alts : list (list cls)) (lo hi : nat) :
  directive d = Some alts ->
  (forall n : nat, (lo <= n <= hi)%nat -> forall r,
      first_alt alts (zpad 2 (Z.of_nat n) ++ r)
      = Some (zpad 2 (Z.of_nat n), r)) ->
  forall (v : Z) (r : str), Z.of_nat lo <= v <= Z.of_nat hi ->
    first_alt alts (zpad 2 v ++ r) = Some (zpad 2 v, r).
Proof.
  intros _ H v r Hv.
  rewrite <- (Z2Nat.id v) by lia. apply H. lia.
Qed.

Lemma first_alt_month (v : Z) (r : str) :
  1 <= v <= 12 ->
  first_alt [[one "1"; rng "0" "2"]; [one "0"; rng "1" "9"]; [rng "1" "9"]]
    (zpad 2 v ++ r) = Some (zpad 2 v, r).
Proof.
  apply (first_alt_two "m" _ 1 12 eq_refl).
  intros n Hn r'. enumerate n 13.
Qed.

Lemma first_alt_day (v : Z) (r : str) :
  1 <= v <= 31 ->
  first_alt [[one "3"; rng "0" "1"]; [rng "1" "2"; dig];
             [one "0"; rng "1" "9"]; [rng "1" "9"]; [one " "; rng "1" "9"]]
    (zpad 2 v ++ r) = Some (zpad 2 v, r).
Proof.
  apply (first_alt_two "d" _ 1 31 eq_refl).
  intros n Hn r'. enumerate n 32.
Qed.

Lemma first_alt_hour (v : Z) (r : str) :
  0 <= v <= 23 ->
  first_alt [[one "2"; rng "0" "3"]; [rng "0" "1"; dig]; [dig]]
    (zpad 2 v ++ r) = Some (zpad 2 v, r).
Proof.
  apply (first_alt_two "H" _ 0 23 eq_refl).
  intros n Hn r'. enumerate n 24.
Qed.

Lemma first_alt_minute (v : Z) (r : str) :
  0 <= v <= 59 ->
  first_alt [[rng "0" "5"; dig]; [dig]] (zpad 2 v ++ r)
  = Some (zpad 2 v, r).
Proof.
  apply (first_alt_two "M" _ 0 59 eq_refl).
  intros n Hn r'. enumerate n 60.
Qed.

Lemma first_alt_second (v : Z) (r : str) :
  0 <= v <= 59 ->
  first_alt [[one "6"; rng "0" "1"]; [rng "0" "5"; dig]; [dig]]
    (zpad 2 v ++ r) = Some (zpad 2 v, r).
Proof.
  apply (first_alt_two "S" _ 0 59 eq_refl).
  intros n Hn r'. enumerate n 60.
Qed.

Lemma re_match_space_zpad (c : ascii) (items : list item) (w : nat) (n : Z)
    (r : str) (gs : groups) :
  is_space c = true -> (0 < w)%nat ->
  re_match (Spaces :: items) (c :: zpad w n ++ r) gs
  = re_match items (zpad w n ++ r) gs.
Proof.
  intros Hc Hw.
  pose proof (length_zpad w n) as Hlen.
  pose proof (forallb_digit_zpad w n) as Hdig.
  destruct (zpad w n) as [|x s]; [cbn [length] in Hlen; lia|].
  cbn [forallb] in Hdig. apply andb_true_iff in Hdig as [Hx _].
  cbn [app]. apply re_match_space; auto using is_digit_not_space.
Qed.

Lemma field_zpad (d : ascii) (default : Z) (gs : groups) (w : nat) (n : Z) :
  group_of d gs = Some (zpad w n) -> (0 < w)%nat ->
  0 <= n < 10 ^ Z.of_nat w ->
  field d default gs = Some n.
Proof.
  intros Hg Hw Hn. unfold field. rewrite Hg.
  rewrite lstrip_digits by apply forallb_digit_zpad.
  now apply int_zpad.
Qed.

Lemma re_match_rendering (a b c : ascii) (t : datetime) :
  valid_datetime t = true -> is_space b = true ->
  re_match (date_time_items a c) (rendering a b c t) []
  = Some ([("S"%char, zpad 2 (second t)); ("M"%char, zpad 2 (minute t));
           ("H"%char, zpad 2 (hour t)); ("d"%char, zpad 2 (day t));
           ("m"%char, zpad 2 (month t)); ("Y"%char, zpad 4 (year t))], []).
Proof.
  intros V Hb. unfold valid_datetime in V. apply valid_fields_spec in V.
  destruct V as (Y & Mo & D & H & Mi & S).
  pose proof (days_in_month_bounds (year t) (month t)) as Hdim.
  unfold date_time_items, rendering.
  eapply re_match_group; [apply first_alt_year|].
  rewrite re_match_lit.
  eapply re_match_group; [apply first_alt_month; lia|].
  rewrite re_match_lit.
  eapply re_match_group; [apply first_alt_day; lia|].
  rewrite re_match_space_zpad by (assumption || lia).
  eapply re_match_group; [apply first_alt_hour; lia|].
  rewrite re_match_lit.
  eapply re_match_group; [apply first_alt_minute; lia|].
  rewrite re_match_lit.
  eapply re_match_group.
  - rewrite <- (app_nil_r (zpad 2 (second t))).
    apply first_alt_second; lia.
  - reflexivity.
Qed.

(** [strptime] on a format made of the six directives in the order
    year, month, day, hour, minute, second reads the rendering of a valid
    timestamp back. *)
Lemma strptime_rendering (a b c : ascii) (fmt : str) (t : datetime) :
  compile_format fmt = Some (date_time_items a c) ->
  valid_datetime t = true -> is_space b = true ->
  strptime (rendering a b c t) fmt = Some t.
Proof.
  intros Hfmt V Hb. unfold strptime. rewrite Hfmt. cbn [obind].
  rewrite (re_match_rendering a b c t V Hb). cbn [obind snd fst].
  destruct (valid_datetime_bounds t V) as (Y & Mo & D & H & Mi & S).
  rewrite (field_zpad "Y" 1900 _ 4 (year t)) by (reflexivity || lia).
  rewrite (field_zpad "m" 1 _ 2 (month t)) by (reflexivity || lia).
  rewrite (field_zpad "d" 1 _ 2 (day t)) by (reflexivity || lia).
  rewrite (field_zpad "H" 0 _ 2 (hour t)) by (reflexivity || lia).
  rewrite (field_zpad "M" 0 _ 2 (minute t)) by (reflexivity || lia).
  rewrite (field_zpad "S" 0 _ 2 (second t)) by (reflexivity || lia).
  cbn [obind]. now apply datetime_new_valid.
Qed.

Lemma strptime_video_format (t : datetime) :
  valid_datetime t = true ->
  strptime (rendering "-" " " ":" t) (L "%Y-%m-%d %H:%M:%S") = Some t.
Proof. intros V. now apply strptime_rendering. Qed.

Lemma strptime_exif_format (t : datetime) :
  valid_datetime t = true ->
  strptime (rendering ":" " " ":" t) (L "%Y:%m:%d %H:%M:%S") = Some t.
Proof. intros V. now apply strptime_rendering. Qed.

(** ** The normalisation of the probe's creation time *)

Lemma replace_app (old : ascii) (new a b : str) :
  replace old new (a ++ b) = replace old new a ++ replace old new b.
Proof. unfold replace. apply flat_map_app. Qed.

Lemma replace_cons (old : ascii) (new : str) (c : ascii) (s : str) :
  replace old new (c :: s)
  = (if ascii_eqb c old then new else [c]) ++ replace old new s.
Proof. reflexivity. Qed.

Lemma replace_lit (old : ascii) (new : str) (c : ascii) (s : str) :
  ascii_eqb c old = false ->
  replace old new (c :: s) = c :: replace old new s.
Proof. intros H. rewrite replace_cons. now rewrite H. Qed.

Lemma replace_hit (old : ascii) (new s : str) :
  replace old new (old :: s) = new ++ replace old new s.
Proof. rewrite replace_cons. now rewrite ascii_eqb_refl. Qed.

Lemma replace_digits (old : ascii) (new s : str) :
  is_digit old = false -> forallb is_digit s = true ->
  replace old new s = s.
Proof.
  intros Hold. induction s as [|c s IH]; intros H.
  - reflexivity.
  - cbn [forallb] in H. apply andb_true_iff in H as [Hc Hs].
    rewrite replace_cons, (IH Hs).
    destruct (ascii_eqb c old) eqn:E; [|reflexivity].
    apply ascii_eqb_eq in E. congruence.
Qed.

Lemma replace_zpad (old : ascii) (new : str) (w : nat) (n : Z) (r : str) :
  is_digit old = false ->
  replace old new (zpad w n ++ r) = zpad w n ++ replace old new r.
Proof.
  intros Hold. rewrite replace_app.
  now rewrite (replace_digits old new _ Hold (forallb_digit_zpad w n)).
Qed.

Lemma length_rendering (a b c : ascii) (t : datetime) :
  length (rendering a b c t) = 19%nat.
Proof.
  unfold rendering.
  repeat (rewrite length_app, length_zpad; cbn [length]).
  rewrite length_zpad. reflexivity.
Qed.

Lemma iso_rendering_eq (t : datetime) :
  iso_rendering t = rendering "-" "T" ":" t.
Proof.
  reflexivity.
Qed.

(** Whatever follows the nineteen characters of the creation time, the
    three steps of the video reader leave the date, a space and the
    time. *)
Lemma normalize_iso (t : datetime) (rest : str) :
  slice 0 19
    (replace "T" (L " ") (replace "Z" [] (iso_rendering t ++ rest)))
  = rendering "-" " " ":" t.
Proof.
  rewrite iso_rendering_eq.
  assert (E : forall tail,
    replace "T" (L " ") (replace "Z" [] (rendering "-" "T" ":" t ++ tail))
    = rendering "-" " " ":" t ++ replace "T" (L " ") (replace "Z" [] tail)).
  { intros tail. unfold rendering.
    repeat (rewrite <- app_assoc; cbn [app]).
    repeat first [ rewrite (replace_zpad "Z") by reflexivity
                 | rewrite (replace_lit "Z") by reflexivity ].
    repeat first [ rewrite (replace_zpad "T") by reflexivity
                 | rewrite (replace_lit "T") by reflexivity
                 | rewrite (replace_hit "T");
                   cbn [L list_ascii_of_string app] ].
    reflexivity. }
  rewrite E. unfold slice.
  cbn [skipn]. rewrite firstn_app, length_rendering.
  rewrite firstn_all2 by (rewrite length_rendering; lia).
  cbn [Nat.sub firstn]. apply app_nil_r.
Qed.

Lemma falsy_iso (t : datetime) (rest : str) :
  falsy (JStr (iso_rendering t ++ rest)) = false.
Proof.
  pose proof (length_rendering "-" "T" ":" t) as Hlen.
  rewrite <- iso_rendering_eq in Hlen.
  destruct (iso_rendering t) as [|c s]; [discriminate|reflexivity].
Qed.

(** ** The video reader *)

Section VideoReader.

Context {P : Platform}.

(** C5: when the probe succeeds and reports a creation time made of
    YYYY-MM-DDTHH:MM:SS for a valid timestamp [t], followed by anything
    (in particular by fractional seconds and a trailing Z), the video
    reader returns [t]; nothing but the call of the probe is observed. *)
Theorem get_video_ffprobe_date_creation_time
    (w : world) (video_path : str) (out : Stdout)
    (info format tags : json) (t : datetime) (rest : str) :
  subprocess_run (fs w) (ffprobe_cmd video_path) = inr (0, out) ->
  json_loads out = inr info ->
  dict_get info (L "format") (JObj []) = Some format ->
  dict_get format (L "tags") (JObj []) = Some tags ->
  dict_get tags (L "creation_time") JNull
  = Some (JStr (iso_rendering t ++ rest)) ->
  valid_datetime t = true ->
  get_video_ffprobe_date video_path w
  = (Ok (Some t),
     mkworld (fs w) (trace w ++ [CallSubprocess (ffprobe_cmd video_path)])).
Proof.
  intros Hrun Hjson Hformat Htags Hcreation V.
  unfold get_video_ffprobe_date, try_except, bind, query_exn.
  fold (ffprobe_cmd video_path). rewrite Hrun. cbn [fst snd fs trace].
  change (negb (0 =? 0)) with false. cbv iota.
  rewrite Hjson. cbn [of_sum ret]. rewrite Hformat. cbn [of_option ret].
  rewrite Htags. cbn [of_option ret]. rewrite Hcreation. cbn [of_option ret].
  rewrite falsy_iso, normalize_iso, (strptime_video_format t V).
  reflexivity.
Qed.

End VideoReader.

Lemma get_video_ffprobe_date_creation_time_witness :
  get_video_ffprobe_date (P := Mem.platform) clip
    (mem_world [(clip, Mem.File example_video)] [])
  = (Ok (Some (mkdatetime 2023 8 9 16 24 53)),
     mem_world [(clip, Mem.File example_video)]
       [CallSubprocess (ffprobe_cmd clip)]).
Proof.
  apply (get_video_ffprobe_date_creation_time (P := Mem.platform)
           (mem_world [(clip, Mem.File example_video)] []) clip
           (Some example_info) example_info example_format example_tags
           (mkdatetime 2023 8 9 16 24 53) (L ".000000Z"));
    reflexivity.
Defined.

(** ** [os.path] *)

Lemma rfind_from_app (i : Z) (c : ascii) (a b : str) (found : Z) :
  rfind_from i c (a ++ b) found
  = rfind_from (i + Z.of_nat (length a)) c b (rfind_from i c a found).
Proof.
  revert i found. induction a as [|x a IH]; intros i found.
  - cbn [app length rfind_from]. f_equal. cbn. lia.
  - cbn [app length rfind_from]. rewrite IH. f_equal. lia.
Qed.

Lemma rfind_from_absent (i : Z) (c : ascii) (s : str) (found : Z) :
  forallb (fun x => negb (ascii_eqb x c)) s = true ->
  rfind_from i c s found = found.
Proof.
  revert i found. induction s as [|x s IH]; intros i found H.
  - reflexivity.
  - cbn [forallb] in H. apply andb_true_iff in H as [Hx Hs].
    cbn [rfind_from]. apply negb_true_iff in Hx. rewrite Hx. now apply IH.
Qed.

Lemma rfind_last (c : ascii) (a b : str) :
  forallb (fun x => negb (ascii_eqb x c)) b = true ->
  rfind c (a ++ c :: b) = Z.of_nat (length a).
Proof.
  intros H. unfold rfind. rewrite rfind_from_app. cbn [rfind_from].
  rewrite ascii_eqb_refl. rewrite rfind_from_absent by assumption. lia.
Qed.

Lemma basename_no_sep (b : str) : no_sep b = true -> basename b = b.
Proof.
  intros H. unfold basename, rfind.
  now rewrite rfind_from_absent by assumption.
Qed.

Lemma basename_after_sep (a b : str) :
  no_sep b = true -> basename (a ++ sep :: b) = b.
Proof.
  intros H. unfold basename. rewrite rfind_last by assumption.
  replace (Z.to_nat (Z.of_nat (length a) + 1)) with (length a + 1)%nat
    by lia.
  rewrite skipn_app, skipn_all2 by lia.
  replace (length a + 1 - length a)%nat with 1%nat by lia.
  reflexivity.
Qed.

(** A path is a name without separator, or a directory part, a separator
    and such a name. *)
Lemma split_last_sep (p : str) :
  no_sep p = true
  \/ exists a b, p = a ++ sep :: b /\ no_sep b = true.
Proof.
  induction p as [|c p IH].
  - now left.
  - destruct IH as [H | (a & b & -> & H)].
    + destruct (ascii_eqb c sep) eqn:E.
      * right. exists [], p. apply ascii_eqb_eq in E. now subst c.
      * left. unfold no_sep. cbn [forallb]. now rewrite E.
    + right. now exists (c :: a), b.
Qed.

Lemma no_sep_basename (p : str) : no_sep (basename p) = true.
Proof.
  destruct (split_last_sep p) as [H | (a & b & -> & H)].
  - now rewrite basename_no_sep.
  - now rewrite basename_after_sep.
Qed.

Lemma startswith_sep_no_sep (b : str) :
  no_sep b = true -> startswith [sep] b = false.
Proof.
  destruct b as [|c b]; [reflexivity|].
  unfold no_sep. cbn [forallb startswith]. intros H.
  apply andb_true_iff in H as [Hc _]. apply negb_true_iff in Hc.
  unfold ascii_eqb in *. rewrite Z.eqb_sym, Hc. reflexivity.
Qed.

Lemma endswith_sep_inv (a : str) :
  endswith [sep] a = true -> exists a', a = a' ++ [sep].
Proof.
  unfold endswith. cbn [rev app]. intros H.
  destruct (rev a) as [|c r] eqn:E; [discriminate|].
  cbn [startswith] in H. apply andb_true_iff in H as [Hc _].
  apply ascii_eqb_eq in Hc. subst c.
  exists (rev r). rewrite <- (rev_involutive a), E. reflexivity.
Qed.

(** Joining a directory and a name without separator leaves the name as
    the last component. *)
Lemma basename_join (a b : str) :
  no_sep b = true -> basename (join a b) = b.
Proof.
  intros H. unfold join. rewrite (startswith_sep_no_sep b H).
  destruct a as [|x a].
  - now apply basename_no_sep.
  - destruct (endswith [sep] (x :: a)) eqn:E.
    + destruct (endswith_sep_inv _ E) as (a' & ->).
      rewrite <- app_assoc. cbn [app]. now apply basename_after_sep.
    + now apply basename_after_sep.
Qed.

(** The name ends up under the directory: the joined path is the
    directory, a separator unless the directory ends with one, and the
    name. *)
Lemma join_relative (a b : str) :
  startswith [sep] b = false -> a <> [] ->
  join a b = if endswith [sep] a then a ++ b else a ++ sep :: b.
Proof.
  intros Hb Ha. unfold join. rewrite Hb.
  destruct a; [congruence|reflexivity].
Qed.

Lemma splitext_parts (p : str) : fst (splitext p) ++ snd (splitext p) = p.
Proof.
  unfold splitext.
  destruct (rfind sep p <? rfind extsep p); [|apply app_nil_r].
  match goal with |- context [if ?c then _ else _] => destruct c end.
  - apply app_nil_r.
  - apply firstn_skipn.
Qed.

(** Dots and extensions. *)

Lemma absent_sep (s : str) : absent sep s = no_sep s.
Proof. reflexivity. Qed.

(** A string without [c], or its last occurrence. *)
Lemma split_last (c : ascii) (p : str) :
  absent c p = true
  \/ exists a b, p = a ++ c :: b /\ absent c b = true.
Proof.
  induction p as [|x p IH].
  - now left.
  - destruct IH as [H | (a & b & -> & H)].
    + destruct (ascii_eqb x c) eqn:E.
      * right. exists [], p. apply ascii_eqb_eq in E. now subst x.
      * left. unfold absent. cbn [forallb]. now rewrite E.
    + right. now exists (x :: a), b.
Qed.

Lemma rfind_absent (c : ascii) (s : str) :
  absent c s = true -> rfind c s = -1.
Proof. intros H. unfold rfind. now apply rfind_from_absent. Qed.

Lemma rfind_bounds (c : ascii) (s : str) :
  -1 <= rfind c s < Z.of_nat (length s).
Proof.
  destruct (split_last c s) as [H | (a & b & -> & H)].
  - rewrite rfind_absent by assumption. lia.
  - rewrite rfind_last by assumption. rewrite length_app. cbn [length]. lia.
Qed.

Lemma rfind_app_absent (c : ascii) (a b : str) :
  absent c b = true -> rfind c (a ++ b) = rfind c a.
Proof.
  intros H. unfold rfind. rewrite rfind_from_app.
  now apply rfind_from_absent.
Qed.

Lemma absent_app (c : ascii) (a b : str) :
  absent c (a ++ b) = absent c a && absent c b.
Proof. apply forallb_app. Qed.

(** [os.path.splitext] cuts at the last dot when the text after it has no
    separator and the last component before it is not made of dots. *)
Lemma splitext_at_dot (stem e : str) :
  absent extsep e = true -> no_sep e = true ->
  forallb (fun c => ascii_eqb c extsep) (basename stem) = false ->
  splitext (stem ++ extsep :: e) = (stem, extsep :: e).
Proof.
  intros Hdot Hsep Hstem. unfold splitext.
  rewrite (rfind_last extsep stem e Hdot).
  assert (Es : rfind sep (stem ++ extsep :: e) = rfind sep stem).
  { apply rfind_app_absent. unfold absent. cbn [forallb].
    fold (no_sep e). rewrite Hsep. reflexivity. }
  rewrite Es. pose proof (rfind_bounds sep stem) as B.
  destruct (Z.ltb_spec (rfind sep stem) (Z.of_nat (length stem))); [|lia].
  rewrite Nat2Z.id.
  assert (Est : slice (Z.to_nat (rfind sep stem + 1)) (length stem)
                  (stem ++ extsep :: e) = basename stem).
  { unfold slice, basename.
    rewrite skipn_app.
    replace (Z.to_nat (rfind sep stem + 1) - length stem)%nat with 0%nat
      by lia.
    cbn [skipn]. rewrite firstn_app, length_skipn.
    replace (length stem - Z.to_nat (rfind sep stem + 1)
             - (length stem - Z.to_nat (rfind sep stem + 1)))%nat
      with 0%nat by lia.
    cbn [firstn]. rewrite app_nil_r. apply firstn_all2.
    rewrite length_skipn. lia. }
  rewrite Est, Hstem.
  rewrite firstn_app, Nat.sub_diag, firstn_all. cbn [firstn].
  rewrite app_nil_r.
  rewrite skipn_app, Nat.sub_diag, skipn_all. reflexivity.
Qed.

(** The extension [os.path.splitext] returns is empty, or a dot followed
    by text without dot and without separator. *)
Lemma splitext_extension_shape (p : str) :
  snd (splitext p) = []
  \/ exists e, snd (splitext p) = extsep :: e
               /\ absent extsep e = true /\ no_sep e = true.
Proof.
  unfold splitext.
  destruct (Z.ltb_spec (rfind sep p) (rfind extsep p)) as [Hlt|Hge];
    [|now left].
  match goal with |- context [if ?c then _ else _] => destruct c end;
    [now left|].
  right. cbn [snd].
  destruct (split_last extsep p) as [H | (a & b & -> & H)].
  - rewrite (rfind_absent _ _ H) in Hlt.
    pose proof (rfind_bounds sep p). lia.
  - rewrite (rfind_last extsep a b H) in *. rewrite Nat2Z.id.
    rewrite skipn_app, Nat.sub_diag, skipn_all. cbn [skipn app].
    exists b. split; [reflexivity|]. split; [assumption|].
    destruct (split_last sep b) as [Hs | (b1 & b2 & -> & Hs)];
      [exact Hs|].
    exfalso.
    replace (a ++ extsep :: b1 ++ sep :: b2)
      with ((a ++ extsep :: b1) ++ sep :: b2) in Hlt
      by (now rewrite <- app_assoc).
    rewrite (rfind_last sep _ b2 Hs) in Hlt.
    rewrite length_app in Hlt. cbn [length] in Hlt. lia.
Qed.

(** ** Timestamps the program produces are valid *)

Lemma fields_valid (oy om od oh omi os : option Z) (t : datetime) :
  obind oy (fun y => obind om (fun m => obind od (fun d =>
    obind oh (fun hh => obind omi (fun mm => obind os (fun ss =>
      datetime_new y m d hh mm ss)))))) = Some t ->
  valid_datetime t = true.
Proof.
  destruct oy, om, od, oh, omi, os; cbn [obind]; try discriminate.
  intros H. now apply datetime_new_some in H.
Qed.

Lemma parse_date_from_filename_valid (s : str) (t : datetime) :
  parse_date_from_filename s = Some t -> valid_datetime t = true.
Proof.
  unfold parse_date_from_filename.
  destruct (re_search pattern_a s) as [[part1 part2]|].
  - match goal with
    | |- or_else ?a _ = _ -> _ => destruct a as [d|] eqn:E
    end; cbn [or_else].
    + intros [= <-]. now apply fields_valid in E.
    + destruct (re_search pattern_b s); [|discriminate].
      apply fields_valid.
  - cbn [or_else].
    destruct (re_search pattern_b s); [|discriminate].
    apply fields_valid.
Qed.

Lemma strptime_valid (data fmt : str) (t : datetime) :
  strptime data fmt = Some t -> valid_datetime t = true.
Proof.
  unfold strptime, obind. intros H.
  repeat match type of H with
         | match ?x with _ => _ end = _ =>
             let E := fresh "E" in destruct x eqn:E; try discriminate
         end.
  now apply datetime_new_some in H.
Qed.

(** ** Runs of the placement *)

Section Placement.

Context {P : Platform}.
Variable cfg : config.

Lemma ensure_run {A} (d : str) (w w2 : world) (k : M A) :
  ensure d w = Some w2 ->
  bind (exists_ d)
    (fun present => bind (if present then ret tt else makedirs d)
                      (fun _ => k)) w
  = k w2.
Proof.
  unfold ensure, bind, exists_, makedirs, query, command, ret.
  cbn [fs trace].
  destruct (os_path_exists (fs w) d); cbn [fs trace].
  - now intros [= <-].
  - destruct (os_makedirs (fs w) d); [discriminate|].
    intros [= <-]. now rewrite <- app_assoc.
Qed.

(** What [move_to_skipped] does once the skip folder is there: it prints
    its line and calls [shutil.move] with the skip folder joined with the
    base name of the file. *)
Lemma move_to_skipped_run (file_path reason : str) (w w2 : world) :
  ensure (SKIPPED_FOLDER cfg) w = Some w2 ->
  move_to_skipped cfg file_path reason w
  = move file_path (join (SKIPPED_FOLDER cfg) (basename file_path))
      (printed (skipping reason file_path) w2).
Proof.
  unfold ensure, move_to_skipped, create_skipped_folder, bind, exists_,
    makedirs, print, query, command, emit, ret, printed, skipping.
  cbn [fs trace].
  destruct (os_path_exists (fs w) (SKIPPED_FOLDER cfg)); cbn [fs trace].
  - now intros [= <-].
  - destruct (os_makedirs (fs w) (SKIPPED_FOLDER cfg)); [discriminate|].
    intros [= <-]. cbn [fs trace]. now rewrite <- !app_assoc.
Qed.

(** [move_to_skipped] calls no reader, whether or not the skip folder
    can be created. *)
Lemma move_to_skipped_reader_calls (file_path reason : str) (w : world) :
  reader_calls (trace (snd (move_to_skipped cfg file_path reason w)))
  = reader_calls (trace w).
Proof.
  unfold move_to_skipped, create_skipped_folder, bind, exists_, makedirs,
    print, move, query, command, emit, ret, reader_calls.
  cbn [fs trace].
  repeat match goal with
         | |- context [if ?c then _ else _] => destruct c; cbn [fs trace]
         | |- context [match ?c with inl _ => _ | inr _ => _ end] =>
             destruct c; cbn [fs trace]
         end;
    cbn [snd trace]; rewrite ?filter_app; cbn [filter is_reader_call];
    now rewrite ?app_nil_r.
Qed.

(** The readers catch what they raise, and a timestamp they return is
    valid. *)
Lemma get_image_exif_date_result (image_path : str) (w : world) :
  exists r w1,
    get_image_exif_date image_path w = (Ok r, w1)
    /\ forall t, r = Some t -> valid_datetime t = true.
Proof.
  unfold get_image_exif_date, try_except, bind, query_exn, of_option,
    emit, ret, raise.
  cbn [fs trace].
  destruct (image_getexif (fs w) image_path) as [e|[items|]];
    try (eexists; eexists; split; [reflexivity|discriminate]).
  destruct (first_date_tag items) as [[value|]|];
    try (eexists; eexists; split; [reflexivity|discriminate]).
  destruct (strptime value (L "%Y:%m:%d %H:%M:%S")) as [d|] eqn:E;
    try (eexists; eexists; split; [reflexivity|discriminate]).
  eexists; eexists; split; [reflexivity|].
  intros t [= <-]. eapply strptime_valid; eassumption.
Qed.

Lemma get_video_ffprobe_date_result (video_path : str) (w : world) :
  exists r w1,
    get_video_ffprobe_date video_path w = (Ok r, w1)
    /\ forall t, r = Some t -> valid_datetime t = true.
Proof.
  unfold get_video_ffprobe_date, try_except, bind, query_exn, of_option,
    of_sum, emit, ret, raise.
  cbn [fs trace].
  destruct (subprocess_run (fs w) _) as [e|[code out]]; done_none.
  cbn [fst snd]. destruct (negb (code =? 0)); done_none.
  destruct (json_loads out) as [e|info]; done_none.
  destruct (dict_get info (L "format") (JObj [])) as [format|]; done_none.
  destruct (dict_get format (L "tags") (JObj [])) as [tags|]; done_none.
  destruct (dict_get tags (L "creation_time") JNull) as [creation|];
    done_none.
  destruct (falsy creation); done_none.
  destruct creation as [| | |raw| |]; done_none.
  match goal with
  | |- context [strptime ?a ?b] => destruct (strptime a b) as [d|] eqn:E
  end; done_none.
  eexists; eexists; split; [reflexivity|].
  intros t [= <-]. eapply strptime_valid; eassumption.
Qed.

Lemma reader_result (m : media) (file_path : str) (w : world) :
  exists r w1,
    reader m file_path w = (Ok r, w1)
    /\ forall t, r = Some t -> valid_datetime t = true.
Proof.
  destruct m;
    [apply get_image_exif_date_result | apply get_video_ffprobe_date_result].
Qed.

Lemma resolve_valid (m : media) (file_path : str) (w w1 : world)
    (from_metadata : option datetime) (ts : datetime) :
  reader m file_path w = (Ok from_metadata, w1) ->
  resolve from_metadata file_path = Some ts ->
  valid_datetime ts = true.
Proof.
  intros Hr Hres.
  destruct (reader_result m file_path w) as (r & w' & E & Hv).
  rewrite Hr in E. injection E as <- <-.
  unfold resolve in Hres. destruct from_metadata as [d|]; cbn in Hres.
  - injection Hres as <-. now apply Hv.
  - now apply parse_date_from_filename_valid in Hres.
Qed.

Lemma digit_not_sep (c : ascii) : is_digit c = true -> ascii_eqb c sep = false.
Proof.
  unfold is_digit, ascii_eqb. intros H.
  apply andb_true_iff in H as [H _]. apply Z.leb_le in H.
  apply Z.eqb_neq. change (ord sep) with 47. lia.
Qed.

Lemma startswith_sep_digit (c : ascii) (s : str) :
  is_digit c = true -> startswith [sep] (c :: s) = false.
Proof.
  intros H. cbn [startswith]. unfold ascii_eqb. rewrite Z.eqb_sym.
  fold (ascii_eqb c sep). now rewrite (digit_not_sep c H).
Qed.

Lemma endswith_sep_digit (body : str) (d : ascii) :
  is_digit d = true -> endswith [sep] (body ++ [d]) = false.
Proof.
  intros H. unfold endswith. rewrite rev_app_distr.
  cbn [rev app]. now apply startswith_sep_digit.
Qed.

(** Joining digits to a folder gives a path that ends with a digit. *)
Lemma join_digits (root g : str) :
  g <> [] -> forallb is_digit g = true ->
  exists body d, is_digit d = true /\ join root g = body ++ [d].
Proof.
  intros Hne Hdig.
  destruct (exists_last Hne) as (g' & d & ->).
  rewrite forallb_app in Hdig. apply andb_true_iff in Hdig as [Hg' Hd].
  cbn [forallb] in Hd. apply andb_true_iff in Hd as [Hd _].
  assert (Hstart : startswith [sep] (g' ++ [d]) = false).
  { destruct g' as [|c g'']; cbn [app].
    - now apply startswith_sep_digit.
    - cbn [forallb] in Hg'. apply andb_true_iff in Hg' as [Hc _].
      now apply startswith_sep_digit. }
  unfold join. rewrite Hstart.
  destruct (match root with [] => true | _ :: _ => endswith [sep] root end).
  - exists (root ++ g'), d. split; [assumption|]. now rewrite app_assoc.
  - exists (root ++ sep :: g'), d. split; [assumption|].
    now rewrite <- app_assoc.
Qed.

(** A name that starts with a digit, joined to a folder whose last
    component is made of digits, lands under that folder. *)
Lemma join_year_folder (root g : str) (c : ascii) (name : str) :
  g <> [] -> forallb is_digit g = true -> is_digit c = true ->
  join (join root g) (c :: name) = join root g ++ sep :: c :: name.
Proof.
  intros Hne Hdig Hc.
  destruct (join_digits root g Hne Hdig) as (body & d & Hd & ->).
  unfold join. rewrite (startswith_sep_digit c name Hc).
  rewrite (endswith_sep_digit body d Hd).
  now destruct body.
Qed.

Lemma year_text_cons (y : Z) :
  exists c rest, year_text y = c :: rest /\ is_digit c = true.
Proof.
  pose proof (year_text_digits y) as Hd.
  pose proof (length_year_text y) as (Hl & _).
  destruct (year_text y) as [|c rest]; [cbn [length] in Hl; lia|].
  cbn [forallb] in Hd. apply andb_true_iff in Hd as [Hc _].
  now exists c, rest.
Qed.

Lemma year_text_not_nil (y : Z) : year_text y <> [].
Proof.
  destruct (year_text_cons y) as (c & rest & -> & _). discriminate.
Qed.

(** The digits of the year folder read back as the year. *)
Lemma year_folder_year (ts : datetime) :
  valid_datetime ts = true -> int_ (strftime ts (L "%Y")) = Some (year ts).
Proof.
  intros V. rewrite strftime_year.
  apply int_year_text. apply valid_datetime_bounds in V.
  change (10 ^ Z.of_nat 4) with 10000 in V. lia.
Qed.

Lemma organized_path_eq (ts : datetime) (file_path : str) :
  join (join (ORGANIZED_FOLDER cfg) (strftime ts (L "%Y")))
    (generate_new_file_name ts (snd (splitext file_path)))
  = organized_path cfg ts file_path.
Proof.
  unfold organized_path. rewrite strftime_year, generate_new_file_name_eq.
  unfold generated.
  destruct (year_text_cons (year ts)) as (c & rest & E & Hc).
  rewrite E at 2 4. cbn [app].
  apply join_year_folder;
    [apply year_text_not_nil | apply year_text_digits | exact Hc].
Qed.

(** A file with a date: the year folder is ensured, a line is printed,
    and [shutil.move] is called with the organized path. *)
Lemma organize_resolved (m : media) (file_path : str) (w w1 w2 : world)
    (from_metadata : option datetime) (ts : datetime) :
  reader m file_path w = (Ok from_metadata, w1) ->
  resolve from_metadata file_path = Some ts ->
  ensure (join (ORGANIZED_FOLDER cfg) (year_text (year ts))) w1 = Some w2 ->
  organize cfg m file_path w
  = move file_path (organized_path cfg ts file_path)
      (printed (organized_line m ts file_path) w2).
Proof.
  intros Hr Hres He. rewrite <- organized_path_eq.
  rewrite <- strftime_year in He.
  destruct m; cbn [reader organize] in *;
    unfold organize_images, organize_videos;
    unfold bind at 1; rewrite Hr;
    unfold resolve in Hres;
    (destruct from_metadata as [d|]; cbn [or_else] in Hres;
     [injection Hres as -> | ]);
    unfold bind at 1; unfold ret at 1; rewrite ?Hres;
    rewrite (ensure_run _ w1 w2 _ He);
    reflexivity.
Qed.

(** A file without a date goes to [move_to_skipped]. *)
Lemma organize_unresolved (m : media) (file_path : str) (w w1 w2 : world) :
  reader m file_path w = (Ok None, w1) ->
  resolve None file_path = None ->
  ensure (SKIPPED_FOLDER cfg) w1 = Some w2 ->
  organize cfg m file_path w
  = move file_path (join (SKIPPED_FOLDER cfg) (basename file_path))
      (printed (skipping (no_date_reason m) file_path) w2).
Proof.
  intros Hr Hres He. cbn [resolve or_else] in Hres.
  rewrite <- (move_to_skipped_run file_path (no_date_reason m) w1 w2 He).
  destruct m; cbn [reader organize no_date_reason] in *;
    unfold organize_images, organize_videos;
    unfold bind at 1; rewrite Hr;
    unfold bind at 1; unfold ret at 1; unfold resolve in Hres;
    cbn [or_else] in Hres; rewrite Hres; reflexivity.
Qed.

(** [process_file] prints its line and dispatches on the class. *)
Lemma process_file_dispatch (file_path : str) (w : world) :
  process_file cfg file_path w
  = match classify file_path with
    | Some m => organize cfg m file_path
    | None => move_to_skipped cfg file_path (L "Unsupported file type")
    end (printed (Print (L "Processing file: " ++ file_path)) w).
Proof.
  unfold process_file, classify, bind, print, emit, printed.
  destruct (endswith_any image_suffixes (lower file_path));
    [reflexivity|].
  destruct (endswith_any video_suffixes (lower file_path)); reflexivity.
Qed.

(** X20: a file whose date resolves to [ts], from the metadata or else
    from the stem of its name, is moved to the organized root joined with
    the year of [ts] as [%Y] writes it, a separator, the generated name
    and the extension of the original path: for a path that ends with a
    dot and text without dot and separator, after a stem whose last
    component is not made of dots, that dot and text.  The year folder
    reads back as the year of [ts]; from the year 1000 on it has four
    digits and the name is YYYY-MM-DD HH.MM.SS.  No time of the file
    system enters. *)
Theorem organize_destination (m : media) (file_path : str)
    (w w1 w2 : world) (from_metadata : option datetime) (ts : datetime) :
  reader m file_path w = (Ok from_metadata, w1) ->
  resolve from_metadata file_path = Some ts ->
  ensure (join (ORGANIZED_FOLDER cfg) (year_text (year ts))) w1 = Some w2 ->
  organize cfg m file_path w
  = move file_path
      (join (ORGANIZED_FOLDER cfg) (year_text (year ts)) ++ sep
         :: generated ts ++ snd (splitext file_path))
      (printed (organized_line m ts file_path) w2)
  /\ int_ (year_text (year ts)) = Some (year ts)
  /\ (1000 <= year ts ->
      year_text (year ts) = zpad 4 (year ts)
      /\ generated ts = rendering "-" " " "." ts)
  /\ (forall stem e,
        file_path = stem ++ extsep :: e ->
        absent extsep e = true -> no_sep e = true ->
        forallb (fun c => ascii_eqb c extsep) (basename stem) = false ->
        snd (splitext file_path) = extsep :: e)
  /\ (ORGANIZED_FOLDER cfg <> [] ->
      endswith [sep] (ORGANIZED_FOLDER cfg) = false ->
      join (ORGANIZED_FOLDER cfg) (year_text (year ts))
      = ORGANIZED_FOLDER cfg ++ sep :: year_text (year ts)).
Proof.
  intros Hr Hres He.
  pose proof (resolve_valid m file_path w w1 from_metadata ts Hr Hres) as V.
  split; [|split; [|split; [|split]]].
  - now rewrite (organize_resolved m file_path w w1 w2 from_metadata ts
                   Hr Hres He).
  - rewrite <- strftime_year. now apply year_folder_year.
  - intros Hy. split; [now apply year_text_padded|now apply generated_padded].
  - intros stem e -> Hdot Hsep Hstem.
    now rewrite (splitext_at_dot stem e Hdot Hsep Hstem).
  - intros Hne Hend. rewrite join_relative; [now rewrite Hend| |assumption].
    destruct (year_text_cons (year ts)) as (c & rest & -> & Hc).
    now apply startswith_sep_digit.
Qed.

(** C7 (amended): the path is lower-cased only to choose the class of
    the file.  The extension appended to the generated name of a file
    with date [ts] is the second component of [os.path.splitext] of the
    original path, a suffix of that path with its case unchanged. *)
Theorem process_file_keeps_extension (m : media) (file_path : str)
    (w w1 w2 : world) (from_metadata : option datetime) (ts : datetime) :
  classify file_path = Some m ->
  reader m file_path (printed (Print (L "Processing file: " ++ file_path)) w)
  = (Ok from_metadata, w1) ->
  resolve from_metadata file_path = Some ts ->
  ensure (join (ORGANIZED_FOLDER cfg) (year_text (year ts))) w1 = Some w2 ->
  process_file cfg file_path w
  = move file_path
      (join (ORGANIZED_FOLDER cfg) (year_text (year ts)) ++ sep
         :: generated ts ++ snd (splitext file_path))
      (printed (organized_line m ts file_path) w2)
  /\ fst (splitext file_path) ++ snd (splitext file_path) = file_path.
Proof.
  intros Hc Hr Hres He. split; [|apply splitext_parts].
  rewrite process_file_dispatch, Hc.
  now rewrite (organize_resolved m file_path _ w1 w2 from_metadata ts
                 Hr Hres He).
Qed.

(** C8 (amended): a file whose lower-cased path ends with none of the
    image suffixes .jpg .jpeg .png .gif .heic and none of the video
    suffixes .mp4 .mov .avi .mkv makes [process_file] call neither
    reader; once the skip folder is there the file is moved into it under
    its own name, with the reason "Unsupported file type" printed. *)
Theorem process_file_unsupported (file_path : str) (w : world) :
  endswith_any image_suffixes (lower file_path) = false ->
  endswith_any video_suffixes (lower file_path) = false ->
  reader_calls (trace (snd (process_file cfg file_path w)))
  = reader_calls (trace w)
  /\ forall w2,
      ensure (SKIPPED_FOLDER cfg)
        (printed (Print (L "Processing file: " ++ file_path)) w) = Some w2 ->
      process_file cfg file_path w
      = move file_path (join (SKIPPED_FOLDER cfg) (basename file_path))
          (printed (skipping (L "Unsupported file type") file_path) w2).
Proof.
  intros Hi Hv.
  assert (Hc : classify file_path = None)
    by (unfold classify; now rewrite Hi, Hv).
  rewrite process_file_dispatch, Hc. split.
  - rewrite move_to_skipped_reader_calls. unfold printed, reader_calls.
    cbn [trace]. rewrite filter_app. cbn [filter is_reader_call].
    apply app_nil_r.
  - intros w2 He. now apply move_to_skipped_run.
Qed.

(** C9: a file for which the reader returns no date and whose stem
    matches no pattern is, once the skip folder is there, moved into the
    skip folder under its own name: for a path whose last component is
    [name], the destination is the skip folder joined with [name] (the
    skip folder, a separator and [name], when the folder is not empty
    and does not end with a separator), and [name] is what the line
    printed says. *)
Theorem organize_unresolved_skipped (m : media) (file_path name : str)
    (w w1 w2 : world) :
  (file_path = name \/ exists dir, file_path = dir ++ sep :: name) ->
  no_sep name = true ->
  reader m file_path w = (Ok None, w1) ->
  parse_date_from_filename (fst (splitext name)) = None ->
  ensure (SKIPPED_FOLDER cfg) w1 = Some w2 ->
  organize cfg m file_path w
  = move file_path (join (SKIPPED_FOLDER cfg) name)
      (printed
         (Print (L "Skipping file (" ++ no_date_reason m ++ L "): " ++ name))
         w2)
  /\ (SKIPPED_FOLDER cfg <> [] ->
      endswith [sep] (SKIPPED_FOLDER cfg) = false ->
      join (SKIPPED_FOLDER cfg) name = SKIPPED_FOLDER cfg ++ sep :: name).
Proof.
  intros Hpath Hname Hr Hp He.
  assert (Hb : basename file_path = name).
  { destruct Hpath as [->|[dir ->]].
    - now apply basename_no_sep.
    - now apply basename_after_sep. }
  split.
  - rewrite (organize_unresolved m file_path w w1 w2 Hr);
      [|unfold resolve; cbn [or_else]; now rewrite Hb|exact He].
    unfold skipping. now rewrite Hb.
  - intros Hne Hend. rewrite join_relative; [now rewrite Hend| |assumption].
    now apply startswith_sep_no_sep.
Qed.

(** C10: the destination [move_to_skipped] computes depends on the base
    name only: two paths with one base name are moved to one and the same
    destination, the skip folder joined with that name (the skip folder,
    a separator and the name, when the folder is not empty and does not
    end with a separator). *)
Theorem move_to_skipped_basename_only
    (path1 path2 reason1 reason2 : str) (wa wa' wb wb' : world) :
  basename path1 = basename path2 ->
  ensure (SKIPPED_FOLDER cfg) wa = Some wa' ->
  ensure (SKIPPED_FOLDER cfg) wb = Some wb' ->
  exists destination,
    destination = join (SKIPPED_FOLDER cfg) (basename path1)
    /\ move_to_skipped cfg path1 reason1 wa
       = move path1 destination (printed (skipping reason1 path1) wa')
    /\ move_to_skipped cfg path2 reason2 wb
       = move path2 destination (printed (skipping reason2 path2) wb')
    /\ (SKIPPED_FOLDER cfg <> [] ->
        endswith [sep] (SKIPPED_FOLDER cfg) = false ->
        destination = SKIPPED_FOLDER cfg ++ sep :: basename path1).
Proof.
  intros Hb Ha Hb'. eexists. split; [reflexivity|].
  split; [|split].
  - now apply move_to_skipped_run.
  - rewrite Hb. now apply move_to_skipped_run.
  - intros Hne Hend. rewrite join_relative; [now rewrite Hend| |assumption].
    apply startswith_sep_no_sep, no_sep_basename.
Qed.


End Placement.

(** ** Runs on the in-memory platform *)



Lemma organize_destination_witness :
  organize example_config Image dated_picture start_world
  = move dated_picture (L "/out/2023/2023-08-09 16.24.53.JPG")
      (printed (organized_line Image example_date dated_picture)
         (with_year_folder [CallImageOpen dated_picture]))
  /\ int_ (L "2023") = Some 2023
  /\ snd (splitext dated_picture) = L ".JPG"
  /\ join (L "/out") (L "2023") = L "/out/2023".
Proof.
  destruct (organize_destination (P := Mem.platform) example_config Image
              dated_picture start_world
              (mem_world example_fs [CallImageOpen dated_picture])
              (with_year_folder [CallImageOpen dated_picture])
              None example_date)
    as (H1 & H2 & _ & H4 & H5); try reflexivity.
  split; [exact H1|]. split; [exact H2|]. split.
  - apply (H4 (L "/in/IMG_0033_20230809_162453") (L "JPG")); reflexivity.
  - apply H5; [discriminate | reflexivity].
Defined.

(** C6: the year folder and the name are not four digits wide before
    the year 1000.  The picture [IMG_09991231_235959.jpg], whose name
    gives the last second of the year 999, is moved to the folder [999]
    under the name [999-12-31 23.59.59.jpg]. *)
Theorem organize_destination_year_999 :
  parse_date_from_filename (fst (splitext (basename old_picture)))
  = Some last_of_999
  /\ organize example_config Image old_picture (mem_world old_fs [])
     = move old_picture (L "/out/999/999-12-31 23.59.59.jpg")
         (printed
            (Print (L "Organizing image: IMG_09991231_235959.jpg"
                      ++ L " -> 999-12-31 23.59.59.jpg"))
            (mem_world (old_fs ++ [(L "/out/999", Mem.Dir)])
               [CallImageOpen old_picture; CallExists (L "/out/999");
                CallMakedirs (L "/out/999")])).
Proof.
  split; reflexivity.
Qed.

Lemma process_file_keeps_extension_witness :
  process_file (P := Mem.platform) example_config dated_picture start_world
  = move dated_picture
      (join (L "/out") (zpad 4 2023) ++ sep
         :: rendering "-" " " "." example_date ++ snd (splitext dated_picture))
      (printed (organized_line Image example_date dated_picture)
         (with_year_folder
            [Print (L "Processing file: " ++ dated_picture);
             CallImageOpen dated_picture]))
  /\ fst (splitext dated_picture) ++ snd (splitext dated_picture)
     = dated_picture.
Proof.
  apply (process_file_keeps_extension (P := Mem.platform) example_config
           Image dated_picture start_world
           (mem_world example_fs
              [Print (L "Processing file: " ++ dated_picture);
               CallImageOpen dated_picture])
           (with_year_folder
              [Print (L "Processing file: " ++ dated_picture);
               CallImageOpen dated_picture])
           None example_date);
    reflexivity.
Defined.

(** C7 as stated fails: the picture [IMG_0033_20230809_162453.JPG] is
    moved to a name that ends with [.JPG], the extension as it is written
    in the original path, not with its lower-case form [.jpg]. *)
Lemma process_file_extension_not_lowered :
  trace (snd (process_file (P := Mem.platform) example_config dated_picture
                start_world))
  = [Print (L "Processing file: /in/IMG_0033_20230809_162453.JPG");
     CallImageOpen dated_picture;
     CallExists (L "/out/2023"); CallMakedirs (L "/out/2023");
     Print (L "Organizing image: IMG_0033_20230809_162453.JPG -> "
              ++ L "2023-08-09 16.24.53.JPG");
     CallMove dated_picture (L "/out/2023/2023-08-09 16.24.53.JPG")]
  /\ snd (splitext (L "/out/2023/2023-08-09 16.24.53.JPG")) = L ".JPG"
  /\ lower (snd (splitext dated_picture)) = L ".jpg"
  /\ L ".JPG" <> L ".jpg".
Proof. repeat split. discriminate. Qed.

Lemma process_file_unsupported_witness :
  reader_calls
    (trace (snd (process_file (P := Mem.platform) example_config text_file
                   start_world)))
  = reader_calls []
  /\ process_file (P := Mem.platform) example_config text_file start_world
     = move text_file (join (L "/skip") (basename text_file))
         (printed (skipping (L "Unsupported file type") text_file)
            (with_skip_folder [Print (L "Processing file: " ++ text_file)])).
Proof.
  destruct (process_file_unsupported (P := Mem.platform) example_config
              text_file start_world) as [H1 H2]; try reflexivity.
  split; [exact H1|]. apply H2. reflexivity.
Defined.

(** C8 as stated fails: the file [/in/.jpg] has no extension for
    [os.path.splitext], so its extension is in neither set, but its
    lower-cased path ends with [.jpg]: [process_file] takes it for an
    image, calls the image reader, and skips it for want of a date. *)
Lemma process_file_dot_name_reads_image :
  snd (splitext dot_name) = []
  /\ existsb (str_eqb (lower (snd (splitext dot_name))))
       (image_suffixes ++ video_suffixes) = false
  /\ reader_calls
       (trace (snd (process_file (P := Mem.platform) example_config dot_name
                      start_world)))
     = [CallImageOpen dot_name]
  /\ trace (snd (process_file (P := Mem.platform) example_config dot_name
                   start_world))
     = [Print (L "Processing file: /in/.jpg");
        CallImageOpen dot_name;
        CallExists (L "/skip"); CallMakedirs (L "/skip");
        Print (L "Skipping file (No date from EXIF or filename): .jpg");
        CallMove dot_name (L "/skip/.jpg")].
Proof. repeat split. Qed.

Lemma organize_unresolved_skipped_witness :
  organize example_config Image undated_picture start_world
  = move undated_picture (L "/skip/holiday.png")
      (printed
         (Print (L "Skipping file (No date from EXIF or filename): "
                   ++ L "holiday.png"))
         (with_skip_folder [CallImageOpen undated_picture]))
  /\ join (L "/skip") (L "holiday.png") = L "/skip/holiday.png".
Proof.
  destruct (organize_unresolved_skipped (P := Mem.platform) example_config
              Image undated_picture (L "holiday.png") start_world
              (mem_world example_fs [CallImageOpen undated_picture])
              (with_skip_folder [CallImageOpen undated_picture]))
    as [H1 H2]; try reflexivity.
  - right. now exists (L "/in").
  - split; [exact H1|]. apply H2; [discriminate | reflexivity].
Defined.

Lemma move_to_skipped_basename_only_witness :
  text_file <> other_text_file
  /\ exists destination,
      destination = join (L "/skip") (basename text_file)
      /\ move_to_skipped (P := Mem.platform) example_config text_file
           (L "Unsupported file type") start_world
         = move text_file destination
             (printed (skipping (L "Unsupported file type") text_file)
                (with_skip_folder []))
      /\ move_to_skipped (P := Mem.platform) example_config other_text_file
           (L "Unsupported file type") start_world
         = move other_text_file destination
             (printed (skipping (L "Unsupported file type") other_text_file)
                (with_skip_folder []))
      /\ destination = L "/skip/notes.txt".
Proof.
  split; [discriminate|].
  destruct (move_to_skipped_basename_only (P := Mem.platform)
              example_config text_file other_text_file
              (L "Unsupported file type") (L "Unsupported file type")
              start_world (with_skip_folder [])
              start_world (with_skip_folder []))
    as (destination & Hd & H1 & H2 & H3); try reflexivity.
  exists destination. split; [exact Hd|]. split; [exact H1|].
  split; [exact H2|]. apply H3; [discriminate | reflexivity].
Defined.

(** * Further properties of the code *)

(** ** The filename parser *)

Lemma digits_leading (n : nat) (s : str) (m : str * str) :
  digits n s = Some m -> (n <= leading_digits s)%nat.
Proof.
  revert s m. induction n as [|n IH]; intros s m H; [lia|].
  cbn [digits] in H. destruct s as [|c s]; [discriminate|].
  cbn [leading_digits]. destruct (is_digit c); [|discriminate].
  destruct (digits n s) as [m'|] eqn:E; [|discriminate].
  apply IH in E. lia.
Qed.

Lemma leading_le_longest (s : str) :
  (leading_digits s <= longest_digit_run s)%nat.
Proof.
  destruct s as [|c s]; [reflexivity|]. cbn [longest_digit_run]. lia.
Qed.

Lemma longest_skipn (k : nat) (s : str) :
  (longest_digit_run (skipn k s) <= longest_digit_run s)%nat.
Proof.
  revert s. induction k as [|k IH]; intros [|c s]; cbn [skipn]; try lia.
  specialize (IH s). cbn [longest_digit_run]. lia.
Qed.

Lemma digits_short_run (n k : nat) (s : str) :
  (longest_digit_run s < n)%nat -> digits n (skipn k s) = None.
Proof.
  intros H. destruct (digits n (skipn k s)) as [m|] eqn:E; [|reflexivity].
  apply digits_leading in E.
  pose proof (leading_le_longest (skipn k s)).
  pose proof (longest_skipn k s). lia.
Qed.

Lemma digits_weaken (n m : nat) (s : str) :
  (n <= m)%nat -> digits n s = None -> digits m s = None.
Proof.
  revert m s. induction n as [|n IH]; intros m s Hnm H; [discriminate|].
  destruct m as [|m]; [lia|].
  cbn [digits] in *. destruct s as [|c s]; [reflexivity|].
  destruct (is_digit c); [|reflexivity].
  destruct (digits n s) as [[g r]|] eqn:E; [discriminate|].
  now rewrite (IH m s) by (assumption || lia).
Qed.

(** Both patterns start with eight digits. *)
Lemma patterns_short_runs (s : str) (k : nat) :
  (longest_digit_run s < 8)%nat ->
  pattern_a (skipn k s) = None /\ pattern_b (skipn k s) = None.
Proof.
  intros H. pose proof (digits_short_run 8 k s H) as E. split.
  - unfold pattern_a. now rewrite E.
  - unfold pattern_b.
    now rewrite (digits_weaken 8 14 _ ltac:(lia) E).
Qed.

(** X1: a filename that holds no run of eight digits has no date,
    whatever else it holds. *)
Theorem parse_date_from_filename_short_runs (filename : str) :
  (longest_digit_run filename < 8)%nat ->
  parse_date_from_filename filename = None.
Proof.
  intros H. apply parse_date_from_filename_no_pattern; intros k _;
    now apply patterns_short_runs.
Qed.

Lemma parse_date_from_filename_short_runs_witness :
  parse_date_from_filename (L "holiday_2023_0809") = None.
Proof.
  apply (parse_date_from_filename_short_runs (L "holiday_2023_0809")).
  vm_compute. lia.
Defined.

Lemma leading_digits_app (g rest : str) :
  forallb is_digit g = true ->
  leading_digits (g ++ rest) = (length g + leading_digits rest)%nat.
Proof.
  induction g as [|c g IH]; intros H; [reflexivity|].
  cbn [forallb] in H. apply andb_true_iff in H as [Hc Hg].
  cbn [app leading_digits length]. rewrite Hc, (IH Hg). reflexivity.
Qed.

Lemma longest_digit_run_app (g : str) (c : ascii) (rest : str) :
  forallb is_digit g = true -> is_digit c = false ->
  longest_digit_run (g ++ c :: rest)
  = Nat.max (length g) (longest_digit_run rest).
Proof.
  intros Hg Hc. induction g as [|x g IH].
  - cbn [app longest_digit_run leading_digits length]. now rewrite Hc.
  - cbn [forallb] in Hg. apply andb_true_iff in Hg as [Hx Hg].
    change ((x :: g) ++ c :: rest) with (x :: (g ++ c :: rest)).
    cbn [longest_digit_run]. rewrite (IH Hg).
    change (x :: g ++ c :: rest) with ((x :: g) ++ c :: rest).
    rewrite leading_digits_app
      by (cbn [forallb]; now rewrite Hx, Hg).
    cbn [leading_digits length]. rewrite Hc. lia.
Qed.

Lemma longest_digit_run_digits (g : str) :
  forallb is_digit g = true -> longest_digit_run g = length g.
Proof.
  induction g as [|x g IH]; intros H; [reflexivity|].
  cbn [forallb] in H. apply andb_true_iff in H as [Hx Hg].
  cbn [longest_digit_run length]. rewrite (IH Hg).
  rewrite <- (app_nil_r (x :: g)) at 1.
  rewrite leading_digits_app by (cbn [forallb]; now rewrite Hx, Hg).
  cbn [leading_digits length]. lia.
Qed.

Lemma longest_digit_run_rendering (a b c : ascii) (t : datetime) :
  is_digit a = false -> is_digit b = false -> is_digit c = false ->
  longest_digit_run (rendering a b c t) = 4%nat.
Proof.
  intros Ha Hb Hc. unfold rendering.
  repeat (rewrite longest_digit_run_app
            by (assumption || apply forallb_digit_zpad)).
  rewrite longest_digit_run_digits by apply forallb_digit_zpad.
  now rewrite !length_zpad.
Qed.

(** X2: in a filename where pattern A matches nowhere, the leftmost run
    of fourteen digits, when it renders a valid timestamp [t] as
    YYYYMMDDHHMMSS, gives the result [t]. *)
Theorem parse_date_from_filename_pattern_b (t : datetime) (pre post : str) :
  valid_datetime t = true ->
  (forall k, (k <= length (pre ++ stamp_b t ++ post))%nat ->
     pattern_a (skipn k (pre ++ stamp_b t ++ post)) = None) ->
  (forall k, (k < length pre)%nat ->
     pattern_b (skipn k (pre ++ stamp_b t ++ post)) = None) ->
  parse_date_from_filename (pre ++ stamp_b t ++ post) = Some t.
Proof.
  intros V Ha Hb. unfold parse_date_from_filename.
  rewrite (re_search_none _ _ Ha). cbn [or_else].
  rewrite (search_stamp_b t pre post Hb).
  rewrite (read_pattern_b t (valid_in_width t V)).
  now apply datetime_new_valid.
Qed.

Lemma parse_date_from_filename_pattern_b_witness :
  parse_date_from_filename (L "VID" ++ stamp_b example_date ++ [])
  = Some example_date.
Proof.
  apply (parse_date_from_filename_pattern_b example_date (L "VID") []).
  - reflexivity.
  - intros k Hk. do 18 (destruct k as [|k]; [reflexivity|]).
    cbn in Hk. lia.
  - intros k Hk. do 3 (destruct k as [|k]; [reflexivity|]).
    cbn in Hk. lia.
Defined.

Lemma reads_a_parts (t : datetime) :
  in_width t = true -> reads_a (date_part t) (time_part t) t.
Proof.
  intros W. destruct (in_width_bounds t W) as (Y & Mo & D & H & Mi & S).
  unfold reads_a.
  piece (@nil ascii) (zpad 4 (year t)) (zpad 2 (month t) ++ zpad 2 (day t)).
  piece (zpad 4 (year t)) (zpad 2 (month t)) (zpad 2 (day t)).
  piece (zpad 4 (year t) ++ zpad 2 (month t)) (zpad 2 (day t)) (@nil ascii).
  piece (@nil ascii) (zpad 2 (hour t))
        (zpad 2 (minute t) ++ zpad 2 (second t)).
  piece (zpad 2 (hour t)) (zpad 2 (minute t)) (zpad 2 (second t)).
  piece (zpad 2 (hour t) ++ zpad 2 (minute t)) (zpad 2 (second t))
        (@nil ascii).
  rewrite !int_zpad by (assumption || lia).
  repeat split.
Qed.

Lemma reads_b_parts (t : datetime) :
  in_width t = true -> reads_b (date_part t ++ time_part t) t.
Proof.
  intros W. destruct (in_width_bounds t W) as (Y & Mo & D & H & Mi & S).
  unfold reads_b.
  set (y := zpad 4 (year t)). set (mo := zpad 2 (month t)).
  set (d := zpad 2 (day t)). set (h := zpad 2 (hour t)).
  set (mi := zpad 2 (minute t)). set (s := zpad 2 (second t)).
  assert (E : date_part t ++ time_part t = y ++ mo ++ d ++ h ++ mi ++ s).
  { unfold date_part, time_part. now rewrite <- !app_assoc. }
  rewrite E.
  assert (Ly : length y = 4%nat) by apply length_zpad.
  assert (Lmo : length mo = 2%nat) by apply length_zpad.
  assert (Ld : length d = 2%nat) by apply length_zpad.
  assert (Lh : length h = 2%nat) by apply length_zpad.
  assert (Lmi : length mi = 2%nat) by apply length_zpad.
  assert (Ls : length s = 2%nat) by apply length_zpad.
  rewrite (slice_eq [] y (mo ++ d ++ h ++ mi ++ s)) by easy.
  rewrite (slice_eq y mo (d ++ h ++ mi ++ s)) by easy.
  rewrite (slice_eq (y ++ mo) d (h ++ mi ++ s))
    by (rewrite <- ?app_assoc, ?length_app; (reflexivity || lia)).
  rewrite (slice_eq (y ++ mo ++ d) h (mi ++ s))
    by (rewrite <- ?app_assoc, ?length_app; (reflexivity || lia)).
  rewrite (slice_eq (y ++ mo ++ d ++ h) mi s)
    by (rewrite <- ?app_assoc, ?length_app; (reflexivity || lia)).
  rewrite (slice_eq (y ++ mo ++ d ++ h ++ mi) s [])
    by (rewrite <- ?app_assoc, ?app_nil_r, ?length_app;
        (reflexivity || lia)).
  unfold y, mo, d, h, mi, s.
  rewrite !int_zpad by (assumption || lia).
  repeat split.
Qed.

(** X3: a timestamp the parser returns is a valid calendar date-time
    read from the filename: the name holds, at the leftmost match of
    pattern A, eight digits, an underscore and six digits, or, at the
    leftmost match of pattern B, fourteen digits, and the numbers [int]
    reads from the slices of these digits are the six fields of the
    timestamp.  The parser invents no date and adjusts none. *)
Theorem parse_date_from_filename_sound (filename : str) (t : datetime) :
  parse_date_from_filename filename = Some t ->
  valid_datetime t = true
  /\ ((exists pre part1 part2 post,
         filename = pre ++ part1 ++ "_"%char :: part2 ++ post
         /\ length part1 = 8%nat /\ length part2 = 6%nat
         /\ forallb is_digit part1 = true /\ forallb is_digit part2 = true
         /\ (forall k, (k < length pre)%nat ->
                       pattern_a (skipn k filename) = None)
         /\ reads_a part1 part2 t)
      \/ (exists pre digits post,
         filename = pre ++ digits ++ post
         /\ length digits = 14%nat /\ forallb is_digit digits = true
         /\ (forall k, (k < length pre)%nat ->
                       pattern_b (skipn k filename) = None)
         /\ reads_b digits t)).
Proof.
  intros H.
  pose proof (parse_date_from_filename_valid filename t H) as V.
  pose proof (valid_in_width t V) as W.
  split; [exact V|].
  destruct (parse_date_from_filename_embedded filename t H)
    as [(pre & post & E & Hfirst) | (pre & post & E & Hfirst)].
  - left. exists pre, (date_part t), (time_part t), post.
    split; [rewrite E; unfold stamp_a; now rewrite <- app_assoc|].
    split; [apply length_date_part|]. split; [apply length_time_part|].
    split; [apply digit_date_part|]. split; [apply digit_time_part|].
    split; [exact Hfirst|now apply reads_a_parts].
  - right. exists pre, (date_part t ++ time_part t), post.
    split; [exact E|].
    split; [rewrite length_app, length_date_part, length_time_part;
            reflexivity|].
    split; [rewrite forallb_app, digit_date_part, digit_time_part;
            reflexivity|].
    split; [exact Hfirst|now apply reads_b_parts].
Qed.

Lemma parse_date_from_filename_sound_witness :
  valid_datetime example_date = true
  /\ ((exists pre part1 part2 post,
         video_name = pre ++ part1 ++ "_"%char :: part2 ++ post
         /\ length part1 = 8%nat /\ length part2 = 6%nat
         /\ forallb is_digit part1 = true /\ forallb is_digit part2 = true
         /\ (forall k, (k < length pre)%nat ->
                       pattern_a (skipn k video_name) = None)
         /\ reads_a part1 part2 example_date)
      \/ (exists pre digits post,
         video_name = pre ++ digits ++ post
         /\ length digits = 14%nat /\ forallb is_digit digits = true
         /\ (forall k, (k < length pre)%nat ->
                       pattern_b (skipn k video_name) = None)
         /\ reads_b digits example_date)).
Proof.
  apply (parse_date_from_filename_sound video_name example_date).
  reflexivity.
Defined.

(** ** Extensions and generated names *)

Lemma no_sep_digits (g : str) : forallb is_digit g = true -> no_sep g = true.
Proof.
  intros H. apply forallb_forall. intros x Hx.
  rewrite forallb_forall in H. now rewrite (digit_not_sep x (H x Hx)).
Qed.

Lemma no_sep_after_year (a b c : ascii) (t : datetime) :
  ascii_eqb a sep = false -> ascii_eqb b sep = false ->
  ascii_eqb c sep = false ->
  no_sep (after_year a b c t) = true.
Proof.
  intros Ha Hb Hc. unfold no_sep, after_year.
  assert (Hz : forall w n,
            forallb (fun x => negb (ascii_eqb x sep)) (zpad w n) = true)
    by (intros w n; apply no_sep_digits, forallb_digit_zpad).
  repeat (rewrite forallb_app, Hz; cbn [forallb andb];
          rewrite ?Ha, ?Hb, ?Hc; cbn [negb andb]).
  apply Hz.
Qed.

Lemma no_sep_generated (t : datetime) : no_sep (generated t) = true.
Proof.
  unfold generated, no_sep. rewrite forallb_app.
  fold (no_sep (year_text (year t))).
  rewrite (no_sep_digits _ (year_text_digits (year t))).
  cbn [forallb andb negb]. fold (no_sep (after_year "-" " " "." t)).
  now rewrite no_sep_after_year.
Qed.

(** A generated name starts with a digit: it is not made of dots. *)
Lemma generated_not_dots (t : datetime) :
  forallb (fun x => ascii_eqb x extsep) (generated t) = false.
Proof.
  unfold generated.
  destruct (year_text_cons (year t)) as (c & rest & -> & Hc).
  cbn [app forallb].
  assert (E : ascii_eqb c extsep = false).
  { unfold is_digit in Hc. apply andb_true_iff in Hc as [Hc _].
    apply Z.leb_le in Hc. unfold ascii_eqb. apply Z.eqb_neq.
    change (ord extsep) with 46. lia. }
  now rewrite E.
Qed.

(** The runs of digits of a generated name: the year, four digits at
    most, and the two digits of each other field. *)
Lemma longest_digit_run_generated (t : datetime) :
  (longest_digit_run (generated t) <= 4)%nat.
Proof.
  unfold generated, after_year.
  rewrite longest_digit_run_app by (reflexivity || apply year_text_digits).
  repeat (rewrite longest_digit_run_app
            by (reflexivity || apply forallb_digit_zpad)).
  rewrite longest_digit_run_digits by apply forallb_digit_zpad.
  rewrite !length_zpad.
  pose proof (length_year_text (year t)) as (Hl & _). lia.
Qed.

(** X4: the stem of a generated name holds no date the parser finds: its
    digits come in runs of four at most.  A file that carries a
    generated name and has lost its metadata resolves to no date. *)
Theorem generated_name_has_no_date (dir : str) (t : datetime) (e : str) :
  absent extsep e = true -> no_sep e = true ->
  parse_date_from_filename
    (fst (splitext
            (basename (dir ++ sep :: generate_new_file_name t (extsep :: e)))))
  = None.
Proof.
  intros Hdot Hsep.
  assert (Hn : no_sep (generate_new_file_name t (extsep :: e)) = true).
  { rewrite generate_new_file_name_eq. unfold no_sep.
    rewrite forallb_app. fold (no_sep (generated t)).
    rewrite no_sep_generated.
    cbn [forallb andb]. fold (no_sep e). now rewrite Hsep. }
  rewrite (basename_after_sep dir _ Hn).
  rewrite generate_new_file_name_eq.
  rewrite splitext_at_dot; try assumption.
  - cbn [fst].
    pose proof (longest_digit_run_generated t).
    apply parse_date_from_filename_no_pattern; intros k _;
      apply patterns_short_runs; lia.
  - rewrite basename_no_sep by apply no_sep_generated.
    apply generated_not_dots.
Qed.

Lemma generated_name_has_no_date_witness :
  parse_date_from_filename
    (fst (splitext
            (basename (L "/out/2023" ++ sep
                         :: generate_new_file_name example_date
                              (extsep :: L "JPG")))))
  = None.
Proof.
  apply (generated_name_has_no_date (L "/out/2023") example_date (L "JPG"));
    reflexivity.
Defined.

Lemma app_same_length {A} (a b c d : list A) :
  length a = length c -> a ++ b = c ++ d -> a = c /\ b = d.
Proof.
  revert c. induction a as [|x a IH]; intros [|y c] Hlen H;
    try discriminate.
  - now split.
  - cbn [app] in H. injection H as -> H. cbn [length] in Hlen.
    destruct (IH c) as [-> ->]; [lia|assumption|]. now split.
Qed.

(** Two runs of digits, each ended by one character that is no digit,
    are equal when the texts are. *)
Lemma digits_until (g1 g2 : str) (c : ascii) (r1 r2 : str) :
  forallb is_digit g1 = true -> forallb is_digit g2 = true ->
  is_digit c = false ->
  g1 ++ c :: r1 = g2 ++ c :: r2 -> g1 = g2 /\ r1 = r2.
Proof.
  intros H1 H2 Hc. revert g2 H2.
  induction g1 as [|x g1 IH]; intros [|y g2] H2 H; cbn [app] in H.
  - injection H as <-. now split.
  - injection H as <- _. cbn [forallb] in H2.
    apply andb_true_iff in H2 as [Hy _]. congruence.
  - injection H as -> _. cbn [forallb] in H1.
    apply andb_true_iff in H1 as [Hx _]. congruence.
  - injection H as -> H. cbn [forallb] in H1, H2.
    apply andb_true_iff in H1 as [_ H1].
    apply andb_true_iff in H2 as [_ H2].
    destruct (IH H1 g2 H2 H) as [-> ->]. now split.
Qed.

Lemma length_after_year (a b c : ascii) (t : datetime) :
  length (after_year a b c t) = 14%nat.
Proof.
  unfold after_year.
  repeat (rewrite length_app, length_zpad; cbn [length]).
  rewrite length_zpad. reflexivity.
Qed.

(** X5: generated names tell timestamps apart: two different valid
    timestamps never get the same name, whatever the extensions. *)
Theorem generate_new_file_name_distinct
    (t1 t2 : datetime) (ext1 ext2 : str) :
  valid_datetime t1 = true -> valid_datetime t2 = true ->
  t1 <> t2 ->
  generate_new_file_name t1 ext1 <> generate_new_file_name t2 ext2.
Proof.
  intros V1 V2 Hne H. apply Hne.
  rewrite !generate_new_file_name_eq in H. unfold generated in H.
  rewrite <- !app_assoc in H. cbn [app] in H.
  apply digits_until in H as [Hy Hrest];
    [|apply year_text_digits|apply year_text_digits|reflexivity].
  apply app_same_length in Hrest as [Hrest _];
    [|now rewrite !length_after_year].
  assert (Ey : year t1 = year t2).
  { pose proof (valid_datetime_bounds t1 V1) as (Y1 & _).
    pose proof (valid_datetime_bounds t2 V2) as (Y2 & _).
    change (10 ^ Z.of_nat 4) with 10000 in Y1, Y2.
    pose proof (int_year_text (year t1) Y1) as E1.
    pose proof (int_year_text (year t2) Y2) as E2.
    rewrite Hy in E1. congruence. }
  apply datetime_compare_eq.
  rewrite <- (rendering_compare "-" " " "." t1 t2 [] V1 V2).
  change (rendering "-" " " "." t1)
    with (zpad 4 (year t1) ++ "-"%char :: after_year "-" " " "." t1).
  change (rendering "-" " " "." t2)
    with (zpad 4 (year t2) ++ "-"%char :: after_year "-" " " "." t2).
  rewrite Ey, Hrest. apply str_compare_refl.
Qed.

Lemma generate_new_file_name_distinct_witness :
  generate_new_file_name example_date (L ".jpg")
  <> generate_new_file_name (mkdatetime 2023 8 9 16 24 54) (L ".jpg").
Proof.
  apply (generate_new_file_name_distinct example_date
           (mkdatetime 2023 8 9 16 24 54) (L ".jpg") (L ".jpg"));
    [reflexivity | reflexivity | discriminate].
Defined.

(** ** Organizing what is organized *)

Section Again.

Context {P : Platform}.
Variable cfg : config.

Lemma organized_path_stable (ts : datetime) (file_path : str) :
  snd (splitext file_path) <> [] ->
  splitext (organized_path cfg ts file_path)
  = (join (ORGANIZED_FOLDER cfg) (year_text (year ts)) ++ sep
       :: generated ts,
     snd (splitext file_path)).
Proof.
  intros Hext.
  destruct (splitext_extension_shape file_path)
    as [H | (e & He & Hdot & Hsep)]; [contradiction|].
  unfold organized_path. rewrite He.
  replace (join (ORGANIZED_FOLDER cfg) (year_text (year ts)) ++ sep
             :: generated ts ++ extsep :: e)
    with ((join (ORGANIZED_FOLDER cfg) (year_text (year ts)) ++ sep
             :: generated ts) ++ extsep :: e)
    by (now rewrite <- app_assoc).
  apply splitext_at_dot; try assumption.
  rewrite basename_after_sep by apply no_sep_generated.
  apply generated_not_dots.
Qed.

(** X6: organizing is stable on its own output: a file that already
    stands at its organized path, with an extension, and whose metadata
    still gives the timestamp [ts], is moved onto itself. *)
Theorem organize_again_same_place (m : media) (file_path : str)
    (ts : datetime) (w w1 w2 : world) :
  snd (splitext file_path) <> [] ->
  reader m (organized_path cfg ts file_path) w = (Ok (Some ts), w1) ->
  ensure (join (ORGANIZED_FOLDER cfg) (year_text (year ts))) w1 = Some w2 ->
  organize cfg m (organized_path cfg ts file_path) w
  = move (organized_path cfg ts file_path)
      (organized_path cfg ts file_path)
      (printed (organized_line m ts (organized_path cfg ts file_path)) w2).
Proof.
  intros Hext Hr He.
  rewrite (organize_resolved cfg m _ w w1 w2 (Some ts) ts Hr eq_refl He).
  f_equal. unfold organized_path at 1.
  now rewrite (organized_path_stable ts file_path Hext).
Qed.

(** X7: the organized path depends on the timestamp and the extension
    only: two files that resolve to one timestamp and have one extension
    are moved to one and the same destination. *)
Theorem organize_same_timestamp_same_place
    (m1 m2 : media) (path1 path2 : str) (ts : datetime)
    (from1 from2 : option datetime) (wa wa1 wa2 wb wb1 wb2 : world) :
  snd (splitext path1) = snd (splitext path2) ->
  reader m1 path1 wa = (Ok from1, wa1) ->
  resolve from1 path1 = Some ts ->
  ensure (join (ORGANIZED_FOLDER cfg) (year_text (year ts))) wa1 = Some wa2 ->
  reader m2 path2 wb = (Ok from2, wb1) ->
  resolve from2 path2 = Some ts ->
  ensure (join (ORGANIZED_FOLDER cfg) (year_text (year ts))) wb1 = Some wb2 ->
  exists destination,
    organize cfg m1 path1 wa
    = move path1 destination (printed (organized_line m1 ts path1) wa2)
    /\ organize cfg m2 path2 wb
       = move path2 destination (printed (organized_line m2 ts path2) wb2).
Proof.
  intros Hext Hr1 Hres1 He1 Hr2 Hres2 He2.
  exists (organized_path cfg ts path1). split.
  - now apply (organize_resolved cfg m1 path1 wa wa1 wa2 from1 ts).
  - replace (organized_path cfg ts path1) with (organized_path cfg ts path2)
      by (unfold organized_path; now rewrite Hext).
    now apply (organize_resolved cfg m2 path2 wb wb1 wb2 from2 ts).
Qed.

End Again.

(** ** The metadata readers *)

Lemma first_date_tag_app (before after : list (Z * exif_value))
    (value : exif_value) :
  forallb (fun kv => negb (fst kv =? DateTimeOriginal)) before = true ->
  first_date_tag (before ++ (DateTimeOriginal, value) :: after) = Some value.
Proof.
  induction before as [|[tag v] before IH]; intros H.
  - reflexivity.
  - cbn [forallb fst] in H. apply andb_true_iff in H as [Ht Hb].
    apply negb_true_iff in Ht. cbn [app first_date_tag].
    rewrite Ht. now apply IH.
Qed.

Lemma re_match_rendering_rest (a b c : ascii) (t : datetime) (rest : str) :
  valid_datetime t = true -> is_space b = true ->
  re_match (date_time_items a c) (rendering a b c t ++ rest) []
  = Some ([("S"%char, zpad 2 (second t)); ("M"%char, zpad 2 (minute t));
           ("H"%char, zpad 2 (hour t)); ("d"%char, zpad 2 (day t));
           ("m"%char, zpad 2 (month t)); ("Y"%char, zpad 4 (year t))], rest).
Proof.
  intros V Hb. unfold valid_datetime in V. apply valid_fields_spec in V.
  destruct V as (Y & Mo & D & H & Mi & S).
  pose proof (days_in_month_bounds (year t) (month t)) as Hdim.
  unfold date_time_items, rendering.
  repeat (rewrite <- app_assoc; cbn [app]).
  eapply re_match_group; [apply first_alt_year|].
  rewrite re_match_lit.
  eapply re_match_group; [apply first_alt_month; lia|].
  rewrite re_match_lit.
  eapply re_match_group; [apply first_alt_day; lia|].
  rewrite re_match_space_zpad by (assumption || lia).
  eapply re_match_group; [apply first_alt_hour; lia|].
  rewrite re_match_lit.
  eapply re_match_group; [apply first_alt_minute; lia|].
  rewrite re_match_lit.
  eapply re_match_group; [apply first_alt_second; lia|].
  reflexivity.
Qed.

(** [strptime] refuses text after the seconds. *)
Lemma strptime_unconverted (a b c : ascii) (fmt : str) (t : datetime)
    (rest : str) :
  compile_format fmt = Some (date_time_items a c) ->
  valid_datetime t = true -> is_space b = true -> rest <> [] ->
  strptime (rendering a b c t ++ rest) fmt = None.
Proof.
  intros Hfmt V Hb Hrest. unfold strptime. rewrite Hfmt. cbn [obind].
  rewrite (re_match_rendering_rest a b c t rest V Hb). cbn [obind snd].
  now destruct rest.
Qed.

Section Readers.

Context {P : Platform}.

(** X8: a picture whose EXIF dictionary holds the tag DateTimeOriginal
    with the text YYYY:MM:DD HH:MM:SS of a valid timestamp [t] resolves
    to [t], whatever other tags stand before or after it; the reader
    prints nothing. *)
Theorem get_image_exif_date_original (image_path : str) (w : world)
    (before after : list (Z * exif_value)) (t : datetime) :
  image_getexif (fs w) image_path
  = inr (Some (before
               ++ (DateTimeOriginal, ExifStr (rendering ":" " " ":" t))
               :: after)) ->
  forallb (fun kv => negb (fst kv =? DateTimeOriginal)) before = true ->
  valid_datetime t = true ->
  get_image_exif_date image_path w
  = (Ok (Some t), mkworld (fs w) (trace w ++ [CallImageOpen image_path])).
Proof.
  intros Hexif Hbefore V.
  unfold get_image_exif_date, try_except, bind, query_exn.
  rewrite Hexif. rewrite (first_date_tag_app _ _ _ Hbefore).
  rewrite (strptime_exif_format t V). reflexivity.
Qed.

(** X9: the image reader is strict where the video reader truncates: a
    capture time followed by any further text (sub-second digits, a
    padding character) does not parse; the reader prints the error and
    returns no date, so that the filename is tried next. *)
Theorem get_image_exif_date_trailing_text (image_path : str) (w : world)
    (before after : list (Z * exif_value)) (t : datetime) (rest : str) :
  image_getexif (fs w) image_path
  = inr (Some (before
               ++ (DateTimeOriginal,
                   ExifStr (rendering ":" " " ":" t ++ rest))
               :: after)) ->
  forallb (fun kv => negb (fst kv =? DateTimeOriginal)) before = true ->
  valid_datetime t = true -> rest <> [] ->
  get_image_exif_date image_path w
  = (Ok None,
     mkworld (fs w)
       (trace w
        ++ [CallImageOpen image_path;
            PrintExn (L "Error reading EXIF from " ++ basename image_path
                        ++ L ": ") ValueError])).
Proof.
  intros Hexif Hbefore V Hrest.
  unfold get_image_exif_date, try_except, bind, query_exn.
  rewrite Hexif. rewrite (first_date_tag_app _ _ _ Hbefore).
  rewrite (strptime_unconverted ":" " " ":" (L "%Y:%m:%d %H:%M:%S") t rest
             eq_refl V eq_refl Hrest).
  cbn [of_option raise emit ret fs trace].
  now rewrite <- app_assoc.
Qed.

(** X10: when the probe succeeds but its output gives no creation time
    (a key is missing at some level, or the value is null, empty or
    zero), the video reader returns no date and prints nothing. *)
Theorem get_video_ffprobe_date_no_tag (video_path : str) (w : world)
    (out : Stdout) (info creation : json) :
  subprocess_run (fs w) (ffprobe_cmd video_path) = inr (0, out) ->
  json_loads out = inr info ->
  creation_time_of info = Some creation ->
  falsy creation = true ->
  get_video_ffprobe_date video_path w
  = (Ok None,
     mkworld (fs w) (trace w ++ [CallSubprocess (ffprobe_cmd video_path)])).
Proof.
  intros Hrun Hjson Hc Hf.
  unfold get_video_ffprobe_date, try_except, bind, query_exn.
  fold (ffprobe_cmd video_path). rewrite Hrun. cbn [fst snd fs trace].
  change (negb (0 =? 0)) with false. cbv iota.
  rewrite Hjson. cbn [of_sum ret].
  unfold creation_time_of, obind in Hc.
  destruct (dict_get info (L "format") (JObj [])) as [format|];
    [|discriminate].
  cbn [of_option ret].
  destruct (dict_get format (L "tags") (JObj [])) as [tags|];
    [|discriminate].
  cbn [of_option ret]. rewrite Hc. cbn [of_option ret].
  now rewrite Hf.
Qed.

End Readers.

(** ** What a file can cause *)

Ltac reader_leaf :=
  cbn [fs trace];
  first
    [ eexists; exists []; split;
      [reflexivity | split; [now left | discriminate]]
    | eexists; eexists; split;
      [rewrite <- app_assoc; reflexivity
      | split; [right; eexists; eexists; reflexivity | discriminate]] ].

Section Containment.

Context {P : Platform}.
Variable cfg : config.

(** What the image reader adds to the trace. *)
Lemma get_image_exif_date_steps (image_path : str) (w : world) :
  exists r err,
    get_image_exif_date image_path w
    = (Ok r, mkworld (fs w) (trace w ++ CallImageOpen image_path :: err))
    /\ (err = [] \/ exists prefix e, err = [PrintExn prefix e])
    /\ forall t, r = Some t -> valid_datetime t = true.
Proof.
  unfold get_image_exif_date, try_except, bind, query_exn, of_option,
    emit, ret, raise.
  cbn [fs trace].
  destruct (image_getexif (fs w) image_path) as [e|[items|]];
    try reader_leaf.
  destruct (first_date_tag items) as [[value|]|]; try reader_leaf.
  destruct (strptime value (L "%Y:%m:%d %H:%M:%S")) as [d|] eqn:E;
    try reader_leaf.
  eexists; exists []; split; [reflexivity|].
  split; [now left|]. intros t [= <-]. eapply strptime_valid; eassumption.
Qed.

(** What the video reader adds to the trace. *)
Lemma get_video_ffprobe_date_steps (video_path : str) (w : world) :
  exists r err,
    get_video_ffprobe_date video_path w
    = (Ok r,
       mkworld (fs w)
         (trace w ++ CallSubprocess (ffprobe_cmd video_path) :: err))
    /\ (err = [] \/ exists prefix e, err = [PrintExn prefix e])
    /\ forall t, r = Some t -> valid_datetime t = true.
Proof.
  unfold get_video_ffprobe_date, try_except, bind, query_exn, of_option,
    of_sum, emit, ret, raise.
  fold (ffprobe_cmd video_path). cbn [fs trace].
  destruct (subprocess_run (fs w) (ffprobe_cmd video_path))
    as [e|[code out]]; try reader_leaf.
  cbn [fst snd]. destruct (negb (code =? 0)); try reader_leaf.
  destruct (json_loads out) as [e|info]; try reader_leaf.
  destruct (dict_get info (L "format") (JObj [])) as [format|];
    try reader_leaf.
  destruct (dict_get format (L "tags") (JObj [])) as [tags|];
    try reader_leaf.
  destruct (dict_get tags (L "creation_time") JNull) as [creation|];
    try reader_leaf.
  destruct (falsy creation); try reader_leaf.
  destruct creation as [| | |raw| |]; try reader_leaf.
  match goal with
  | |- context [strptime ?a ?b] => destruct (strptime a b) as [d|] eqn:E
  end; try reader_leaf.
  eexists; exists []; split; [reflexivity|].
  split; [now left|]. intros t [= <-]. eapply strptime_valid; eassumption.
Qed.

Lemma ensure_blocked (d : str) (w : world) :
  ensure d w = None ->
  exists e, forall A (k : M A),
    bind (exists_ d)
      (fun present => bind (if present then ret tt else makedirs d)
                        (fun _ => k)) w
    = (Raise e, mkworld (fs w) (trace w ++ [CallExists d; CallMakedirs d])).
Proof.
  unfold ensure, bind, exists_, makedirs, query, command, ret.
  cbn [fs trace].
  destruct (os_path_exists (fs w) d); [discriminate|]. cbn [fs trace].
  destruct (os_makedirs (fs w) d) as [e|]; [|discriminate].
  intros _. exists e. intros A k. cbn [fs trace].
  now rewrite <- app_assoc.
Qed.

Lemma ensure_steps (d : str) (w w2 : world) :
  ensure d w = Some w2 ->
  exists added,
    trace w2 = trace w ++ added
    /\ forallb is_file_step added = true /\ moves added = [].
Proof.
  unfold ensure.
  destruct (os_path_exists (fs w) d).
  - intros [= <-]. now exists [CallExists d].
  - destruct (os_makedirs (fs w) d); [discriminate|].
    intros [= <-]. now exists [CallExists d; CallMakedirs d].
Qed.

(** A file without a date is handed to [move_to_skipped], in the world
    the reader left. *)
Lemma organize_skips (m : media) (file_path : str) (w w1 : world) :
  reader m file_path w = (Ok None, w1) ->
  resolve None file_path = None ->
  organize cfg m file_path w
  = move_to_skipped cfg file_path (no_date_reason m) w1.
Proof.
  intros Hr Hres. cbn [resolve or_else] in Hres.
  destruct m; cbn [reader organize no_date_reason] in *;
    unfold organize_images, organize_videos;
    unfold bind at 1; rewrite Hr;
    unfold bind at 1; unfold ret at 1; unfold resolve in Hres;
    cbn [or_else] in Hres; rewrite Hres; reflexivity.
Qed.

(** When the year folder cannot be created the exception leaves
    [organize] before anything is printed or moved. *)
Lemma organize_blocked (m : media) (file_path : str) (w w1 : world)
    (from_metadata : option datetime) (ts : datetime) :
  reader m file_path w = (Ok from_metadata, w1) ->
  resolve from_metadata file_path = Some ts ->
  ensure (join (ORGANIZED_FOLDER cfg) (year_text (year ts))) w1 = None ->
  exists e,
    organize cfg m file_path w
    = (Raise e,
       mkworld (fs w1)
         (trace w1
            ++ [CallExists
                  (join (ORGANIZED_FOLDER cfg) (year_text (year ts)));
                CallMakedirs
                  (join (ORGANIZED_FOLDER cfg) (year_text (year ts)))])).
Proof.
  intros Hr Hres He.
  destruct (ensure_blocked _ _ He) as [e Hb]. exists e.
  rewrite <- strftime_year in Hb.
  destruct m; cbn [reader organize] in *;
    unfold organize_images, organize_videos;
    unfold bind at 1; rewrite Hr;
    unfold resolve in Hres;
    (destruct from_metadata as [d|]; cbn [or_else] in Hres;
     [injection Hres as -> | ]);
    unfold bind at 1; unfold ret at 1; rewrite ?Hres;
    rewrite Hb, ?strftime_year; reflexivity.
Qed.

Lemma move_steps (src dst : str) (w : world) :
  exists r fs',
    move src dst w = (r, mkworld fs' (trace w ++ [CallMove src dst]))
    /\ r <> OutOfFuel.
Proof.
  unfold move, command.
  destruct (shutil_move (fs w) src dst) as [e|fs'];
    eexists; eexists; (split; [reflexivity|discriminate]).
Qed.

(** What [move_to_skipped] adds to the trace. *)
Lemma move_to_skipped_steps (file_path reason : str) (w : world) :
  exists r w' added,
    move_to_skipped cfg file_path reason w = (r, w')
    /\ r <> OutOfFuel
    /\ trace w' = trace w ++ added
    /\ forallb is_file_step added = true
    /\ (moves added = []
        \/ moves added
           = [CallMove file_path
                (join (SKIPPED_FOLDER cfg) (basename file_path))]).
Proof.
  destruct (ensure (SKIPPED_FOLDER cfg) w) as [w2|] eqn:He.
  - rewrite (move_to_skipped_run cfg file_path reason w w2 He).
    destruct (ensure_steps _ _ _ He) as (a & Ha & Hf & Hm).
    destruct (move_steps file_path
                (join (SKIPPED_FOLDER cfg) (basename file_path))
                (printed (skipping reason file_path) w2))
      as (r & fs' & E & Hr).
    rewrite E. eexists; eexists.
    exists (a ++ [skipping reason file_path;
                  CallMove file_path
                    (join (SKIPPED_FOLDER cfg) (basename file_path))]).
    split; [reflexivity|]. split; [exact Hr|].
    cbn [trace printed]. rewrite Ha, <- !app_assoc.
    split; [reflexivity|].
    rewrite forallb_app, Hf. split; [reflexivity|].
    right. unfold moves in *. rewrite filter_app, Hm. reflexivity.
  - unfold ensure in He.
    unfold move_to_skipped, create_skipped_folder, bind, exists_, makedirs,
      query, command, ret.
    cbn [fs trace].
    destruct (os_path_exists (fs w) (SKIPPED_FOLDER cfg));
      [discriminate|].
    cbn [fs trace].
    destruct (os_makedirs (fs w) (SKIPPED_FOLDER cfg)) as [e|];
      [|discriminate].
    eexists; eexists;
      exists [CallExists (SKIPPED_FOLDER cfg);
              CallMakedirs (SKIPPED_FOLDER cfg)].
    split; [rewrite <- app_assoc; reflexivity|].
    split; [discriminate|]. cbn [trace].
    split; [reflexivity|]. split; [reflexivity|]. now left.
Qed.

Lemma reader_call_step (m : media) (file_path : str) (err : list event) :
  err = [] \/ (exists prefix e, err = [PrintExn prefix e]) ->
  forallb is_file_step (reader_call m file_path :: err) = true
  /\ moves (reader_call m file_path :: err) = [].
Proof.
  intros [->|(prefix & e & ->)]; destruct m; split; reflexivity.
Qed.

(** What [organize_images] and [organize_videos] add to the trace. *)
Lemma organize_steps (m : media) (file_path : str) (w : world) :
  exists r w' added,
    organize cfg m file_path w = (r, w')
    /\ r <> OutOfFuel
    /\ trace w' = trace w ++ added
    /\ forallb is_file_step added = true
    /\ (moves added = []
        \/ moves added
           = [CallMove file_path
                (join (SKIPPED_FOLDER cfg) (basename file_path))]
        \/ exists ts,
             valid_datetime ts = true
             /\ moves added
                = [CallMove file_path (organized_path cfg ts file_path)]).
Proof.
  assert (exists from err,
            reader m file_path w
            = (Ok from,
               mkworld (fs w)
                 (trace w ++ reader_call m file_path :: err))
            /\ (err = [] \/ exists prefix e, err = [PrintExn prefix e])
            /\ forall t, from = Some t -> valid_datetime t = true)
    as (from & err & Hr & Herr & Hv)
    by (destruct m; cbn [reader reader_call];
        [apply get_image_exif_date_steps
        |apply get_video_ffprobe_date_steps]).
  destruct (reader_call_step m file_path err Herr) as [Hf0 Hm0].
  set (w1 := mkworld (fs w) (trace w ++ reader_call m file_path :: err))
    in *.
  destruct (resolve from file_path) as [ts|] eqn:Hres.
  - assert (Hts : valid_datetime ts = true)
      by exact (resolve_valid m file_path w w1 from ts Hr Hres).
    destruct (ensure (join (ORGANIZED_FOLDER cfg) (year_text (year ts))) w1)
      as [w2|] eqn:He.
    + rewrite (organize_resolved cfg m file_path w w1 w2 from ts Hr Hres He).
      destruct (ensure_steps _ _ _ He) as (a & Ha & Hf & Hm).
      destruct (move_steps file_path (organized_path cfg ts file_path)
                  (printed (organized_line m ts file_path) w2))
        as (r & fs' & E & Hne).
      rewrite E. eexists; eexists.
      exists ((reader_call m file_path :: err) ++ a
              ++ [organized_line m ts file_path;
                  CallMove file_path (organized_path cfg ts file_path)]).
      split; [reflexivity|]. split; [exact Hne|].
      cbn [trace printed]. rewrite Ha. subst w1. cbn [trace].
      rewrite <- !app_assoc. split; [reflexivity|].
      rewrite !forallb_app, Hf0, Hf. split; [reflexivity|].
      right; right. exists ts. split; [exact Hts|].
      unfold moves in *. rewrite !filter_app, Hm0, Hm. reflexivity.
    + destruct (organize_blocked m file_path w w1 from ts Hr Hres He)
        as [e Hb].
      rewrite Hb. eexists; eexists.
      exists ((reader_call m file_path :: err)
              ++ [CallExists
                    (join (ORGANIZED_FOLDER cfg) (year_text (year ts)));
                  CallMakedirs
                    (join (ORGANIZED_FOLDER cfg) (year_text (year ts)))]).
      split; [reflexivity|]. split; [discriminate|].
      subst w1. cbn [trace]. rewrite <- !app_assoc.
      split; [reflexivity|].
      rewrite forallb_app, Hf0. split; [reflexivity|].
      left. unfold moves in *. now rewrite filter_app, Hm0.
  - assert (from = None) as ->
      by (destruct from; [discriminate Hres|reflexivity]).
    rewrite (organize_skips m file_path w w1 Hr Hres).
    destruct (move_to_skipped_steps file_path (no_date_reason m) w1)
      as (r & w' & a & E & Hne & Ha & Hf & Hm).
    rewrite E. exists r, w', ((reader_call m file_path :: err) ++ a).
    split; [reflexivity|]. split; [exact Hne|].
    rewrite Ha. subst w1. cbn [trace]. rewrite <- !app_assoc.
    split; [reflexivity|].
    rewrite forallb_app, Hf0, Hf. split; [reflexivity|].
    unfold moves in *. rewrite filter_app, Hm0. cbn [app].
    destruct Hm as [Hm|Hm]; [now left|right; now left].
Qed.

(** What [process_file] adds to the trace: steps on the file itself. *)
Lemma process_file_steps (file_path : str) (w : world) :
  exists r w' added,
    process_file cfg file_path w = (r, w')
    /\ r <> OutOfFuel
    /\ trace w' = trace w ++ added
    /\ forallb is_file_step added = true
    /\ (moves added = []
        \/ moves added
           = [CallMove file_path
                (join (SKIPPED_FOLDER cfg) (basename file_path))]
        \/ exists ts,
             valid_datetime ts = true
             /\ moves added
                = [CallMove file_path (organized_path cfg ts file_path)]).
Proof.
  rewrite process_file_dispatch.
  set (line := Print (L "Processing file: " ++ file_path)).
  destruct (classify file_path) as [m|].
  - destruct (organize_steps m file_path (printed line w))
      as (r & w' & a & E & Hne & Ha & Hf & Hm).
    exists r, w', (line :: a).
    split; [exact E|]. split; [exact Hne|].
    rewrite Ha. cbn [trace printed]. rewrite <- app_assoc.
    split; [reflexivity|]. split; [exact Hf|exact Hm].
  - destruct (move_to_skipped_steps file_path (L "Unsupported file type")
                (printed line w))
      as (r & w' & a & E & Hne & Ha & Hf & Hm).
    exists r, w', (line :: a).
    split; [exact E|]. split; [exact Hne|].
    rewrite Ha. cbn [trace printed]. rewrite <- app_assoc.
    split; [reflexivity|]. split; [exact Hf|].
    destruct Hm as [Hm|Hm]; [now left|right; now left].
Qed.

(** X12: a file is moved at most once, and nothing else is.  Whatever
    the platform answers, [process_file] calls [shutil.move] at most one
    time; the source is the file itself, and the destination is either
    the skip folder joined with its base name or the organized place of
    a valid timestamp. *)
Theorem process_file_moves_once (file_path : str) (w : world) :
  exists added,
    trace (snd (process_file cfg file_path w)) = trace w ++ added
    /\ (moves added = []
        \/ moves added
           = [CallMove file_path
                (join (SKIPPED_FOLDER cfg) (basename file_path))]
        \/ exists ts,
             valid_datetime ts = true
             /\ moves added
                = [CallMove file_path (organized_path cfg ts file_path)]).
Proof.
  destruct (process_file_steps file_path w)
    as (r & w' & a & E & _ & Ha & _ & Hm).
  exists a. rewrite E. split; [exact Ha|exact Hm].
Qed.

End Containment.

(** ** The class of a path *)

Lemma lower_app (a b : str) : lower (a ++ b) = lower a ++ lower b.
Proof. apply map_app. Qed.

Lemma ascii_eqb_sym (a b : ascii) : ascii_eqb a b = ascii_eqb b a.
Proof. apply Z.eqb_sym. Qed.

(** Lower-casing moves no character onto or off the dot. *)
Lemma lower_char_dot (c : ascii) :
  ascii_eqb (lower_char c) extsep = ascii_eqb c extsep.
Proof. destruct c as [[] [] [] [] [] [] [] []]; vm_compute; reflexivity. Qed.

Lemma absent_lower (e : str) : absent extsep (lower e) = absent extsep e.
Proof.
  induction e as [|c e IH]; [reflexivity|].
  cbn [lower map absent forallb]. rewrite lower_char_dot.
  f_equal. exact IH.
Qed.

Lemma absent_rev (c : ascii) (s : str) : absent c (rev s) = absent c s.
Proof.
  induction s as [|x s IH]; [reflexivity|].
  cbn [rev]. rewrite absent_app, IH. cbn [absent forallb].
  rewrite andb_true_r. apply andb_comm.
Qed.

(** Two dot-free texts, each followed by a dot: one starts the other
    exactly when they are equal. *)
Lemma startswith_to_dot (x y rest : str) :
  absent extsep x = true -> absent extsep y = true ->
  startswith (x ++ [extsep]) (y ++ extsep :: rest) = str_eqb x y.
Proof.
  revert y. induction x as [|a x IH]; intros [|b y] Hx Hy;
    cbn [app startswith str_eqb absent forallb] in *.
  - now rewrite ascii_eqb_refl.
  - apply andb_true_iff in Hy as [Hb _]. apply negb_true_iff in Hb.
    now rewrite ascii_eqb_sym, Hb.
  - apply andb_true_iff in Hx as [Ha _]. apply negb_true_iff in Ha.
    now rewrite Ha.
  - apply andb_true_iff in Hx as [_ Hx]. apply andb_true_iff in Hy as [_ Hy].
    f_equal. now apply IH.
Qed.

(** Whether a path ends with a suffix made of a dot and dot-free text is
    decided by what follows the last dot of the path. *)
Lemma endswith_extension (s a e : str) :
  absent extsep s = true -> absent extsep e = true ->
  endswith (extsep :: s) (lower (a ++ extsep :: e))
  = str_eqb (rev s) (rev (lower e)).
Proof.
  intros Hs He. unfold endswith.
  rewrite lower_app. cbn [lower map].
  change (lower_char extsep) with extsep. fold (lower e).
  change (lower a ++ extsep :: lower e)
    with (lower a ++ [extsep] ++ lower e).
  rewrite !rev_app_distr. cbn [rev app]. rewrite <- app_assoc. cbn [app].
  apply startswith_to_dot.
  - now rewrite absent_rev.
  - now rewrite absent_rev, absent_lower.
Qed.

Lemma endswith_any_extension (suffixes : list str) (a b e : str) :
  forallb (fun s => match s with
                    | c :: s' => ascii_eqb c extsep && absent extsep s'
                    | [] => false
                    end) suffixes = true ->
  absent extsep e = true ->
  endswith_any suffixes (lower (a ++ extsep :: e))
  = endswith_any suffixes (lower (b ++ extsep :: e)).
Proof.
  intros Hs He. unfold endswith_any.
  induction suffixes as [|s suffixes IH]; [reflexivity|].
  cbn [forallb existsb] in *. apply andb_true_iff in Hs as [H Hs].
  rewrite (IH Hs). f_equal.
  destruct s as [|c s]; [discriminate|].
  apply andb_true_iff in H as [Hc H]. apply ascii_eqb_eq in Hc. subst c.
  now rewrite !endswith_extension.
Qed.

Lemma lower_char_digit (c : ascii) : is_digit c = true -> lower_char c = c.
Proof.
  unfold is_digit, lower_char. intros H.
  apply andb_true_iff in H as [H1 H2].
  apply Z.leb_le in H1. apply Z.leb_le in H2.
  replace (65 <=? ord c) with false by (symmetry; apply Z.leb_gt; lia).
  replace (192 <=? ord c) with false by (symmetry; apply Z.leb_gt; lia).
  reflexivity.
Qed.

Lemma not_digit_differs (c d : ascii) :
  is_digit c = false -> is_digit d = true -> ascii_eqb c d = false.
Proof.
  intros Hc Hd. destruct (ascii_eqb c d) eqn:E; [|reflexivity].
  apply ascii_eqb_eq in E. subst c. now rewrite Hd in Hc.
Qed.

(** No supported suffix ends with two digits. *)
Lemma endswith_any_two_digits (m : media) (body : str) (d1 d2 : ascii) :
  is_digit d1 = true -> is_digit d2 = true ->
  endswith_any (suffixes_of m) (body ++ [d1; d2]) = false.
Proof.
  intros H1 H2.
  pose proof (fun c H => not_digit_differs c d1 H H1) as N1.
  pose proof (fun c H => not_digit_differs c d2 H H2) as N2.
  unfold endswith_any, endswith. rewrite rev_app_distr.
  destruct m; cbn [suffixes_of image_suffixes video_suffixes existsb];
    cbv [L list_ascii_of_string rev app];
    cbn [startswith];
    rewrite ?(N2 "g"%char eq_refl), ?(N2 "f"%char eq_refl),
      ?(N2 "c"%char eq_refl), ?(N2 "v"%char eq_refl),
      ?(N2 "i"%char eq_refl), ?(N1 "p"%char eq_refl);
    cbn [andb orb]; rewrite ?andb_false_r; reflexivity.
Qed.

Section Classes.

Context {P : Platform}.
Variable cfg : config.

Lemma organized_path_two_digits (ts : datetime) (file_path : str) :
  snd (splitext file_path) = [] ->
  exists body d1 d2,
    lower (organized_path cfg ts file_path) = body ++ [d1; d2]
    /\ is_digit d1 = true /\ is_digit d2 = true.
Proof.
  intros Hext. unfold organized_path, generated, after_year.
  rewrite Hext, app_nil_r.
  set (d1 := chr (48 + (second ts / 10) mod 10)).
  set (d2 := chr (48 + second ts mod 10)).
  set (prefix := join (ORGANIZED_FOLDER cfg) (year_text (year ts)) ++ sep
                   :: year_text (year ts) ++ "-"%char :: zpad 2 (month ts)
                   ++ "-"%char :: zpad 2 (day ts) ++ " "%char
                   :: zpad 2 (hour ts) ++ "."%char :: zpad 2 (minute ts)
                   ++ ["."%char]).
  exists (lower prefix), d1, d2.
  split; [|split; apply is_digit_chr].
  change (zpad 2 (second ts)) with [d1; d2].
  transitivity (lower (prefix ++ [d1; d2])).
  - f_equal. unfold prefix.
    repeat (rewrite <- app_assoc; cbn [app]). reflexivity.
  - rewrite lower_app. f_equal. cbn [lower map].
    unfold d1, d2. now rewrite !lower_char_digit by apply is_digit_chr.
Qed.

(** X17: an organized file keeps its class exactly when it keeps an
    extension.  The class of a path is decided by what follows its last
    dot, and the organized path ends with the extension of the original;
    a file like [.jpg], which [os.path.splitext] gives no extension, is
    read as an image once, and its organized path, ending with the
    seconds, is of no supported type. *)
Theorem classify_organized (ts : datetime) (file_path : str) :
  classify (organized_path cfg ts file_path)
  = match snd (splitext file_path) with
    | [] => None
    | _ => classify file_path
    end.
Proof.
  destruct (splitext_extension_shape file_path)
    as [H | (e & He & Hdot & Hsep)].
  - rewrite H.
    destruct (organized_path_two_digits ts file_path H)
      as (body & d1 & d2 & E & H1 & H2).
    pose proof (endswith_any_two_digits Image body d1 d2 H1 H2) as Hi.
    pose proof (endswith_any_two_digits Video body d1 d2 H1 H2) as Hv.
    cbn [suffixes_of] in Hi, Hv.
    unfold classify. now rewrite E, Hi, Hv.
  - rewrite He.
    rewrite <- (splitext_parts file_path) at 2. rewrite He.
    unfold classify, organized_path. rewrite He.
    change (join (ORGANIZED_FOLDER cfg) (year_text (year ts)) ++ sep
              :: generated ts ++ extsep :: e)
      with (join (ORGANIZED_FOLDER cfg) (year_text (year ts)) ++ [sep]
              ++ generated ts ++ extsep :: e).
    rewrite !app_assoc.
    rewrite (endswith_any_extension image_suffixes _
               (fst (splitext file_path)) e eq_refl Hdot).
    rewrite (endswith_any_extension video_suffixes _
               (fst (splitext file_path)) e eq_refl Hdot).
    reflexivity.
Qed.

Lemma startswith_app (p s : str) : startswith p (p ++ s) = true.
Proof.
  induction p as [|x p IH]; [reflexivity|].
  cbn [app startswith]. now rewrite ascii_eqb_refl, IH.
Qed.

Lemma endswith_app (p s : str) : endswith p (s ++ p) = true.
Proof. unfold endswith. rewrite rev_app_distr. apply startswith_app. Qed.

(** X18: the class of a file is read off the end of its path, without
    regard to case and to what stands before: a path whose end
    lower-cases to one of the image suffixes goes to [organize_images],
    one whose end lower-cases to a video suffix to [organize_videos]; no
    path ends with a suffix of both. *)
Theorem process_file_by_suffix (m : media) (stem ext : str) (w : world) :
  In (lower ext) (suffixes_of m) ->
  process_file cfg (stem ++ ext) w
  = organize cfg m (stem ++ ext)
      (printed (Print (L "Processing file: " ++ stem ++ ext)) w).
Proof.
  intros H. rewrite process_file_dispatch.
  assert (E : classify (stem ++ ext) = Some m); [|now rewrite E].
  assert (Hm : endswith_any (suffixes_of m) (lower (stem ++ ext)) = true).
  { apply existsb_exists. exists (lower ext). split; [exact H|].
    rewrite lower_app. apply endswith_app. }
  unfold classify. destruct m; cbn [suffixes_of] in *.
  - now rewrite Hm.
  - rewrite Hm.
    replace (endswith_any image_suffixes (lower (stem ++ ext))) with false;
      [reflexivity|].
    rewrite lower_app. unfold endswith_any, endswith.
    rewrite rev_app_distr.
    cbn [video_suffixes In] in H.
    destruct H as [H|[H|[H|[H|[]]]]]; rewrite <- H; reflexivity.
Qed.

End Classes.

(** ** Further runs on the in-memory platform *)

Lemma organize_again_same_place_witness :
  organize example_config Image
    (organized_path example_config example_date dated_picture)
    (mem_world metadata_fs [])
  = move (organized_path example_config example_date dated_picture)
      (organized_path example_config example_date dated_picture)
      (printed
         (organized_line Image example_date
            (organized_path example_config example_date dated_picture))
         (mem_world metadata_fs
            [CallImageOpen organized_picture;
             CallExists (L "/out/2023")])).
Proof.
  apply (organize_again_same_place (P := Mem.platform) example_config
           Image dated_picture example_date (mem_world metadata_fs [])
           (mem_world metadata_fs [CallImageOpen organized_picture])).
  - discriminate.
  - reflexivity.
  - reflexivity.
Defined.

Lemma organize_same_timestamp_same_place_witness :
  exists destination,
    organize example_config Image dated_picture (mem_world twin_fs [])
    = move dated_picture destination
        (printed (organized_line Image example_date dated_picture)
           (mem_world (twin_fs ++ [(L "/out/2023", Mem.Dir)])
              [CallImageOpen dated_picture; CallExists (L "/out/2023");
               CallMakedirs (L "/out/2023")]))
    /\ organize example_config Image second_picture (mem_world twin_fs [])
       = move second_picture destination
           (printed (organized_line Image example_date second_picture)
              (mem_world (twin_fs ++ [(L "/out/2023", Mem.Dir)])
                 [CallImageOpen second_picture; CallExists (L "/out/2023");
                  CallMakedirs (L "/out/2023")])).
Proof.
  apply (organize_same_timestamp_same_place (P := Mem.platform)
           example_config Image Image dated_picture second_picture
           example_date None None
           (mem_world twin_fs [])
           (mem_world twin_fs [CallImageOpen dated_picture]) _
           (mem_world twin_fs [])
           (mem_world twin_fs [CallImageOpen second_picture]) _);
    reflexivity.
Defined.

Lemma get_image_exif_date_original_witness :
  get_image_exif_date camera_picture (mem_world metadata_fs [])
  = (Ok (Some example_date),
     mem_world metadata_fs [CallImageOpen camera_picture]).
Proof.
  apply (get_image_exif_date_original (P := Mem.platform) camera_picture
           (mem_world metadata_fs [])
           [(271, ExifStr (L "Canon"))]
           [(36868, ExifStr (L "2024:01:01 00:00:00"))] example_date);
    reflexivity.
Defined.

Lemma get_image_exif_date_trailing_text_witness :
  get_image_exif_date long_picture (mem_world metadata_fs [])
  = (Ok None,
     mem_world metadata_fs
       [CallImageOpen long_picture;
        PrintExn (L "Error reading EXIF from DSC_0043.jpg: ") ValueError]).
Proof.
  apply (get_image_exif_date_trailing_text (P := Mem.platform) long_picture
           (mem_world metadata_fs []) [] [] example_date (L ".25"));
    [reflexivity | reflexivity | reflexivity | discriminate].
Defined.

Lemma get_video_ffprobe_date_no_tag_witness :
  get_video_ffprobe_date clip (mem_world metadata_fs [])
  = (Ok None, mem_world metadata_fs [CallSubprocess (ffprobe_cmd clip)]).
Proof.
  apply (get_video_ffprobe_date_no_tag (P := Mem.platform) clip
           (mem_world metadata_fs [])
           (Some (JObj [(L "format", JObj [])]))
           (JObj [(L "format", JObj [])]) JNull);
    reflexivity.
Defined.

Lemma process_file_by_suffix_witness :
  process_file example_config dated_picture start_world
  = organize example_config Image dated_picture
      (printed (Print (L "Processing file: " ++ dated_picture))
         start_world).
Proof.
  apply (process_file_by_suffix (P := Mem.platform) example_config Image
           (L "/in/IMG_0033_20230809_162453") (L ".JPG") start_world).
  now left.
Defined.
